(** * Predictive maintenance: simulator, preprocessing and health classification

    A shallow embedding of [config.py], [data_simulator.py],
    [model_inference.py] and [monitoring_service.py], of model selection
    and saving in [train_model.py] and of the prediction endpoints of
    [app.py].

    Modelling conventions.
    - Python floats are modelled by the rationals they denote ([Q]); the
      comparisons, [min], [np.clip], [round] and [int] of the source are
      the exact operations on those rationals. Where an outcome depends
      on the rounding of the arithmetic itself (the scores compared by
      model selection), the rounding is a parameter of the model.
    - The interpreter's sources of non-determinism (the [random] module and
      the wall clock) are streams carried in a [World]; every call that
      reads one consumes its head.
    - Python dictionaries with string keys are [gmap string pyval].
    - Exceptions are values of [exn], carried in the left of a sum. *)

From Stdlib Require Import ZArith QArith Qround Lqa Lia String Ascii List DecimalString.
From Stdlib Require Import DecimalNat DecimalFacts.
From stdpp Require Import gmap strings.

Open Scope Q_scope.

(** ** Numbers *)

Module Num.

(** [a <= b] and [a < b] on floats, as booleans. *)
Definition leb (a b : Q) : bool := Qle_bool a b.
Definition ltb (a b : Q) : bool := negb (Qle_bool b a).

(** Python's [min(a, b)]: the first argument unless the second is smaller. *)
Definition min (a b : Q) : Q := if ltb b a then b else a.

(** [np.clip(x, lo, hi)], i.e. [minimum(maximum(x, lo), hi)]. *)
Definition clip (x lo hi : Q) : Q :=
  let m := if ltb x lo then lo else x in
  if ltb hi m then hi else m.

(** [int(x)] on a float: truncation towards zero. *)
Definition int (x : Q) : Z := Z.quot (Qnum x) (Zpos (Qden x)).

(** Round-half-to-even of a rational to an integer. *)
Definition rint (s : Q) : Z :=
  let f := Qfloor s in
  let d := s - inject_Z f in
  if ltb d (1 # 2) then f
  else if ltb (1 # 2) d then (f + 1)%Z
  else if Z.even f then f else (f + 1)%Z.

(** [round(x, ndigits)]: scale by [10^ndigits], round half to even, scale
    back. *)
Definition round (x : Q) (ndigits : nat) : Q :=
  Qmake (rint (x * inject_Z (10 ^ Z.of_nat ndigits)))
        (Z.to_pos (10 ^ Z.of_nat ndigits)).

End Num.

(** ** Strings *)

Module Str.

(** [c.upper()] on one ASCII character. *)
Definition upper_ascii (c : ascii) : ascii :=
  let n := nat_of_ascii c in
  if ((97 <=? n)%nat && (n <=? 122)%nat)%bool then ascii_of_nat (n - 32) else c.

(** [s.upper()]. *)
Fixpoint upper (s : string) : string :=
  match s with
  | EmptyString => EmptyString
  | String c s' => String (upper_ascii c) (upper s')
  end.

(** [s.replace(a, b)] for one-character [a] and [b]. *)
Fixpoint replace (a b : ascii) (s : string) : string :=
  match s with
  | EmptyString => EmptyString
  | String c s' => String (if Ascii.eqb c a then b else c) (replace a b s')
  end.

(** [s.zfill(width)]: pad with zeros on the left (no sign handling is
    needed for the unsigned decimals it is applied to). *)
Definition zfill (width : nat) (s : string) : string :=
  (String.concat "" (repeat "0"%string (width - String.length s)) ++ s)%string.

(** [str(n)] for a natural number. *)
Definition of_nat (n : nat) : string := NilZero.string_of_uint (Nat.to_uint n).

End Str.

(** ** Python values and exceptions *)

Inductive pyval : Type :=
| PNone
| PInt (z : Z)
| PFloat (q : Q)
| PStr (s : string).

Inductive exn : Type :=
| ValueError (msg : string)
| KeyError (key : string)
| TypeError (msg : string)
| IndexError (msg : string)
| AttributeError (msg : string)
| RuntimeError (msg : string).

(** A computation that may raise. *)
Definition except (A : Type) : Type := exn + A.

#[export] Instance except_ret : MRet except := fun _ a => inr a.
#[export] Instance except_bind : MBind except := fun _ _ f m =>
  match m with
  | inl e => inl e
  | inr a => f a
  end.

(** Map a raising function over a list, left to right; the first exception
    wins. *)
Fixpoint except_map {A B : Type} (f : A -> except B) (l : list A)
  : except (list B) :=
  match l with
  | [] => mret []
  | x :: l' => y ← f x; ys ← except_map f l'; mret (y :: ys)
  end.

(** ** config.py *)

Module config.

Definition NUM_MACHINES : Z := 5.
Definition FAILURE_THRESHOLD : Q := 0.6.

(** The dictionary is iterated with [.items()], so insertion order counts. *)
Definition HEALTH_STATUS : list (string * (Q * Q)) :=
  [ ("healthy", (0, 0.3));
    ("risk", (0.3, 0.6));
    ("maintenance_required", (0.6, 1.0)) ]%string.

Module SENSOR_RANGES.
Definition air_temperature : Q * Q := (295, 304).
Definition process_temperature : Q * Q := (305, 313).
Definition rotational_speed : Q * Q := (1200, 2500).
Definition torque : Q * Q := (15, 70).
Definition tool_wear : Q * Q := (0, 250).
Definition Type_ : list string := ["L"; "M"; "H"]%string.
End SENSOR_RANGES.

End config.

(** ** ModelInference._get_health_status *)

(** [status.upper().replace('_', ' ')]. *)
Definition band_label (status : string) : string :=
  Str.replace "_" " " (Str.upper status).

(** The loop over [HEALTH_STATUS.items()], for an arbitrary band table. *)
Fixpoint health_status_in (bands : list (string * (Q * Q)))
    (failure_probability : Q) : string :=
  match bands with
  | [] => "MAINTENANCE REQUIRED"
  | (status, (min_prob, max_prob)) :: rest =>
      if (Num.leb min_prob failure_probability
          && Num.ltb failure_probability max_prob)%bool
      then band_label status
      else health_status_in rest failure_probability
  end.

Definition _get_health_status (failure_probability : Q) : string :=
  health_status_in config.HEALTH_STATUS failure_probability.

(** [p] lies in none of the configured intervals. *)
Definition matches_no_band (p : Q) : bool :=
  forallb (fun '(_, (lo, hi)) => negb (Num.leb lo p && Num.ltb p hi))
          config.HEALTH_STATUS.

(** ** The world: random draws and the wall clock *)

(** [unif] lists the successive results of [random.random()], [normal] the
    successive standard-normal deviates behind [random.gauss], [clock] the
    successive results of [datetime.now().isoformat()]. *)
Record World : Type := {
  unif : nat -> Q;
  normal : nat -> Q;
  clock : nat -> string
}.

Definition behead {A : Type} (s : nat -> A) : nat -> A := fun n => s (S n).

(** A computation that reads the world. *)
Definition Sim (A : Type) : Type := World -> A * World.

#[export] Instance sim_ret : MRet Sim := fun _ a w => (a, w).
#[export] Instance sim_bind : MBind Sim := fun _ _ f m w =>
  let '(a, w') := m w in f a w'.

(** Monadic map, left to right. *)
Fixpoint sim_map {A B : Type} (f : A -> Sim B) (l : list A) : Sim (list B) :=
  match l with
  | [] => mret []
  | x :: l' => y ← f x; ys ← sim_map f l'; mret (y :: ys)
  end.

Module random.

(** [random.random()]: the next draw, in [[0, 1)]. *)
Definition random : Sim Q := fun w =>
  (unif w 0%nat,
   {| unif := behead (unif w); normal := normal w; clock := clock w |}).

(** [random.uniform(a, b)] is [a + (b - a) * random()]. *)
Definition uniform (a b : Q) : Sim Q :=
  r ← random; mret (a + (b - a) * r).

(** [random.gauss(mu, sigma)] is [mu + z * sigma] for a standard-normal
    deviate [z]. *)
Definition gauss (mu sigma : Q) : Sim Q := fun w =>
  (mu + normal w 0%nat * sigma,
   {| unif := unif w; normal := behead (normal w); clock := clock w |}).

(** [random.choice(seq)]: the element at a uniformly drawn index,
    [int(random() * len(seq))]. *)
Definition choice (seq : list string) : Sim string :=
  r ← random;
  mret (nth (Z.to_nat (Num.int (r * inject_Z (Z.of_nat (length seq))))) seq ""%string).

End random.

(** [datetime.now().isoformat()]. *)
Definition datetime_now_isoformat : Sim string := fun w =>
  (clock w 0%nat,
   {| unif := unif w; normal := normal w; clock := behead (clock w) |}).

(** ** data_simulator.py: MachineSimulator *)

Module MachineSimulator.

Record t : Type := {
  machine_id : string;
  machine_type : string;
  tool_wear : Q;
  air_temp_baseline : Q;
  process_temp_baseline : Q;
  speed_baseline : Q;
  torque_baseline : Q;
  degradation_rate : Q;
  operating_mode : string;
  cycles : Z
}.

(** The six draws of one branch of [__init__], in source order. *)
Definition init_draws (wear air proc speed torque rate : Q * Q)
  : Sim (Q * Q * Q * Q * Q * Q) :=
  tw ← random.uniform (fst wear) (snd wear);
  ab ← random.uniform (fst air) (snd air);
  pb ← random.uniform (fst proc) (snd proc);
  sb ← random.uniform (fst speed) (snd speed);
  tb ← random.uniform (fst torque) (snd torque);
  dr ← random.uniform (fst rate) (snd rate);
  mret (tw, ab, pb, sb, tb, dr).

Definition __init__ (machine_id : string) (machine_type : option string)
    (initial_condition : string) : Sim t :=
  mtype ← match machine_type with
          | Some s => if String.eqb s "" then random.choice config.SENSOR_RANGES.Type_
                      else mret s
          | None => random.choice config.SENSOR_RANGES.Type_
          end;
  '(tw, ab, pb, sb, tb, dr) ←
     (if String.eqb initial_condition "healthy" then
        init_draws (5, 45) (296, 299.5) (306, 309.5) (1600, 2100) (22, 38) (0.15, 0.3)
      else if String.eqb initial_condition "risk" then
        init_draws (165, 185) (301, 303) (311.2, 312.8) (1240, 1300) (63, 68) (0.2, 0.35)
      else if String.eqb initial_condition "maintenance" then
        init_draws (180, 220) (301, 303.5) (311, 313) (1220, 1320) (62, 70) (0.2, 0.35)
      else
        init_draws (5, 40) (296, 300) (306, 310) (1500, 2000) (25, 40) (0.2, 0.4));
  mret {| machine_id := machine_id;
          machine_type := mtype;
          tool_wear := tw;
          air_temp_baseline := ab;
          process_temp_baseline := pb;
          speed_baseline := sb;
          torque_baseline := tb;
          degradation_rate := dr;
          operating_mode := "normal";
          cycles := 0 |}.

Definition clip_to (x : Q) (range : Q * Q) : Q :=
  Num.clip x (fst range) (snd range).

(** The dictionary returned by [generate_sensor_data]. *)
Definition reading_dict (machine_id type_ air_temp process_temp speed torque
    tool_wear timestamp operating_mode cycles : pyval) : gmap string pyval :=
  <["machine_id" := machine_id]>
  (<["Type" := type_]>
  (<["Air temperature [K]" := air_temp]>
  (<["Process temperature [K]" := process_temp]>
  (<["Rotational speed [rpm]" := speed]>
  (<["Torque [Nm]" := torque]>
  (<["Tool wear [min]" := tool_wear]>
  (<["timestamp" := timestamp]>
  (<["operating_mode" := operating_mode]>
  (<["cycles" := cycles]> ∅))))))))).

Definition generate_sensor_data (self : t) : Sim (gmap string pyval * t) :=
  let cycles' := (cycles self + 1)%Z in
  u ← random.uniform 0.1 0.3;
  let wear_increment := degradation_rate self * u in
  let tool_wear' := Num.min (tool_wear self + wear_increment) 250 in
  air_temp_noise ← random.gauss 0 0.2;
  let air_temp :=
    clip_to (air_temp_baseline self + air_temp_noise)
            config.SENSOR_RANGES.air_temperature in
  let wear_factor := tool_wear' / 250.0 in
  u_proc ← random.uniform 8 12;
  let process_temp_base := air_temp + u_proc in
  g_proc ← random.gauss 0 0.3;
  let process_temp_noise := g_proc + wear_factor * 1.0 in
  let process_temp :=
    clip_to (process_temp_base + process_temp_noise)
            config.SENSOR_RANGES.process_temperature in
  speed_noise ← random.gauss 0 20;
  let speed :=
    clip_to (speed_baseline self + speed_noise)
            config.SENSOR_RANGES.rotational_speed in
  base_torque ← (if Num.ltb 0.6 wear_factor
                 then bump ← random.uniform 0 3; mret (torque_baseline self + bump)
                 else mret (torque_baseline self));
  torque_noise ← random.gauss 0 1.5;
  let torque :=
    clip_to (base_torque + torque_noise) config.SENSOR_RANGES.torque in
  '(air_b, speed_b, torque_b) ←
     (if (cycles' mod 100 =? 0)%Z
      then da ← random.uniform (-0.1) 0.1;
           ds ← random.uniform (-5) 5;
           dt ← random.uniform (-0.5) 0.5;
           mret (air_temp_baseline self + da,
                 speed_baseline self + ds,
                 torque_baseline self + dt)
      else mret (air_temp_baseline self, speed_baseline self,
                 torque_baseline self));
  timestamp ← datetime_now_isoformat;
  mret (reading_dict (PStr (machine_id self)) (PStr (machine_type self))
          (PFloat (Num.round air_temp 1)) (PFloat (Num.round process_temp 1))
          (PInt (Num.int speed)) (PFloat (Num.round torque 1))
          (PInt (Num.int tool_wear')) (PStr timestamp)
          (PStr (operating_mode self)) (PInt cycles'),
        {| machine_id := machine_id self;
           machine_type := machine_type self;
           tool_wear := tool_wear';
           air_temp_baseline := air_b;
           process_temp_baseline := process_temp_baseline self;
           speed_baseline := speed_b;
           torque_baseline := torque_b;
           degradation_rate := degradation_rate self;
           operating_mode := operating_mode self;
           cycles := cycles' |}).

(** Maintenance; the [print] is not modelled. *)
Definition reset_tool_wear (self : t) : Sim t :=
  tw ← random.uniform 0 20;
  dr ← random.uniform 0.2 0.5;
  mret {| machine_id := machine_id self;
          machine_type := machine_type self;
          tool_wear := tw;
          air_temp_baseline := air_temp_baseline self;
          process_temp_baseline := process_temp_baseline self;
          speed_baseline := speed_baseline self;
          torque_baseline := torque_baseline self;
          degradation_rate := dr;
          operating_mode := operating_mode self;
          cycles := cycles self |}.

End MachineSimulator.

(** A function returning either one value or a list of them. *)
Inductive one_or_many (A : Type) : Type :=
| One (a : A)
| Many (l : list A).
Arguments One {A} a.
Arguments Many {A} l.

(** Truthiness of an optional string argument: [None] and [''] are falsy. *)
Definition truthy_id (machine_id : option string) : bool :=
  match machine_id with
  | Some s => negb (String.eqb s "")
  | None => false
  end.

(** ** data_simulator.py: DataSimulator *)

Module DataSimulator.

Record t : Type := {
  num_machines : Z;
  machines : list MachineSimulator.t
}.

(** [f"M{str(i+1).zfill(3)}"]. *)
Definition machine_name (i : nat) : string :=
  ("M" ++ Str.zfill 3 (Str.of_nat (i + 1)))%string.

(** The list [conditions] after the padding loop. *)
Definition conditions (num_machines : Z) : list string :=
  ["healthy"; "healthy"; "healthy"; "risk"; "maintenance"]%string
  ++ repeat "healthy"%string (Z.to_nat (num_machines - 5)).

(** One iteration of the construction loop. *)
Definition init_machine (conds : list string) (i : nat) : Sim MachineSimulator.t :=
  machine_type ← random.choice config.SENSOR_RANGES.Type_;
  let condition := nth i conds "healthy"%string in
  MachineSimulator.__init__ (machine_name i) (Some machine_type) condition.

(** [num_machines or config.NUM_MACHINES]; the [print]s are not modelled. *)
Definition __init__ (num_machines : option Z) : Sim t :=
  let n := match num_machines with
           | Some k => if (k =? 0)%Z then config.NUM_MACHINES else k
           | None => config.NUM_MACHINES
           end in
  ms ← sim_map (init_machine (conditions n)) (seq 0 (Z.to_nat n));
  mret {| num_machines := n; machines := ms |}.

(** [next((m for m in self.machines if m.machine_id == machine_id), None)],
    with the position of the object found. *)
Fixpoint find_machine (ms : list MachineSimulator.t) (machine_id : string)
    (i : nat) : option (nat * MachineSimulator.t) :=
  match ms with
  | [] => None
  | m :: rest =>
      if String.eqb (MachineSimulator.machine_id m) machine_id
      then Some (i, m)
      else find_machine rest machine_id (S i)
  end.

(** [[machine.generate_sensor_data() for machine in self.machines]]; each
    machine object is updated in place. *)
Fixpoint generate_all (ms : list MachineSimulator.t)
  : Sim (list (gmap string pyval) * list MachineSimulator.t) :=
  match ms with
  | [] => mret ([], [])
  | m :: rest =>
      '(r, m') ← MachineSimulator.generate_sensor_data m;
      '(rs, rest') ← generate_all rest;
      mret (r :: rs, m' :: rest')
  end.

Definition generate_data (self : t) (machine_id : option string)
  : Sim (except (one_or_many (gmap string pyval)) * t) :=
  if truthy_id machine_id then
    let id := default ""%string machine_id in
    match find_machine (machines self) id 0 with
    | Some (i, machine) =>
        '(r, machine') ← MachineSimulator.generate_sensor_data machine;
        mret (inr (One r),
              {| num_machines := num_machines self;
                 machines := <[i := machine']> (machines self) |})
    | None =>
        mret (inl (ValueError ("Machine " ++ id ++ " not found")), self)
    end
  else
    '(rs, ms') ← generate_all (machines self);
    mret (inr (Many rs),
          {| num_machines := num_machines self; machines := ms' |}).

Definition perform_maintenance (self : t) (machine_id : string) : Sim (bool * t) :=
  match find_machine (machines self) machine_id 0 with
  | Some (i, machine) =>
      machine' ← MachineSimulator.reset_tool_wear machine;
      mret (true,
            {| num_machines := num_machines self;
               machines := <[i := machine']> (machines self) |})
  | None => mret (false, self)
  end.

End DataSimulator.

(** ** Python operators on values *)

Module Py.

(** Truth value of an object. *)
Definition truthy (v : pyval) : bool :=
  match v with
  | PNone => false
  | PInt z => negb (z =? 0)%Z
  | PFloat q => negb (Qeq_bool q 0)
  | PStr s => negb (String.eqb s "")
  end.

(** [a or b]. *)
Definition or (a b : pyval) : pyval := if truthy a then a else b.

(** [d.get(k)], with default [None]. *)
Definition get (d : gmap string pyval) (k : string) : pyval :=
  default PNone (d !! k).

(** [d[k]]. *)
Definition getitem (d : gmap string pyval) (k : string) : except pyval :=
  match d !! k with
  | Some v => inr v
  | None => inl (KeyError k)
  end.

Definition type_name (v : pyval) : string :=
  match v with
  | PNone => "NoneType"
  | PInt _ => "int"
  | PFloat _ => "float"
  | PStr _ => "str"
  end.

Definition unsupported (op : string) (a b : pyval) : exn :=
  TypeError ("unsupported operand type(s) for " ++ op ++ ": '"
             ++ type_name a ++ "' and '" ++ type_name b ++ "'").

(** [a - b]. *)
Definition sub (a b : pyval) : except pyval :=
  match a, b with
  | PInt x, PInt y => inr (PInt (x - y))
  | PInt x, PFloat y => inr (PFloat (inject_Z x - y))
  | PFloat x, PInt y => inr (PFloat (x - inject_Z y))
  | PFloat x, PFloat y => inr (PFloat (x - y))
  | _, _ => inl (unsupported "-" a b)
  end.

(** [s * n] on a string: [n] copies, none when [n <= 0]. *)
Definition repeat_str (s : string) (n : Z) : string :=
  String.concat "" (repeat s (Z.to_nat n)).

(** The error of repeating a string a number of times that is no [int]. *)
Definition not_a_count (b : pyval) : exn :=
  TypeError ("can't multiply sequence by non-int of type '"
             ++ type_name b ++ "'").

(** [a * b]. *)
Definition mul (a b : pyval) : except pyval :=
  match a, b with
  | PInt x, PInt y => inr (PInt (x * y))
  | PInt x, PFloat y => inr (PFloat (inject_Z x * y))
  | PFloat x, PInt y => inr (PFloat (x * inject_Z y))
  | PFloat x, PFloat y => inr (PFloat (x * y))
  | PStr s, PInt n => inr (PStr (repeat_str s n))
  | PInt n, PStr s => inr (PStr (repeat_str s n))
  | PStr _, other => inl (not_a_count other)
  | other, PStr _ => inl (not_a_count other)
  | _, _ => inl (unsupported "*" a b)
  end.

(** [a / 1000]. *)
Definition div1000 (a : pyval) : except pyval :=
  match a with
  | PInt x => inr (PFloat (inject_Z x / 1000))
  | PFloat x => inr (PFloat (x / 1000))
  | _ => inl (unsupported "/" a (PInt 1000))
  end.

End Py.

(** ** model_inference.py *)

(** The fitted [sklearn.preprocessing.LabelEncoder] loaded from the model
    directory: its sorted vocabulary. *)
Module LabelEncoder.

Record t : Type := { classes_ : list string }.

Fixpoint index_of (s : string) (l : list string) (i : Z) : option Z :=
  match l with
  | [] => None
  | c :: rest => if String.eqb c s then Some i else index_of s rest (i + 1)%Z
  end.

(** [encoder.transform([v])[0]]: the position of [v] in the vocabulary; a
    label outside it raises [ValueError]. *)
Definition transform (enc : t) (v : pyval) : except pyval :=
  match v with
  | PStr s =>
      match index_of s (classes_ enc) 0 with
      | Some i => inr (PInt i)
      | None => inl (ValueError ("y contains previously unseen labels: " ++ s))
      end
  | _ => inl (ValueError "y contains previously unseen labels")
  end.

End LabelEncoder.

(** The frozen classifier loaded from the model directory: what
    [model.predict(features)[0]] and [model.predict_proba(features)[0]]
    answer on a feature matrix. *)
Module Model.

Record t : Type := {
  predict : list (list pyval) -> except Z;
  predict_proba : list (list pyval) -> except (Q * Q)
}.

End Model.

Module ModelInference.

(** The attributes set by [load_model]; [None] before a successful load. *)
Record t : Type := {
  model : option Model.t;
  label_encoder : option LabelEncoder.t;
  feature_columns : option (list string);
  model_loaded : bool
}.

(** A prediction result (the dictionary built in [predict]). *)
Record result : Type := {
  machine_id : pyval;
  prediction : Z;
  failure_probability : Q;
  normal_probability : Q;
  health_status : string;
  sensor_data : gmap string pyval;
  alert : bool
}.

Definition attribute {A : Type} (o : option A) (name : string) : except A :=
  match o with
  | Some a => inr a
  | None => inl (AttributeError ("'NoneType' object has no attribute '" ++ name ++ "'"))
  end.

(** The two-spelling lookups of [preprocess_input]. *)
Definition air_temp_of (sensor_data : gmap string pyval) : pyval :=
  Py.or (Py.get sensor_data "Air temperature [K]") (Py.get sensor_data "Air_temperature_K").
Definition process_temp_of (sensor_data : gmap string pyval) : pyval :=
  Py.or (Py.get sensor_data "Process temperature [K]") (Py.get sensor_data "Process_temperature_K").
Definition speed_of (sensor_data : gmap string pyval) : pyval :=
  Py.or (Py.get sensor_data "Rotational speed [rpm]") (Py.get sensor_data "Rotational_speed_rpm").
Definition torque_of (sensor_data : gmap string pyval) : pyval :=
  Py.or (Py.get sensor_data "Torque [Nm]") (Py.get sensor_data "Torque_Nm").
Definition tool_wear_of (sensor_data : gmap string pyval) : pyval :=
  Py.or (Py.get sensor_data "Tool wear [min]") (Py.get sensor_data "Tool_wear_min").

(** The dictionary [features]. *)
Definition features_dict (air_temp process_temp speed torque tool_wear
    type_encoded temp_diff power : pyval) : gmap string pyval :=
  <["Air_temperature_K" := air_temp]>
  (<["Process_temperature_K" := process_temp]>
  (<["Rotational_speed_rpm" := speed]>
  (<["Torque_Nm" := torque]>
  (<["Tool_wear_min" := tool_wear]>
  (<["Type_encoded" := type_encoded]>
  (<["Temp_diff" := temp_diff]>
  (<["Power" := power]> ∅))))))).

(** [pd.DataFrame([features])[columns].values]: one row, the named columns
    in the order asked; an unknown column raises [KeyError]. *)
Definition select_columns (features : gmap string pyval)
    (columns : option (list string)) : except (list (list pyval)) :=
  match columns with
  | None => inl (KeyError "None")
  | Some cols => row ← except_map (Py.getitem features) cols; mret [row]
  end.

Definition preprocess_input (self : t) (sensor_data : gmap string pyval)
  : except (list (list pyval)) :=
  encoder ← attribute (label_encoder self) "transform";
  type_ ← Py.getitem sensor_data "Type";
  type_encoded ← LabelEncoder.transform encoder type_;
  let air_temp := air_temp_of sensor_data in
  let process_temp := process_temp_of sensor_data in
  let speed := speed_of sensor_data in
  let torque := torque_of sensor_data in
  let tool_wear := tool_wear_of sensor_data in
  temp_diff ← Py.sub process_temp air_temp;
  product ← Py.mul torque speed;
  power ← Py.div1000 product;
  select_columns
    (features_dict air_temp process_temp speed torque tool_wear
                   type_encoded temp_diff power)
    (feature_columns self).

(** The loop that copies [data] into [clean_sensor_data] converts numpy
    scalars to Python numbers; both are the same [pyval], so the copy has
    the keys and values of [data]. *)
Definition clean_sensor_data (data : gmap string pyval) : gmap string pyval :=
  data.

(** The body of the [for data in sensor_data] loop. *)
Definition predict_one (self : t) (data : gmap string pyval) : except result :=
  features ← preprocess_input self data;
  clf ← attribute (model self) "predict";
  prediction ← Model.predict clf features;
  probability ← Model.predict_proba clf features;
  let failure_prob := snd probability in
  let health_status := _get_health_status failure_prob in
  mret {| machine_id := default (PStr "Unknown") (data !! "machine_id");
          prediction := prediction;
          failure_probability := Num.round failure_prob 4;
          normal_probability := Num.round (fst probability) 4;
          health_status := health_status;
          sensor_data := clean_sensor_data data;
          alert := Num.leb config.FAILURE_THRESHOLD failure_prob |}.

Definition predict (self : t) (sensor_data : one_or_many (gmap string pyval))
  : except (one_or_many result) :=
  if negb (model_loaded self)
  then inl (RuntimeError "Model not loaded. Call load_model() first.")
  else
    let sensor_data :=
      match sensor_data with
      | One d => [d]
      | Many l => l
      end in
    predictions ← except_map (predict_one self) sensor_data;
    if (1 <? length predictions)%nat then inr (Many predictions)
    else match predictions with
         | r :: _ => inr (One r)
         | [] => inl (IndexError "list index out of range")
         end.

End ModelInference.

(** ** monitoring_service.py *)

Module MonitoringService.

Record t : Type := {
  simulator : DataSimulator.t;
  model_inference : ModelInference.t
}.

(** Feed what [generate_data] returned (or raised) to [predict]. *)
Definition predict_generated (self : t) (machine_id : option string)
  : Sim (except (one_or_many ModelInference.result) * t) :=
  '(sensor_data, simulator') ← DataSimulator.generate_data (simulator self) machine_id;
  let self' := {| simulator := simulator';
                  model_inference := model_inference self |} in
  mret (match sensor_data with
        | inl e => inl e
        | inr d => ModelInference.predict (model_inference self) d
        end, self').

Definition get_real_time_predictions (self : t)
  : Sim (except (one_or_many ModelInference.result) * t) :=
  predict_generated self None.

Definition get_machine_prediction (self : t) (machine_id : string)
  : Sim (except (one_or_many ModelInference.result) * t) :=
  predict_generated self (Some machine_id).

Definition perform_maintenance (self : t) (machine_id : string) : Sim (bool * t) :=
  '(ok, simulator') ← DataSimulator.perform_maintenance (simulator self) machine_id;
  mret (ok, {| simulator := simulator';
               model_inference := model_inference self |}).

End MonitoringService.

(** ** Driving one machine, and what a reading must satisfy *)

(** A value lies in a sensor's configured range. *)
Definition in_range (v : pyval) (range : Q * Q) : bool :=
  match v with
  | PInt z => Num.leb (fst range) (inject_Z z) && Num.leb (inject_Z z) (snd range)
  | PFloat q => Num.leb (fst range) q && Num.leb q (snd range)
  | _ => false
  end.

Definition field_in_range (reading : gmap string pyval) (key : string)
    (range : Q * Q) : bool :=
  match reading !! key with
  | Some v => in_range v range
  | None => false
  end.

(** All five sensor values of a reading are within [config.SENSOR_RANGES]. *)
Definition reading_in_range (reading : gmap string pyval) : bool :=
  field_in_range reading "Air temperature [K]" config.SENSOR_RANGES.air_temperature
  && field_in_range reading "Process temperature [K]" config.SENSOR_RANGES.process_temperature
  && field_in_range reading "Rotational speed [rpm]" config.SENSOR_RANGES.rotational_speed
  && field_in_range reading "Torque [Nm]" config.SENSOR_RANGES.torque
  && field_in_range reading "Tool wear [min]" config.SENSOR_RANGES.tool_wear.

(** The two calls a client can make on a machine. *)
Inductive op : Type :=
| OpGenerate
| OpMaintain.

(** One call: the machine before, what was returned, the machine after. *)
Record step : Type := {
  step_op : op;
  before : MachineSimulator.t;
  returned : option (gmap string pyval);
  after : MachineSimulator.t
}.

(** Run a sequence of calls on one machine. *)
Fixpoint run (ops : list op) (m : MachineSimulator.t) : Sim (list step) :=
  match ops with
  | [] => mret []
  | OpGenerate :: rest =>
      '(r, m') ← MachineSimulator.generate_sensor_data m;
      steps ← run rest m';
      mret ({| step_op := OpGenerate; before := m; returned := Some r;
               after := m' |} :: steps)
  | OpMaintain :: rest =>
      m' ← MachineSimulator.reset_tool_wear m;
      steps ← run rest m';
      mret ({| step_op := OpMaintain; before := m; returned := None;
               after := m' |} :: steps)
  end.

(** Every draw of [random.random()] lies in [[0, 1)]. *)
Definition valid_world (w : World) : Prop :=
  forall n : nat, 0 <= unif w n /\ unif w n < 1.

(** The timestamp recorded in a reading or in a result's sensor snapshot. *)
Definition timestamp_of (reading : gmap string pyval) : option string :=
  match reading !! "timestamp" with
  | Some (PStr s) => Some s
  | _ => None
  end.

(** The dictionaries [predict] iterates over, and the results it returns. *)
Definition items {A : Type} (x : one_or_many A) : list A :=
  match x with
  | One a => [a]
  | Many l => l
  end.

(** A machine id is absent from a fleet. *)
Definition absent (machine_id : string) (ms : list MachineSimulator.t) : bool :=
  forallb (fun m => negb (String.eqb (MachineSimulator.machine_id m) machine_id)) ms.

(** A world whose draws are all [r], whose deviates are all [z] and whose
    clock ticks once per reading. *)
Definition steady_world (r z : Q) : World :=
  {| unif := fun _ => r; normal := fun _ => z; clock := fun n => Str.of_nat n |}.

(** The life of one machine: construction, then a sequence of calls. *)
Definition simulate (machine_id : string) (machine_type : option string)
    (initial_condition : string) (ops : list op) : Sim (list step) :=
  m ← MachineSimulator.__init__ machine_id machine_type initial_condition;
  run ops m.

(** The steps of a run are chained: each call starts from the machine the
    previous one left. *)
Fixpoint linked (m : MachineSimulator.t) (steps : list step) : Prop :=
  match steps with
  | [] => True
  | s :: rest => before s = m /\ linked (after s) rest
  end.

(** Every reading returned during a run is within the sensor ranges. *)
Definition readings_in_range (steps : list step) : Prop :=
  Forall (fun s => forall r, returned s = Some r -> reading_in_range r = true)
         steps.

(** How the wear accumulator may move in one call. *)
Definition wear_step_ok (s : step) : Prop :=
  let wear_before := MachineSimulator.tool_wear (before s) in
  let wear_after := MachineSimulator.tool_wear (after s) in
  match step_op s with
  | OpGenerate => wear_before <= wear_after /\ wear_after <= 250
  | OpMaintain =>
      0 <= wear_after /\ wear_after < 20 /\
      (20 <= wear_before -> wear_after < wear_before)
  end.

(** The state invariant of a machine. *)
Definition wf (m : MachineSimulator.t) : Prop :=
  0 <= MachineSimulator.tool_wear m /\ MachineSimulator.tool_wear m <= 250 /\
  0 <= MachineSimulator.degradation_rate m.

(** [c], run in a valid world, returns a value satisfying [post] and leaves
    a valid world. *)
Definition returns {A : Type} (c : Sim A) (post : A -> Prop) : Prop :=
  forall w, valid_world w -> post (fst (c w)) /\ valid_world (snd (c w)).

(** What one step of a run guarantees. *)
Definition step_ok (s : step) : Prop :=
  (forall r, returned s = Some r -> reading_in_range r = true) /\
  wear_step_ok s.

(** A world scripted for the first draws: [random()] answers [r0] for the
    first [k] draws and [r1] afterwards. *)
Definition scripted_world (k : nat) (r0 r1 : Q) : World :=
  {| unif := fun n => if (n <? k)%nat then r0 else r1;
     normal := fun _ => 0;
     clock := fun n => Str.of_nat n |}.

(** ** Example objects *)

(** The vocabulary [LabelEncoder] learns from the [Type] column, sorted. *)
Definition demo_encoder : LabelEncoder.t :=
  {| LabelEncoder.classes_ := ["H"; "L"; "M"]%string |}.

(** The feature columns the training pipeline records in its metadata. *)
Definition demo_columns : list string :=
  ["Air_temperature_K"; "Process_temperature_K"; "Rotational_speed_rpm";
   "Torque_Nm"; "Tool_wear_min"; "Type_encoded"; "Temp_diff"; "Power"]%string.

(** A classifier that answers the same label and probabilities on every
    input, loaded together with the encoder and the columns. *)
Definition model_answering (label : Z) (probability : Q * Q) : Model.t :=
  {| Model.predict := fun _ => inr label;
     Model.predict_proba := fun _ => inr probability |}.

Definition inference_with (clf : Model.t) : ModelInference.t :=
  {| ModelInference.model := Some clf;
     ModelInference.label_encoder := Some demo_encoder;
     ModelInference.feature_columns := Some demo_columns;
     ModelInference.model_loaded := true |}.

(** The classifier of the examples: failure probability exactly 0.6. *)
Definition demo_model : Model.t := model_answering 1 (0.4, 0.6).
Definition demo_inference : ModelInference.t := inference_with demo_model.

Definition demo_world : World := steady_world 0.5 0.

(** The default fleet of five machines, and a fleet of one. *)
Definition demo_fleet : DataSimulator.t :=
  fst (DataSimulator.__init__ None demo_world).
Definition single_fleet : DataSimulator.t :=
  fst (DataSimulator.__init__ (Some 1%Z) demo_world).

Definition demo_service : MonitoringService.t :=
  {| MonitoringService.simulator := demo_fleet;
     MonitoringService.model_inference := demo_inference |}.
Definition single_service : MonitoringService.t :=
  {| MonitoringService.simulator := single_fleet;
     MonitoringService.model_inference := demo_inference |}.

(** A reading keyed by the bracketed-unit names. *)
Definition bracketed_reading (type_ air process speed torque wear : pyval)
  : gmap string pyval :=
  <["Type" := type_]>
  (<["Air temperature [K]" := air]>
  (<["Process temperature [K]" := process]>
  (<["Rotational speed [rpm]" := speed]>
  (<["Torque [Nm]" := torque]>
  (<["Tool wear [min]" := wear]> ∅))))).

(** The same reading keyed by the normalized names. *)
Definition normalized_reading (type_ air process speed torque wear : pyval)
  : gmap string pyval :=
  <["Type" := type_]>
  (<["Air_temperature_K" := air]>
  (<["Process_temperature_K" := process]>
  (<["Rotational_speed_rpm" := speed]>
  (<["Torque_Nm" := torque]>
  (<["Tool_wear_min" := wear]> ∅))))).

(** The sample reading of the module's self-test. *)
Definition test_data : gmap string pyval :=
  <["machine_id" := PStr "M001"]>
  (bracketed_reading (PStr "M") (PFloat 298.1) (PFloat 308.6) (PInt 1551)
                     (PFloat 42.8) (PInt 150)).

(** The sample reading without its tool wear, and without its air
    temperature. *)
Definition reading_without_wear : gmap string pyval :=
  delete "Tool wear [min]"%string test_data.
Definition reading_without_air : gmap string pyval :=
  delete "Air temperature [K]"%string test_data.

(** A reading with tool wear 0, under each spelling. *)
Definition bracketed_zero_wear : gmap string pyval :=
  bracketed_reading (PStr "M") (PFloat 298.1) (PFloat 308.6) (PInt 1551)
                    (PFloat 42.8) (PInt 0).
Definition normalized_zero_wear : gmap string pyval :=
  normalized_reading (PStr "M") (PFloat 298.1) (PFloat 308.6) (PInt 1551)
                     (PFloat 42.8) (PInt 0).

(** What a call produced: nothing if it raised, else how many items. *)
Definition produced {A : Type} (r : except (one_or_many A)) : option nat :=
  match r with
  | inl _ => None
  | inr o => Some (length (items o))
  end.

(** The shape of what [predict] returns for [n] predictions: a bare result
    for exactly one, a list for more. *)
Definition shape {A : Type} (out : one_or_many A) (n : nat) : Prop :=
  match out with
  | One _ => n = 1%nat
  | Many l => (1 < n)%nat /\ length l = n
  end.

(** The timestamps carried by a batch of results, in order. *)
Definition result_timestamps (results : list ModelInference.result)
  : list (option string) :=
  map (fun r => timestamp_of (ModelInference.sensor_data r)) results.

(** All results of a batch carry the same timestamp. *)
Definition same_timestamps (results : list ModelInference.result) : bool :=
  match result_timestamps results with
  | [] => true
  | t :: rest => forallb (fun t' => bool_decide (t' = t)) rest
  end.

(** How [predict] computes the alert and the band of one result from the
    classifier's answer on the preprocessed reading. *)
Definition verdict_of (self : ModelInference.t) (data : gmap string pyval)
    (r : ModelInference.result) : Prop :=
  exists clf features p,
    ModelInference.model self = Some clf /\
    ModelInference.preprocess_input self data = inr features /\
    Model.predict_proba clf features = inr p /\
    (ModelInference.alert r = true <-> config.FAILURE_THRESHOLD <= snd p) /\
    ModelInference.health_status r = _get_health_status (snd p) /\
    (snd p == 0.6 ->
     ModelInference.alert r = true /\
     ModelInference.health_status r = band_label "maintenance_required").

(** The values [preprocess_input] puts in the [features] dictionary. *)
Definition features_of (type_encoded temp_diff power : pyval)
    (sensor_data : gmap string pyval) : gmap string pyval :=
  ModelInference.features_dict
    (ModelInference.air_temp_of sensor_data)
    (ModelInference.process_temp_of sensor_data)
    (ModelInference.speed_of sensor_data)
    (ModelInference.torque_of sensor_data)
    (ModelInference.tool_wear_of sensor_data)
    type_encoded temp_diff power.


(** The number a value denotes, if it is one. *)
Definition num_of (v : pyval) : option Q :=
  match v with
  | PInt z => Some (inject_Z z)
  | PFloat q => Some q
  | _ => None
  end.




(** The readings of a fleet-wide call: machine by machine, in fleet order,
    each reading is what [generate_sensor_data] returns for its machine in
    the world the previous machine left. *)
Inductive fleet_readings
  : list MachineSimulator.t -> World -> list (gmap string pyval) ->
    list MachineSimulator.t -> World -> Prop :=
| fleet_readings_nil (w : World) : fleet_readings [] w [] [] w
| fleet_readings_cons (m : MachineSimulator.t) (ms : list MachineSimulator.t)
    (w : World) (r : gmap string pyval) (m' : MachineSimulator.t) (w1 : World)
    (rs : list (gmap string pyval)) (ms' : list MachineSimulator.t) (w2 : World) :
    MachineSimulator.generate_sensor_data m w = (r, m', w1) ->
    fleet_readings ms w1 rs ms' w2 ->
    fleet_readings (m :: ms) w (r :: rs) (m' :: ms') w2.

(** ** data_simulator.py: the status report *)

Module FleetStatus.

(** One entry of [DataSimulator.get_machines_info]. *)
Definition machine_info (m : MachineSimulator.t) : gmap string pyval :=
  <["machine_id" := PStr (MachineSimulator.machine_id m)]>
  (<["type" := PStr (MachineSimulator.machine_type m)]>
  (<["tool_wear" := PInt (Num.int (MachineSimulator.tool_wear m))]>
  (<["operating_mode" := PStr (MachineSimulator.operating_mode m)]>
  (<["cycles" := PInt (MachineSimulator.cycles m)]>
  (<["degradation_rate" :=
       PFloat (Num.round (MachineSimulator.degradation_rate m) 2)]> ∅))))).

(** [DataSimulator.get_machines_info]. *)
Definition get_machines_info (self : DataSimulator.t)
  : list (gmap string pyval) :=
  map machine_info (DataSimulator.machines self).

(** [MonitoringService.get_machines_status]. *)
Definition get_machines_status (self : MonitoringService.t)
  : list (gmap string pyval) :=
  get_machines_info (MonitoringService.simulator self).

End FleetStatus.

(** ** What a run of one machine shows *)

(** [lo <= x <= hi]. *)
Definition within (x lo hi : Q) : Prop := lo <= x /\ x <= hi.

(** The number of readings asked for in a sequence of calls. *)
Fixpoint readings_asked (ops : list op) : Z :=
  match ops with
  | [] => 0
  | OpGenerate :: rest => (1 + readings_asked rest)%Z
  | OpMaintain :: rest => readings_asked rest
  end.

(** The machine a run leaves behind. *)
Fixpoint final_machine (m : MachineSimulator.t) (steps : list step)
  : MachineSimulator.t :=
  match steps with
  | [] => m
  | s :: rest => final_machine (after s) rest
  end.

(** What a call leaves alone, and what the reading echoes. *)
Definition step_frame (s : step) : Prop :=
  let m := before s in
  let m' := after s in
  MachineSimulator.machine_id m' = MachineSimulator.machine_id m /\
  MachineSimulator.machine_type m' = MachineSimulator.machine_type m /\
  MachineSimulator.operating_mode m' = MachineSimulator.operating_mode m /\
  MachineSimulator.process_temp_baseline m'
  = MachineSimulator.process_temp_baseline m /\
  match step_op s with
  | OpGenerate =>
      MachineSimulator.cycles m' = (MachineSimulator.cycles m + 1)%Z /\
      MachineSimulator.degradation_rate m' = MachineSimulator.degradation_rate m /\
      exists r,
        returned s = Some r /\
        r !! "machine_id" = Some (PStr (MachineSimulator.machine_id m)) /\
        r !! "Type" = Some (PStr (MachineSimulator.machine_type m)) /\
        r !! "operating_mode" = Some (PStr (MachineSimulator.operating_mode m)) /\
        r !! "cycles" = Some (PInt (MachineSimulator.cycles m')) /\
        r !! "Tool wear [min]"
        = Some (PInt (Num.int (MachineSimulator.tool_wear m')))
  | OpMaintain =>
      returned s = None /\
      MachineSimulator.cycles m' = MachineSimulator.cycles m /\
      MachineSimulator.air_temp_baseline m' = MachineSimulator.air_temp_baseline m /\
      MachineSimulator.speed_baseline m' = MachineSimulator.speed_baseline m /\
      MachineSimulator.torque_baseline m' = MachineSimulator.torque_baseline m
  end.

(** The drifting baselines move only at a reading that brings the cycle
    counter to a multiple of 100. *)
Definition drift_ok (s : step) : Prop :=
  let m := before s in
  let m' := after s in
  step_op s = OpGenerate ->
  (MachineSimulator.cycles m' mod 100 <> 0)%Z ->
  MachineSimulator.air_temp_baseline m' = MachineSimulator.air_temp_baseline m /\
  MachineSimulator.speed_baseline m' = MachineSimulator.speed_baseline m /\
  MachineSimulator.torque_baseline m' = MachineSimulator.torque_baseline m.

(** The three drifting baselines of two machines are the same. *)
Definition same_baselines (m m' : MachineSimulator.t) : Prop :=
  MachineSimulator.air_temp_baseline m' = MachineSimulator.air_temp_baseline m /\
  MachineSimulator.speed_baseline m' = MachineSimulator.speed_baseline m /\
  MachineSimulator.torque_baseline m' = MachineSimulator.torque_baseline m.

(** The degradation rate stays in [[0.15, 0.5]]; a reading leaves it as it
    is, maintenance draws a new one in [[0.2, 0.5]]. *)
Definition rate_ok (s : step) : Prop :=
  let m := before s in
  let m' := after s in
  within (MachineSimulator.degradation_rate m') 0.15 0.5 /\
  match step_op s with
  | OpGenerate =>
      MachineSimulator.degradation_rate m' = MachineSimulator.degradation_rate m
  | OpMaintain => within (MachineSimulator.degradation_rate m') 0.2 0.5
  end.

(** The invariant behind [rate_ok]. *)
Definition rated (m : MachineSimulator.t) : Prop :=
  wf m /\ within (MachineSimulator.degradation_rate m) 0.15 0.5.

(** ** What the fleet keeps *)

(** The machine type is one of [config.SENSOR_RANGES['Type']]. *)
Definition known_type (m : MachineSimulator.t) : Prop :=
  In (MachineSimulator.machine_type m) config.SENSOR_RANGES.Type_.

(** The state every machine of a fleet is in. *)
Definition machine_ok (m : MachineSimulator.t) : Prop :=
  rated m /\ known_type m.

(** Read the serial number back from a machine id. *)
Definition parse_machine_name (s : string) : option nat :=
  match s with
  | String "M" digits => Nat.of_uint <$> NilEmpty.uint_of_string digits
  | _ => None
  end.

(** The wear a freshly constructed machine at position [i] starts with:
    the fourth machine is at risk, the fifth needs maintenance, all others
    are healthy. *)
Definition starting_wear (i : nat) : Q * Q :=
  match i with
  | 3%nat => (165, 185)
  | 4%nat => (180, 220)
  | _ => (5, 45)
  end.

(** The calls a client can make on a fleet. *)
Inductive fleet_op : Type :=
| FleetGenerate (machine_id : option string)
| FleetMaintain (machine_id : string).

(** Run a sequence of calls on a fleet, collecting every reading that was
    returned. *)
Fixpoint run_fleet (ops : list fleet_op) (self : DataSimulator.t)
  : Sim (list (gmap string pyval) * DataSimulator.t) :=
  match ops with
  | [] => mret ([], self)
  | FleetGenerate machine_id :: rest =>
      '(out, self') ← DataSimulator.generate_data self machine_id;
      '(readings, final) ← run_fleet rest self';
      mret (match out with
            | inl _ => readings
            | inr o => items o ++ readings
            end, final)
  | FleetMaintain machine_id :: rest =>
      '(_, self') ← DataSimulator.perform_maintenance self machine_id;
      run_fleet rest self'
  end.

(** A fleet is constructed, then used. *)
Definition fleet_session (num_machines : option Z) (ops : list fleet_op)
  : Sim (list (gmap string pyval) * DataSimulator.t) :=
  self ← DataSimulator.__init__ num_machines;
  run_fleet ops self.

(** What one machine and its reading look like after a fleet-wide tick. *)
Definition ticked (m : MachineSimulator.t) (r : gmap string pyval)
    (m' : MachineSimulator.t) : Prop :=
  step_frame {| step_op := OpGenerate; before := m; returned := Some r;
                after := m' |}.

(** A status entry reports what a reading reported. *)
Definition info_matches (info reading : gmap string pyval) : Prop :=
  info !! "machine_id" = reading !! "machine_id" /\
  info !! "type" = reading !! "Type" /\
  info !! "tool_wear" = reading !! "Tool wear [min]" /\
  info !! "cycles" = reading !! "cycles" /\
  info !! "operating_mode" = reading !! "operating_mode".

(** ** Numbers inside Python values *)

(** A value is a number within [[lo, hi]]. *)
Definition num_within (v : pyval) (lo hi : Q) : Prop :=
  exists q, num_of v = Some q /\ within q lo hi.

(** The classifier answers on every feature matrix. *)
Definition answers (clf : Model.t) : Prop :=
  forall features, exists label p,
    Model.predict clf features = inr label /\
    Model.predict_proba clf features = inr p.

(** The encoder knows every machine type the simulator draws. *)
Definition knows_types (encoder : LabelEncoder.t) : Prop :=
  forall ty, In ty config.SENSOR_RANGES.Type_ ->
    exists code, LabelEncoder.transform encoder (PStr ty) = inr code.

(** The three labels [_get_health_status] can return. *)
Definition band_labels_list : list string :=
  ["HEALTHY"; "RISK"; "MAINTENANCE REQUIRED"]%string.

(** ** Paths and more string functions *)

Module Path.

(** [os.path.join(a, b)] on POSIX: an absolute [b] replaces [a]; otherwise
    the two are joined by one slash unless [a] is empty or ends with one. *)
Definition ends_with_slash (a : string) : bool :=
  match String.get (String.length a - 1) a with
  | Some c => Ascii.eqb c "/"
  | None => false
  end.

Definition join (a b : string) : string :=
  match b with
  | String "/" _ => b
  | _ =>
      if (String.eqb a "" || ends_with_slash a)%bool then (a ++ b)%string
      else (a ++ "/" ++ b)%string
  end.

(** The last character of a path. *)
Fixpoint last_char (s : string) : option ascii :=
  match s with
  | EmptyString => None
  | String c EmptyString => Some c
  | String _ rest => last_char rest
  end.

(** No slash and no NUL. *)
Fixpoint plain (s : string) : bool :=
  match s with
  | EmptyString => true
  | String c rest =>
      negb (Ascii.eqb c "/") && negb (Ascii.eqb c Ascii.zero) && plain rest
  end.

(** The name of a directory entry of its own: not empty, not [.] or [..],
    at most 255 bytes, without a slash or a NUL. Joined to a directory,
    two such names are the same file only if they are the same string. *)
Definition file_name (s : string) : bool :=
  negb (String.eqb s "") && negb (String.eqb s ".") && negb (String.eqb s "..")
  && (String.length s <=? 255)%nat && plain s.

End Path.

(** [c.lower()] on one ASCII character, and [s.lower()]. *)
Definition lower_ascii (c : ascii) : ascii :=
  let n := nat_of_ascii c in
  if ((65 <=? n)%nat && (n <=? 90)%nat)%bool then ascii_of_nat (n + 32) else c.

Fixpoint lower (s : string) : string :=
  match s with
  | EmptyString => EmptyString
  | String c s' => String (lower_ascii c) (lower s')
  end.

(** [now.strftime('%Y-%m-%d %H:%M:%S')], from the instant's ISO rendering
    [YYYY-MM-DDTHH:MM:SS[.ffffff]]. *)
Definition strftime_seconds (isoformat : string) : string :=
  (String.substring 0 10 isoformat ++ " " ++ String.substring 11 8 isoformat)%string.

(** ** train_model.py: model selection and saving *)

Module Training.

(** The dictionary [evaluate_model] returns. *)
Record metrics : Type := {
  accuracy : Q;
  precision : Q;
  recall : Q;
  f1_score : Q;
  roc_auc : Q
}.

(** A rounding never reverses an order. Rounding to the nearest binary64
    number is one. *)
Definition monotone (fl : Q -> Q) : Prop :=
  forall x y, x <= y -> fl x <= fl y.

(** Which entry wins the selection depends on scores that tie or differ
    only after rounding, so the arithmetic of the score is modelled with
    its rounding: every operation returns the rounding [fl] of the exact
    result. *)
Section Rounded.

Variable fl : Q -> Q.

(** [comparison['f1_score'] * 0.5 + comparison['roc_auc'] * 0.5]. *)
Definition composite_score (m : metrics) : Q :=
  fl (fl (f1_score m * 0.5) + fl (roc_auc m * 0.5)).

(** [Series.idxmax()]: the label of the first occurrence of the maximum. *)
Fixpoint idxmax_from (best : string * Q) (rest : list (string * Q))
  : string * Q :=
  match rest with
  | [] => best
  | (name, score) :: rest' =>
      if Num.ltb (snd best) score then idxmax_from (name, score) rest'
      else idxmax_from best rest'
  end.

(** [select_best_model]: the best name and the comparison table. With no
    model the frame has no ['f1_score'] column. *)
Definition select_best_model (models_metrics : list (string * metrics))
  : except (string * list (string * metrics * Q)) :=
  let comparison :=
    map (fun '(name, m) => (name, m, composite_score m)) models_metrics in
  let scores := map (fun '(name, _, score) => (name, score)) comparison in
  match scores with
  | [] => inl (KeyError "f1_score")
  | first :: rest => inr (fst (idxmax_from first rest), comparison)
  end.

(** [best_model_name.lower().replace(' ', '_')]. *)
Definition file_stem (best_model_name : string) : string :=
  Str.replace " " "_" (lower best_model_name).

(** Steps 8 and 9 of [run_pipeline]: the name the best model is saved
    under. *)
Definition saved_model_name (rf_metrics xgb_metrics : metrics) : except string :=
  '(best_model_name, _) ←
     select_best_model [("Random Forest"%string, rf_metrics);
                        ("XGBoost"%string, xgb_metrics)];
  mret (file_stem best_model_name).

End Rounded.

(** A rounding for the examples: three decimals, towards minus infinity. *)
Definition three_decimals (x : Q) : Q := inject_Z (Qfloor (x * 1000)) / 1000.

(** Two evaluations whose exact composite scores, 0.925 and 0.92505,
    differ only from the fifth decimal on. *)
Definition rf_example : metrics :=
  {| accuracy := 0.98; precision := 0.7; recall := 0.8;
     f1_score := 0.9; roc_auc := 0.95 |}.
Definition xgb_example : metrics :=
  {| accuracy := 0.97; precision := 0.8; recall := 0.7;
     f1_score := 0.9; roc_auc := 0.9501 |}.

End Training.

(** ** The model directory *)

Module ModelFiles.

(** The metadata document. *)
Record metadata : Type := {
  model_name : string;
  feature_columns : list string;
  metrics : Training.metrics;
  training_date : string;
  random_state : Z
}.

(** What [joblib.load] can return: an object of either class. *)
Inductive obj : Type :=
| ObjModel (m : Model.t)
| ObjEncoder (e : LabelEncoder.t).

(** A file: a pickle, a metadata document, or anything else. *)
Inductive file : Type :=
| Pickle (o : obj)
| Json (md : metadata)
| Other.

Definition RANDOM_STATE : Z := 42.

(** [joblib.load(path)]. *)
Definition joblib_load (fs : gmap string file) (path : string) : option obj :=
  match fs !! path with
  | Some (Pickle o) => Some o
  | _ => None
  end.

(** [save_model]; [model_dir] is [config.MODEL_DIR], a directory of a
    case-sensitive file system that [os.makedirs] finds or creates; the
    store maps the paths of its files to their contents, and the [print]s
    are not modelled. A model name that does not make the name of a
    directory entry (it holds a slash, say, or is too long) leads outside the
    directory, to another name of one of its files or to an error of the
    operating system: the store says nothing about such a call, and the
    result is [None]. *)
Definition save_model (model_dir : string) (fs : gmap string file)
    (model : Model.t) (model_name : string) (label_encoder : LabelEncoder.t)
    (feature_columns : list string) (metrics : Training.metrics)
  : Sim (option (gmap string file)) :=
  if negb (Path.file_name (model_name ++ ".pkl")) then mret None
  else
    let model_path := Path.join model_dir (model_name ++ ".pkl") in
    let fs := <[model_path := Pickle (ObjModel model)]> fs in
    let encoder_path := Path.join model_dir "label_encoder.pkl" in
    let fs := <[encoder_path := Pickle (ObjEncoder label_encoder)]> fs in
    now ← datetime_now_isoformat;
    let metadata :=
      {| model_name := model_name;
         feature_columns := feature_columns;
         metrics := metrics;
         training_date := strftime_seconds now;
         random_state := RANDOM_STATE |} in
    let metadata_path := Path.join model_dir "model_metadata.json" in
    mret (Some (<[metadata_path := Json metadata]> fs)).

(** The attributes of a [ModelInference] object, as Python holds them. *)
Record loader : Type := {
  model : option obj;
  label_encoder : option obj;
  columns : option (list string);
  loaded_metadata : option metadata;
  model_loaded : bool
}.

(** [ModelInference.__init__]. *)
Definition __init__ : loader :=
  {| model := None; label_encoder := None; columns := None;
     loaded_metadata := None; model_loaded := false |}.

(** The handler of [load_model]: any exception clears [model_loaded]. *)
Definition failed (self : loader) : bool * loader :=
  (false,
   {| model := model self; label_encoder := label_encoder self;
      columns := columns self; loaded_metadata := loaded_metadata self;
      model_loaded := false |}).

(** [load_model(model_name)]; each attribute is assigned as soon as its
    file has been read. *)
Definition load_model (model_dir : string) (fs : gmap string file)
    (self : loader) (model_name : option string) : bool * loader :=
  let metadata_path := Path.join model_dir "model_metadata.json" in
  match fs !! metadata_path with
  | Some (Json md) =>
      let self := {| model := model self; label_encoder := label_encoder self;
                     columns := columns self; loaded_metadata := Some md;
                     model_loaded := model_loaded self |} in
      let model_name := default (ModelFiles.model_name md) model_name in
      let model_path := Path.join model_dir (model_name ++ ".pkl") in
      match joblib_load fs model_path with
      | Some m =>
          let self := {| model := Some m; label_encoder := label_encoder self;
                         columns := columns self;
                         loaded_metadata := loaded_metadata self;
                         model_loaded := model_loaded self |} in
          let encoder_path := Path.join model_dir "label_encoder.pkl" in
          match joblib_load fs encoder_path with
          | Some e =>
              (true,
               {| model := model self; label_encoder := Some e;
                  columns := Some (feature_columns md);
                  loaded_metadata := loaded_metadata self;
                  model_loaded := true |})
          | None => failed self
          end
      | None => failed self
      end
  | _ => failed self
  end.

(** The object as [predict] uses it. An attribute holding an object of the
    other class has none of the methods called on it, like an attribute
    that is [None]. *)
Definition inference (self : loader) : ModelInference.t :=
  {| ModelInference.model :=
       match model self with Some (ObjModel m) => Some m | _ => None end;
     ModelInference.label_encoder :=
       match label_encoder self with Some (ObjEncoder e) => Some e | _ => None end;
     ModelInference.feature_columns := columns self;
     ModelInference.model_loaded := model_loaded self |}.

(** The dictionary [get_model_info] returns for a loaded model. *)
Record model_info : Type := {
  info_model_name : string;
  info_training_date : string;
  info_metrics : Training.metrics;
  info_feature_columns : option (list string);
  info_status : string
}.

(** [get_model_info]: the error dictionary, or the model's description. *)
Definition get_model_info (self : loader) : except (string + model_info) :=
  if negb (model_loaded self) then inr (inl "Model not loaded"%string)
  else
    match loaded_metadata self with
    | Some md =>
        inr (inr {| info_model_name := model_name md;
                    info_training_date := training_date md;
                    info_metrics := metrics md;
                    info_feature_columns := columns self;
                    info_status := "loaded" |})
    | None => inl (TypeError "'NoneType' object is not subscriptable")
    end.

End ModelFiles.

(** ** app.py: the prediction endpoints *)

Module App.

(** A request body that passed the [SensorData] validation. *)
Record SensorData : Type := {
  machine_id : string;
  Type_ : string;
  air_temperature : Q;
  process_temperature : Q;
  rotational_speed : Z;
  torque : Q;
  tool_wear : Z
}.

(** The constraints of the [Field] declarations. *)
Definition validated (s : SensorData) : Prop :=
  In (Type_ s) ["L"; "M"; "H"]%string /\
  within (air_temperature s) 290 310 /\
  within (process_temperature s) 300 320 /\
  (1000 <= rotational_speed s <= 3000)%Z /\
  within (torque s) 0 100 /\
  (0 <= tool_wear s <= 300)%Z.

(** [sensor_data.model_dump(by_alias=True)]. *)
Definition model_dump (s : SensorData) : gmap string pyval :=
  <["machine_id" := PStr (machine_id s)]>
  (<["Type" := PStr (Type_ s)]>
  (<["Air temperature [K]" := PFloat (air_temperature s)]>
  (<["Process temperature [K]" := PFloat (process_temperature s)]>
  (<["Rotational speed [rpm]" := PInt (rotational_speed s)]>
  (<["Torque [Nm]" := PFloat (torque s)]>
  (<["Tool wear [min]" := PInt (tool_wear s)]> ∅)))))).

Inductive HTTPException : Type :=
| HTTP (status_code : Z) (detail : string).

(** [str(e)]: the message, or the quoted key of a [KeyError]. *)
Definition str_of_exn (e : exn) : string :=
  match e with
  | ValueError msg => msg
  | KeyError key => ("'" ++ key ++ "'")%string
  | TypeError msg => msg
  | IndexError msg => msg
  | AttributeError msg => msg
  | RuntimeError msg => msg
  end.

(** A prediction with the ['timestamp'] key the endpoints add. *)
Record stamped : Type := {
  result : ModelInference.result;
  timestamp : string
}.

(** The response of [/predict/batch]. *)
Record batch_response : Type := {
  predictions : list stamped;
  total_machines : nat;
  batch_timestamp : string
}.

(** [predict_single]; the guard is
    [not model_inference or not model_inference.model_loaded]. [predict] on
    one dictionary returns a dictionary; a
    list would not take a string key. *)
Definition predict_single (model_inference : option ModelInference.t)
    (sensor_data : SensorData) : Sim (HTTPException + stamped) :=
  match model_inference with
  | Some mi =>
      if negb (ModelInference.model_loaded mi)
      then mret (inl (HTTP 503 "Model not loaded"))
      else
        let data_dict := model_dump sensor_data in
        match ModelInference.predict mi (One data_dict) with
        | inr (One r) =>
            now ← datetime_now_isoformat;
            mret (inr {| result := r; timestamp := now |})
        | inr (Many _) =>
            now ← datetime_now_isoformat;
            mret (inl (HTTP 500 ("Prediction error: " ++ str_of_exn
                       (TypeError "list indices must be integers or slices, not str"))))
        | inl e =>
            mret (inl (HTTP 500 ("Prediction error: " ++ str_of_exn e)))
        end
  | None => mret (inl (HTTP 503 "Model not loaded"))
  end.

(** [predict_batch]. When [predict] returns one dictionary, the loop
    iterates over its keys and the assignment to a string key fails. *)
Definition predict_batch (model_inference : option ModelInference.t)
    (machines : list SensorData) : Sim (HTTPException + batch_response) :=
  match model_inference with
  | Some mi =>
      if negb (ModelInference.model_loaded mi)
      then mret (inl (HTTP 503 "Model not loaded"))
      else
        let machines_data := map model_dump machines in
        match ModelInference.predict mi (Many machines_data) with
        | inr (Many results) =>
            timestamp ← datetime_now_isoformat;
            mret (inr {| predictions :=
                           map (fun r => {| result := r; timestamp := timestamp |})
                               results;
                         total_machines := length results;
                         batch_timestamp := timestamp |})
        | inr (One _) =>
            timestamp ← datetime_now_isoformat;
            mret (inl (HTTP 500 ("Batch prediction error: " ++ str_of_exn
                       (TypeError "'str' object does not support item assignment"))))
        | inl e =>
            mret (inl (HTTP 500 ("Batch prediction error: " ++ str_of_exn e)))
        end
  | None => mret (inl (HTTP 503 "Model not loaded"))
  end.

End App.

(** A request that passes validation, and a batch of two. *)
Definition demo_request (machine_id : string) : App.SensorData :=
  {| App.machine_id := machine_id; App.Type_ := "M";
     App.air_temperature := 298.1; App.process_temperature := 308.6;
     App.rotational_speed := 1551; App.torque := 42.8; App.tool_wear := 150 |}.
Definition demo_batch : list App.SensorData :=
  [demo_request "M001"; demo_request "M002"].

(** * Properties *)

(** ** Arithmetic of the modelled operators *)

Lemma leb_le a b : Num.leb a b = true <-> a <= b.
Proof. apply Qle_bool_iff. Qed.

Lemma ltb_lt a b : Num.ltb a b = true <-> a < b.
Proof.
  unfold Num.ltb. rewrite negb_true_iff.
  split; intros H.
  - apply Qnot_le_lt. intros Hle. apply Qle_bool_iff in Hle. congruence.
  - destruct (Qle_bool b a) eqn:E; [|reflexivity].
    apply Qle_bool_iff in E. lra.
Qed.

Lemma ltb_ge a b : Num.ltb a b = false <-> b <= a.
Proof. unfold Num.ltb. rewrite negb_false_iff. apply Qle_bool_iff. Qed.

Lemma leb_gt a b : Num.leb a b = false <-> b < a.
Proof.
  unfold Num.leb. split; intros H.
  - apply Qnot_le_lt. intros Hle. apply Qle_bool_iff in Hle. congruence.
  - destruct (Qle_bool a b) eqn:E; [|reflexivity].
    apply Qle_bool_iff in E. lra.
Qed.

Lemma min_spec a b : Num.min a b <= a /\ Num.min a b <= b /\
  (Num.min a b == a \/ Num.min a b == b).
Proof.
  unfold Num.min. destruct (Num.ltb b a) eqn:E.
  - apply ltb_lt in E. split; [lra|]. split; [lra|]. right; reflexivity.
  - apply ltb_ge in E. split; [lra|]. split; [lra|]. left; reflexivity.
Qed.

Lemma clip_range x lo hi : lo <= hi -> lo <= Num.clip x lo hi /\ Num.clip x lo hi <= hi.
Proof.
  intros Hlh. unfold Num.clip.
  destruct (Num.ltb x lo) eqn:E1.
  - destruct (Num.ltb hi lo) eqn:E2.
    + apply ltb_lt in E2. lra.
    + lra.
  - apply ltb_ge in E1.
    destruct (Num.ltb hi x) eqn:E2.
    + lra.
    + apply ltb_ge in E2. lra.
Qed.

Lemma rint_cases s : Num.rint s = Qfloor s \/ (Num.rint s = (Qfloor s + 1)%Z /\ inject_Z (Qfloor s) < s).
Proof.
  unfold Num.rint.
  destruct (Num.ltb (s - inject_Z (Qfloor s)) (1 # 2)) eqn:E1; [left; reflexivity|].
  apply ltb_ge in E1.
  assert (inject_Z (Qfloor s) < s) by lra.
  destruct (Num.ltb (1 # 2) (s - inject_Z (Qfloor s))); [right; split; auto|].
  destruct (Z.even (Qfloor s)); [left|right]; auto.
Qed.


Lemma rint_range s (L H : Z) :
  inject_Z L <= s -> s <= inject_Z H -> (L <= Num.rint s <= H)%Z.
Proof.
  intros HL HH.
  assert (HfL : (L <= Qfloor s)%Z).
  { rewrite <- (Qfloor_Z L). apply Qfloor_resp_le. exact HL. }
  assert (HfH : (Qfloor s <= H)%Z).
  { rewrite <- (Qfloor_Z H). apply Qfloor_resp_le. exact HH. }
  destruct (rint_cases s) as [-> | [-> Hlt]]; [lia|].
  split; [lia|].
  assert (inject_Z (Qfloor s) < inject_Z H) by lra.
  rewrite <- Zlt_Qlt in H0. lia.
Qed.

Lemma round1_range x (L H : Z) :
  inject_Z L <= x -> x <= inject_Z H ->
  inject_Z L <= Num.round x 1 /\ Num.round x 1 <= inject_Z H.
Proof.
  intros HL HH. unfold Num.round.
  change (10 ^ Z.of_nat 1)%Z with 10%Z. change (Z.to_pos 10) with 10%positive.
  destruct (rint_range (x * inject_Z 10) (L * 10) (H * 10)) as [H1 H2].
  - rewrite inject_Z_mult. apply Qmult_le_compat_r; [exact HL|]. discriminate.
  - rewrite inject_Z_mult. apply Qmult_le_compat_r; [exact HH|]. discriminate.
  - set (r := Num.rint _) in *. split; unfold Qle, inject_Z; cbn [Qnum Qden]; lia.
Qed.

Lemma int_floor x : 0 <= x -> Num.int x = Qfloor x.
Proof.
  destruct x as [n d]. unfold Qle, Num.int, Qfloor; simpl. intros Hn.
  apply Z.quot_div_nonneg; lia.
Qed.

Lemma int_range x (L H : Z) :
  (0 <= L)%Z -> inject_Z L <= x -> x <= inject_Z H -> (L <= Num.int x <= H)%Z.
Proof.
  intros H0 HL HH.
  assert (0 <= x). { assert (inject_Z 0 <= inject_Z L) by (rewrite <- Zle_Qle; lia). 
    change (inject_Z 0) with 0 in H1. lra. }
  rewrite int_floor by assumption. split.
  - rewrite <- (Qfloor_Z L). apply Qfloor_resp_le. exact HL.
  - rewrite <- (Qfloor_Z H). apply Qfloor_resp_le. exact HH.
Qed.

Example round_half_even :
  Num.round 2.25 1 == 2.2 /\ Num.round 2.35 1 == 2.4 /\
  Num.round 298.14 1 == 298.1.
Proof. repeat split. Qed.

Example int_truncates : Num.int 3.7 = 3%Z /\ Num.int (-3.7) = (-3)%Z.
Proof. split; reflexivity. Qed.

Example clip_examples :
  Num.clip 294.2 295 304 == 295 /\ Num.clip 310 295 304 == 304 /\
  Num.clip 300.5 295 304 == 300.5.
Proof. repeat split. Qed.

(** ** Reasoning about computations in the world *)

Lemma returns_ret {A} (a : A) (post : A -> Prop) : post a -> returns (mret a) post.
Proof. intros H w Hw. split; assumption. Qed.

Lemma returns_bind {A B} (c : Sim A) (f : A -> Sim B) (mid : A -> Prop) (post : B -> Prop) :
  returns c mid -> (forall a, mid a -> returns (f a) post) -> returns (c ≫= f) post.
Proof.
  intros Hc Hf w Hw. unfold mbind, sim_bind.
  destruct (Hc w Hw) as [Ha Hw']. destruct (c w) as [a w']. simpl in *.
  apply Hf; assumption.
Qed.

Lemma returns_weaken {A} (c : Sim A) (P Q : A -> Prop) :
  returns c P -> (forall a, P a -> Q a) -> returns c Q.
Proof. intros H HPQ w Hw. destruct (H w Hw). split; auto. Qed.

Lemma valid_behead w : valid_world w ->
  valid_world {| unif := behead (unif w); normal := normal w; clock := clock w |}.
Proof. intros H n. apply (H (S n)). Qed.

Lemma returns_random : returns random.random (fun r => 0 <= r /\ r < 1).
Proof.
  intros w Hw. split; [apply (Hw 0%nat)|]. apply valid_behead, Hw.
Qed.

Lemma returns_uniform a b : a <= b ->
  returns (random.uniform a b) (fun x => a <= x /\ x <= b /\ (a < b -> x < b)).
Proof.
  intros Hab. unfold random.uniform.
  eapply returns_bind; [apply returns_random|].
  intros r [H0 H1]. apply returns_ret. nra.
Qed.

Lemma returns_gauss mu sigma : returns (random.gauss mu sigma) (fun _ => True).
Proof. intros w Hw. split; [exact I|]. intros n. apply (Hw n). Qed.

Lemma returns_now : returns datetime_now_isoformat (fun _ => True).
Proof. intros w Hw. split; [exact I|]. intros n. apply (Hw n). Qed.

(** Step over the next read of the world in a [returns] goal. *)
Ltac draw :=
  eapply returns_bind;
  [ first [ apply returns_uniform; first [assumption | lra]
          | apply returns_gauss
          | apply returns_now ] |].

(** Close a branch that only has to return. *)
Ltac done_returning := apply returns_ret; exact I.

Lemma reading_dict_lookups a b c d e f g h i j :
  let r := MachineSimulator.reading_dict a b c d e f g h i j in
  r !! "machine_id" = Some a /\ r !! "Type" = Some b /\
  r !! "Air temperature [K]" = Some c /\ r !! "Process temperature [K]" = Some d /\
  r !! "Rotational speed [rpm]" = Some e /\ r !! "Torque [Nm]" = Some f /\
  r !! "Tool wear [min]" = Some g /\ r !! "timestamp" = Some h.
Proof. repeat split; reflexivity. Qed.
Lemma reading_dict_in_range a b c d e f g h i j :
  in_range c config.SENSOR_RANGES.air_temperature = true ->
  in_range d config.SENSOR_RANGES.process_temperature = true ->
  in_range e config.SENSOR_RANGES.rotational_speed = true ->
  in_range f config.SENSOR_RANGES.torque = true ->
  in_range g config.SENSOR_RANGES.tool_wear = true ->
  reading_in_range (MachineSimulator.reading_dict a b c d e f g h i j) = true.
Proof.
  intros Hc Hd He Hf Hg. unfold reading_in_range, field_in_range.
  destruct (reading_dict_lookups a b c d e f g h i j)
    as (_ & _ & -> & -> & -> & -> & -> & _).
  rewrite Hc, Hd, He, Hf, Hg. reflexivity.
Qed.

Lemma in_range_float q (L H : Z) :
  inject_Z L <= q -> q <= inject_Z H ->
  in_range (PFloat q) (inject_Z L, inject_Z H) = true.
Proof.
  intros HL HH. unfold in_range; cbn [fst snd].
  apply andb_true_intro. split; apply leb_le; assumption.
Qed.

Lemma in_range_int z (L H : Z) :
  (L <= z <= H)%Z -> in_range (PInt z) (inject_Z L, inject_Z H) = true.
Proof.
  intros [HL HH]. unfold in_range; cbn [fst snd].
  apply andb_true_intro. split; apply leb_le; rewrite <- Zle_Qle; assumption.
Qed.

Lemma round_clip_in_range x (L H : Z) :
  (L <= H)%Z ->
  in_range (PFloat (Num.round (MachineSimulator.clip_to x (inject_Z L, inject_Z H)) 1))
           (inject_Z L, inject_Z H) = true.
Proof.
  intros HLH. unfold MachineSimulator.clip_to; cbn [fst snd].
  destruct (clip_range x (inject_Z L) (inject_Z H)) as [H1 H2].
  { rewrite <- Zle_Qle. exact HLH. }
  destruct (round1_range _ L H H1 H2). apply in_range_float; assumption.
Qed.

Lemma int_clip_in_range x (L H : Z) :
  (0 <= L <= H)%Z ->
  in_range (PInt (Num.int (MachineSimulator.clip_to x (inject_Z L, inject_Z H))))
           (inject_Z L, inject_Z H) = true.
Proof.
  intros [H0 HLH]. unfold MachineSimulator.clip_to; cbn [fst snd].
  destruct (clip_range x (inject_Z L) (inject_Z H)) as [H1 H2].
  { rewrite <- Zle_Qle. exact HLH. }
  apply in_range_int. apply int_range; assumption.
Qed.


Lemma returns_generate m : wf m ->
  returns (MachineSimulator.generate_sensor_data m)
    (fun '(r, m') => reading_in_range r = true /\ wf m' /\
       MachineSimulator.tool_wear m <= MachineSimulator.tool_wear m').
Proof.
  intros (Hw0 & Hw1 & Hd). unfold MachineSimulator.generate_sensor_data.
  draw. intros u (Hu0 & Hu1 & _).
  draw. intros g1 _. draw. intros u2 _. draw. intros g2 _. draw. intros g3 _.
  eapply returns_bind with (mid := fun _ => True).
  { destruct (Num.ltb _ _); [draw; intros ? _|]; done_returning. }
  intros bt _. draw. intros g4 _.
  eapply returns_bind with (mid := fun _ => True).
  { destruct (_ =? _)%Z; [do 3 (draw; intros ? _)|]; done_returning. }
  intros [[ab sb] tb] _. draw. intros ts _.
  apply returns_ret.
  set (tw := Num.min _ 250).
  assert (Htw : MachineSimulator.tool_wear m <= tw /\ tw <= 250).
  { subst tw.
    destruct (min_spec (MachineSimulator.tool_wear m
                        + MachineSimulator.degradation_rate m * u) 250)
      as (H1 & H2 & [H3|H3]); split; try lra; nra. }
  split; [|split; [unfold wf|];
             cbn [MachineSimulator.tool_wear MachineSimulator.degradation_rate];
             fold tw; lra].
  apply reading_dict_in_range.
  - apply (round_clip_in_range _ 295 304). lia.
  - apply (round_clip_in_range _ 305 313). lia.
  - apply (int_clip_in_range _ 1200 2500). lia.
  - apply (round_clip_in_range _ 15 70). lia.
  - apply (in_range_int _ 0 250).
    apply int_range; [lia | change (0 <= tw) | change (tw <= 250)]; lra.
Qed.

Lemma returns_reset m :
  returns (MachineSimulator.reset_tool_wear m)
    (fun m' => wf m' /\ MachineSimulator.tool_wear m' < 20).
Proof.
  unfold MachineSimulator.reset_tool_wear.
  draw. intros tw (H0 & H1 & H2). draw. intros dr (H3 & H4 & _).
  apply returns_ret. unfold wf; simpl. lra.
Qed.

Lemma returns_init_draws wear air proc speed torque rate :
  fst wear <= snd wear -> fst air <= snd air -> fst proc <= snd proc ->
  fst speed <= snd speed -> fst torque <= snd torque -> fst rate <= snd rate ->
  returns (MachineSimulator.init_draws wear air proc speed torque rate)
    (fun '(tw, _, _, _, _, dr) =>
       fst wear <= tw /\ tw <= snd wear /\ fst rate <= dr).
Proof.
  intros. unfold MachineSimulator.init_draws.
  draw. intros tw (? & ? & _). do 4 (draw; intros ? _).
  draw. intros dr (? & ? & _). apply returns_ret. auto.
Qed.

Lemma returns_choice l : returns (random.choice l) (fun _ => True).
Proof.
  unfold random.choice. eapply returns_bind; [apply returns_random|].
  intros. done_returning.
Qed.

Lemma returns_init id ty cond :
  returns (MachineSimulator.__init__ id ty cond) wf.
Proof.
  unfold MachineSimulator.__init__.
  eapply returns_bind with (mid := fun _ => True).
  { destruct ty as [s|]; [destruct (String.eqb s "")|];
      try apply returns_choice; done_returning. }
  intros mtype _.
  eapply returns_bind with
    (mid := fun '(tw, _, _, _, _, dr) => 0 <= tw /\ tw <= 250 /\ 0 <= dr).
  { repeat match goal with |- context [if ?b then _ else _] => destruct b end;
      (eapply returns_weaken; [apply returns_init_draws; simpl; lra|]);
      intros [[[[[tw ?] ?] ?] ?] dr]; simpl; lra. }
  intros [[[[[tw ?] ?] ?] ?] dr] H. apply returns_ret. exact H.
Qed.


Lemma returns_run ops : forall m, wf m -> returns (run ops m) (Forall step_ok).
Proof.
  induction ops as [|o ops IH]; intros m Hm.
  - apply returns_ret. constructor.
  - destruct o; simpl.
    + eapply returns_bind; [apply returns_generate; exact Hm|].
      intros [r m'] (Hr & Hm' & Hle).
      eapply returns_bind; [apply IH; exact Hm'|]. intros steps Hs.
      apply returns_ret. constructor; [|exact Hs].
      split; [intros r' [= <-]; exact Hr|].
      unfold wear_step_ok; simpl. split; [exact Hle|apply Hm'].
    + eapply returns_bind; [apply returns_reset|].
      intros m' (Hm' & Hlt).
      eapply returns_bind; [apply IH; exact Hm'|]. intros steps Hs.
      apply returns_ret. constructor; [|exact Hs].
      split; [intros r' [=]|].
      unfold wear_step_ok; simpl. destruct Hm' as (H0 & _).
      split; [exact H0|]. split; [exact Hlt|]. intros; lra.
Qed.

Lemma returns_simulate id ty cond ops :
  returns (simulate id ty cond ops) (Forall step_ok).
Proof.
  unfold simulate. eapply returns_bind; [apply returns_init|].
  intros m Hm. apply returns_run. exact Hm.
Qed.

Lemma run_linked ops : forall m w, linked m (fst (run ops m w)).
Proof.
  induction ops as [|o ops IH]; intros m w; [exact I|].
  destruct o; simpl; unfold mbind, sim_bind.
  - destruct (MachineSimulator.generate_sensor_data m w) as [[r m'] w1].
    specialize (IH m' w1). destruct (run ops m' w1) as [steps w2].
    simpl in *. split; [reflexivity|exact IH].
  - destruct (MachineSimulator.reset_tool_wear m w) as [m' w1].
    specialize (IH m' w1). destruct (run ops m' w1) as [steps w2].
    simpl in *. split; [reflexivity|exact IH].
Qed.

Lemma valid_steady r z : 0 <= r -> r < 1 -> valid_world (steady_world r z).
Proof. intros H0 H1 n. simpl. split; assumption. Qed.

Lemma valid_scripted k r0 r1 :
  0 <= r0 -> r0 < 1 -> 0 <= r1 -> r1 < 1 -> valid_world (scripted_world k r0 r1).
Proof. intros ? ? ? ? n. simpl. destruct (n <? k)%nat; split; assumption. Qed.

(** ** Health bands and the machine simulator *)

Lemma band_labels :
  band_label "healthy" = "HEALTHY"%string /\
  band_label "risk" = "RISK"%string /\
  band_label "maintenance_required" = "MAINTENANCE REQUIRED"%string.
Proof. repeat split; reflexivity. Qed.

Lemma health_status_cases (p : Q) :
  (0 <= p -> p < 0.3 -> _get_health_status p = band_label "healthy") /\
  (0.3 <= p -> p < 0.6 -> _get_health_status p = band_label "risk") /\
  (0.6 <= p -> _get_health_status p = band_label "maintenance_required") /\
  (matches_no_band p = true ->
   _get_health_status p = band_label "maintenance_required").
Proof.
  unfold _get_health_status, matches_no_band, config.HEALTH_STATUS.
  cbn [health_status_in forallb].
  destruct (Num.leb 0 p) eqn:E0, (Num.ltb p 0.3) eqn:E1,
           (Num.leb 0.3 p) eqn:E2, (Num.ltb p 0.6) eqn:E3,
           (Num.leb 0.6 p) eqn:E4, (Num.ltb p 1.0) eqn:E5;
    cbn [andb negb];
    repeat match goal with
           | H : Num.leb _ _ = true |- _ => apply leb_le in H
           | H : Num.leb _ _ = false |- _ => apply leb_gt in H
           | H : Num.ltb _ _ = true |- _ => apply ltb_lt in H
           | H : Num.ltb _ _ = false |- _ => apply ltb_ge in H
           end;
    repeat split; intros; try reflexivity; try discriminate; try lra.
Qed.

(** C1. For every probability [p] in [[0, 1]] the classification is the
    value of a total function: [p] in [[0, 0.3)] gives the band of
    ['healthy'], [p] in [[0.3, 0.6)] the band of ['risk'], [p] in
    [[0.6, 1]] the band of ['maintenance_required'] (so 0.3 and 0.6 go to
    the higher band and 1.0 to the last one); and any [p] that matches no
    configured interval gives the default, the band of
    ['maintenance_required']. *)
Theorem health_status_bands (p : Q) :
  (0 <= p /\ p <= 1 ->
   (p < 0.3 -> _get_health_status p = band_label "healthy") /\
   (0.3 <= p /\ p < 0.6 -> _get_health_status p = band_label "risk") /\
   (0.6 <= p -> _get_health_status p = band_label "maintenance_required")) /\
  (matches_no_band p = true ->
   _get_health_status p = band_label "maintenance_required").
Proof.
  destruct (health_status_cases p) as (H1 & H2 & H3 & H4).
  split; [|exact H4]. intros [Hlo Hhi]. repeat split.
  - intros; apply H1; assumption.
  - intros []; apply H2; assumption.
  - exact H3.
Qed.

Lemma health_status_bands_witness :
  _get_health_status 0 = "HEALTHY"%string /\
  _get_health_status 0.3 = "RISK"%string /\
  _get_health_status 0.6 = "MAINTENANCE REQUIRED"%string /\
  _get_health_status 1 = "MAINTENANCE REQUIRED"%string /\
  _get_health_status 1.5 = "MAINTENANCE REQUIRED"%string.
Proof.
  split; [|split; [|split; [|split]]].
  - apply (proj1 (health_status_bands 0)); [split; lra | lra].
  - apply (proj1 (health_status_bands 0.3)); [split; lra |].
    split; lra.
  - apply (proj1 (health_status_bands 0.6)); [split; lra |].
    lra.
  - apply (proj1 (health_status_bands 1)); [split; lra |].
    lra.
  - apply (proj2 (health_status_bands 1.5)). reflexivity.
Defined.

(** C3. Whatever the initial condition (['healthy'], ['risk'],
    ['maintenance'] or anything else, which takes the default branch) and
    whatever the sequence of calls, every reading returned has its five
    sensor values within [config.SENSOR_RANGES]: air temperature in
    [[295, 304]], process temperature in [[305, 313]], rotational speed in
    [[1200, 2500]], torque in [[15, 70]], tool wear in [[0, 250]]. *)
Theorem generated_readings_in_range (machine_id : string)
    (machine_type : option string) (initial_condition : string)
    (ops : list op) (w : World) :
  valid_world w ->
  readings_in_range
    (fst (simulate machine_id machine_type initial_condition ops w)).
Proof.
  intros Hw.
  destruct (returns_simulate machine_id machine_type initial_condition ops w Hw)
    as [H _].
  unfold readings_in_range. eapply Forall_impl; [exact H|].
  intros s [Hr _]. exact Hr.
Qed.

Lemma generated_readings_in_range_witness :
  valid_world (steady_world 0.5 2) /\
  readings_in_range
    (fst (simulate "M005" None "maintenance"
            [OpGenerate; OpGenerate; OpMaintain; OpGenerate]
            (steady_world 0.5 2))).
Proof.
  assert (Hw : valid_world (steady_world 0.5 2)).
  { intros n. simpl. split; lra. }
  split; [exact Hw|]. apply generated_readings_in_range. exact Hw.
Defined.



(** C4, amended. Across any sequence of calls on one machine,
    [generate_sensor_data] never decreases the wear accumulator and keeps it
    at most 250; [reset_tool_wear] sets it to a value in [[0, 20)], which is
    strictly below the previous wear whenever that was at least 20. So only
    [reset_tool_wear] can decrease wear. *)
Theorem wear_moves_as_designed (machine_id : string)
    (machine_type : option string) (initial_condition : string)
    (ops : list op) (w : World) :
  valid_world w ->
  let steps := fst (simulate machine_id machine_type initial_condition ops w) in
  Forall wear_step_ok steps /\
  linked (fst (MachineSimulator.__init__ machine_id machine_type
                 initial_condition w)) steps.
Proof.
  intros Hw steps. split.
  - destruct (returns_simulate machine_id machine_type initial_condition ops w Hw)
      as [H _].
    eapply Forall_impl; [exact H|]. intros s [_ Hs]. exact Hs.
  - subst steps. unfold simulate, mbind, sim_bind.
    destruct (MachineSimulator.__init__ _ _ _ w) as [m w1]. apply run_linked.
Qed.

Lemma wear_moves_as_designed_witness :
  valid_world (steady_world 0.5 2) /\
  let steps := fst (simulate "M005" None "maintenance"
                      [OpGenerate; OpGenerate; OpMaintain; OpGenerate]
                      (steady_world 0.5 2)) in
  Forall wear_step_ok steps /\
  linked (fst (MachineSimulator.__init__ "M005" None "maintenance"
                 (steady_world 0.5 2))) steps.
Proof.
  assert (Hw : valid_world (steady_world 0.5 2)).
  { intros n. simpl. split; lra. }
  split; [exact Hw|]. apply wear_moves_as_designed. exact Hw.
Defined.

(** C4 as stated fails: a healthy machine starts with wear 5, one reading
    brings it to 5.042, and maintenance then draws 18, which is not lower. *)
Lemma maintenance_can_raise_wear :
  valid_world (scripted_world 6 0 0.9) /\
  exists s1 s2,
    fst (simulate "M001" (Some "L") "healthy" [OpGenerate; OpMaintain]
           (scripted_world 6 0 0.9)) = [s1; s2] /\
    step_op s2 = OpMaintain /\ before s2 = after s1 /\
    MachineSimulator.tool_wear (before s2) == 5.042 /\
    MachineSimulator.tool_wear (after s2) == 18 /\
    ~ (MachineSimulator.tool_wear (after s2) < MachineSimulator.tool_wear (before s2)).
Proof.
  split.
  { intros n. simpl. destruct (n <? 6)%nat; split; lra. }
  set (steps := fst _). vm_compute in steps.
  eexists _, _. split; [reflexivity|]. split; [reflexivity|].
  split; [reflexivity|].
  cbn [before after MachineSimulator.tool_wear].
  split; [reflexivity|]. split; [reflexivity|]. lra.
Qed.

(** ** The fleet *)

Example machine_names :
  map DataSimulator.machine_name [0; 4; 99; 999]%nat
  = ["M001"; "M005"; "M100"; "M1000"]%string.
Proof. reflexivity. Qed.

Example default_fleet_ids :
  map MachineSimulator.machine_id (DataSimulator.machines demo_fleet)
  = ["M001"; "M002"; "M003"; "M004"; "M005"]%string.
Proof. vm_compute. reflexivity. Qed.

Lemma find_machine_absent ms id :
  absent id ms = true -> forall i, DataSimulator.find_machine ms id i = None.
Proof.
  induction ms as [|m ms IH]; intros Ha i; [reflexivity|].
  simpl in *. apply andb_prop in Ha as [Hm Hms].
  apply negb_true_iff in Hm. rewrite Hm. apply IH. exact Hms.
Qed.

Lemma find_machine_present ms id :
  absent id ms = false ->
  forall i, exists j m, DataSimulator.find_machine ms id i = Some (j, m).
Proof.
  induction ms as [|m ms IH]; intros Ha i; [discriminate|].
  simpl in *. destruct (String.eqb (MachineSimulator.machine_id m) id).
  - eauto.
  - simpl in Ha. apply IH. exact Ha.
Qed.

Lemma truthy_id_nonempty id : id <> ""%string -> truthy_id (Some id) = true.
Proof.
  intros Hne. unfold truthy_id. apply negb_true_iff, String.eqb_neq. exact Hne.
Qed.

(** C5, amended. For every non-empty machine id absent from the fleet,
    [generate_data] raises the not-found [ValueError] and changes nothing;
    [perform_maintenance] with any id absent from the fleet returns [False]
    without raising and leaves the fleet and the world unchanged; with an id
    present in the fleet it returns [True]. *)
Theorem unknown_machine_id (self : DataSimulator.t) (machine_id : string)
    (w : World) :
  (absent machine_id (DataSimulator.machines self) = true ->
   (machine_id <> ""%string ->
    DataSimulator.generate_data self (Some machine_id) w
    = (inl (ValueError ("Machine " ++ machine_id ++ " not found")), self, w)) /\
   DataSimulator.perform_maintenance self machine_id w = (false, self, w)) /\
  (absent machine_id (DataSimulator.machines self) = false ->
   fst (fst (DataSimulator.perform_maintenance self machine_id w)) = true).
Proof.
  split.
  - intros Ha. split.
    + intros Hne. unfold DataSimulator.generate_data.
      rewrite (truthy_id_nonempty _ Hne). cbn [default].
      rewrite (find_machine_absent _ _ Ha). reflexivity.
    + unfold DataSimulator.perform_maintenance.
      rewrite (find_machine_absent _ _ Ha). reflexivity.
  - intros Hp. unfold DataSimulator.perform_maintenance.
    destruct (find_machine_present _ _ Hp 0%nat) as (j & m & ->).
    unfold mbind, sim_bind.
    destruct (MachineSimulator.reset_tool_wear m w) as [m' w']. reflexivity.
Qed.

Lemma unknown_machine_id_witness :
  absent "M999" (DataSimulator.machines demo_fleet) = true /\
  DataSimulator.generate_data demo_fleet (Some "M999"%string) demo_world
  = (inl (ValueError "Machine M999 not found"), demo_fleet, demo_world) /\
  DataSimulator.perform_maintenance demo_fleet "M999" demo_world
  = (false, demo_fleet, demo_world) /\
  absent "M005" (DataSimulator.machines demo_fleet) = false /\
  fst (fst (DataSimulator.perform_maintenance demo_fleet "M005" demo_world)) = true.
Proof.
  assert (Ha : absent "M999" (DataSimulator.machines demo_fleet) = true)
    by (vm_compute; reflexivity).
  assert (Hp : absent "M005" (DataSimulator.machines demo_fleet) = false)
    by (vm_compute; reflexivity).
  destruct (unknown_machine_id demo_fleet "M999" demo_world) as [Habs _].
  destruct (unknown_machine_id demo_fleet "M005" demo_world) as [_ Hpres].
  destruct (Habs Ha) as [Hgen Hmaint].
  split; [exact Ha|]. split; [apply Hgen; discriminate|].
  split; [exact Hmaint|]. split; [exact Hp|]. apply Hpres. exact Hp.
Defined.

(** C5 as stated fails: the empty string is the id of no machine of the
    default fleet, yet [generate_data] does not raise on it and returns
    five readings. *)
Lemma empty_id_is_not_rejected :
  absent "" (DataSimulator.machines demo_fleet) = true /\
  produced (fst (fst (DataSimulator.generate_data demo_fleet (Some ""%string)
                        demo_world))) = Some 5%nat.
Proof. split; vm_compute; reflexivity. Qed.

Lemma generate_all_length ms : forall w,
  length (fst (fst (DataSimulator.generate_all ms w))) = length ms /\
  length (snd (fst (DataSimulator.generate_all ms w))) = length ms.
Proof.
  induction ms as [|m ms IH]; intros w; [split; reflexivity|].
  simpl. unfold mbind, sim_bind.
  destruct (MachineSimulator.generate_sensor_data m w) as [[r m'] w1].
  specialize (IH w1). destruct (DataSimulator.generate_all ms w1) as [[rs ms'] w2].
  simpl in *. destruct IH. split; congruence.
Qed.

Lemma init_machine_id id ty cond w :
  MachineSimulator.machine_id (fst (MachineSimulator.__init__ id ty cond w)) = id.
Proof.
  unfold MachineSimulator.__init__.
  destruct ty as [s|]; [destruct (String.eqb s "")|];
    repeat match goal with |- context [if ?b then _ else _] => destruct b end;
    reflexivity.
Qed.

Lemma constructed_ids conds l : forall w,
  Forall (fun m => exists i, MachineSimulator.machine_id m = DataSimulator.machine_name i)
         (fst (sim_map (DataSimulator.init_machine conds) l w)).
Proof.
  induction l as [|i l IH]; intros w; [constructor|].
  simpl. unfold mbind at 1, sim_bind at 1.
  destruct (DataSimulator.init_machine conds i w) as [m w1] eqn:Em.
  unfold mbind at 1, sim_bind at 1.
  specialize (IH w1). destruct (sim_map _ l w1) as [ms w2]. simpl in *.
  constructor; [|exact IH]. exists i.
  unfold DataSimulator.init_machine, mbind, sim_bind in Em.
  destruct (random.choice _ w) as [ty w0].
  pose proof (init_machine_id (DataSimulator.machine_name i) (Some ty) (nth i conds "healthy"%string) w0) as Hid.
  rewrite Em in Hid. exact Hid.
Qed.

Lemma constructed_fleet_has_no_empty_id n w :
  absent "" (DataSimulator.machines (fst (DataSimulator.__init__ n w))) = true.
Proof.
  unfold DataSimulator.__init__, mbind, sim_bind.
  set (k := match n with Some k => _ | None => _ end).
  pose proof (constructed_ids (DataSimulator.conditions k) (seq 0 (Z.to_nat k)) w) as H.
  destruct (sim_map _ _ w) as [ms w']. simpl in *.
  unfold absent. apply forallb_forall. intros m Hm.
  rewrite Forall_forall in H. 
  destruct (H m) as [i Hi]. { apply list_elem_of_In. exact Hm. }
  rewrite Hi. reflexivity.
Qed.

Lemma generate_all_readings ms : forall w,
  fleet_readings ms w
    (fst (fst (DataSimulator.generate_all ms w)))
    (snd (fst (DataSimulator.generate_all ms w)))
    (snd (DataSimulator.generate_all ms w)).
Proof.
  induction ms as [|m ms IH]; intros w; [constructor|].
  simpl. unfold mbind, sim_bind.
  destruct (MachineSimulator.generate_sensor_data m w) as [[r m'] w1] eqn:E.
  specialize (IH w1). destruct (DataSimulator.generate_all ms w1) as [[rs ms'] w2].
  cbn [fst snd mret sim_ret] in *.
  econstructor; [exact E|exact IH].
Qed.

Lemma generate_echoes_id m w :
  fst (fst (MachineSimulator.generate_sensor_data m w)) !! "machine_id"
  = Some (PStr (MachineSimulator.machine_id m)).
Proof.
  unfold MachineSimulator.generate_sensor_data, random.uniform, mbind, sim_bind,
    mret, sim_ret, random.random, random.gauss, datetime_now_isoformat.
  cbn [unif normal clock fst snd].
  destruct (Num.ltb _ _); destruct (_ =? _)%Z; reflexivity.
Qed.

Lemma fleet_readings_ids ms w rs ms' w' :
  fleet_readings ms w rs ms' w' ->
  Forall2 (fun m r => r !! "machine_id"
                      = Some (PStr (MachineSimulator.machine_id m))) ms rs.
Proof.
  induction 1 as [|m ms w r m' w1 rs ms' w2 E _ IH]; constructor; [|exact IH].
  pose proof (generate_echoes_id m w) as H. rewrite E in H. exact H.
Qed.

(** C10. [generate_data] with the empty string as machine id does not
    raise: it is the call with no id, and returns one reading per machine:
    the list, in fleet order, of what [generate_sensor_data] returns for
    each machine in turn, each reading carrying the id of its machine,
    while every machine is replaced by its successor. The empty string is
    the id of no machine of a constructed fleet. *)
Theorem empty_id_means_whole_fleet (self : DataSimulator.t) (w : World) :
  DataSimulator.generate_data self (Some ""%string) w
  = DataSimulator.generate_data self None w /\
  (exists rs ms' w',
     DataSimulator.generate_data self (Some ""%string) w
     = (inr (Many rs),
        {| DataSimulator.num_machines := DataSimulator.num_machines self;
           DataSimulator.machines := ms' |},
        w') /\
     fleet_readings (DataSimulator.machines self) w rs ms' w' /\
     length rs = length (DataSimulator.machines self) /\
     Forall2 (fun m r => r !! "machine_id"
                         = Some (PStr (MachineSimulator.machine_id m)))
             (DataSimulator.machines self) rs) /\
  (forall n w0,
     absent "" (DataSimulator.machines (fst (DataSimulator.__init__ n w0))) = true).
Proof.
  split; [reflexivity|]. split; [|apply constructed_fleet_has_no_empty_id].
  unfold DataSimulator.generate_data. cbn [truthy_id String.eqb negb].
  unfold mbind, sim_bind.
  pose proof (generate_all_readings (DataSimulator.machines self) w) as Hr.
  pose proof (generate_all_length (DataSimulator.machines self) w) as [Hl _].
  destruct (DataSimulator.generate_all _ w) as [[rs ms'] w']. cbn [fst snd] in *.
  exists rs, ms', w'. split; [reflexivity|]. split; [exact Hr|].
  split; [exact Hl|]. apply (fleet_readings_ids _ _ _ _ _ Hr).
Qed.

(** ** Inference *)

Lemma except_map_Forall2 {A B} (f : A -> except B) l : forall ys,
  except_map f l = inr ys -> Forall2 (fun x y => f x = inr y) l ys.
Proof.
  induction l as [|x l IH]; intros ys H; simpl in H.
  - injection H as <-. constructor.
  - unfold mbind, except_bind in H.
    destruct (f x) as [e|y] eqn:Ef; [discriminate|].
    destruct (except_map f l) as [e|ys'] eqn:El; [discriminate|].
    injection H as <-. constructor; [exact Ef|]. apply IH. reflexivity.
Qed.

Lemma predict_items self input out :
  ModelInference.predict self input = inr out ->
  except_map (ModelInference.predict_one self) (items input) = inr (items out) /\
  shape out (length (items out)).
Proof.
  unfold ModelInference.predict.
  destruct (ModelInference.model_loaded self); [|discriminate]. cbn [negb].
  fold (items input). unfold mbind, except_bind.
  destruct (except_map _ (items input)) as [e|preds]; [discriminate|].
  destruct (1 <? length preds)%nat eqn:El.
  - intros [= <-]. apply Nat.ltb_lt in El. simpl. auto.
  - destruct preds as [|r [|r' preds]]; [discriminate| |].
    + intros [= <-]. simpl. auto.
    + simpl in El. discriminate.
Qed.

Lemma predict_one_verdict self data r :
  ModelInference.predict_one self data = inr r -> verdict_of self data r.
Proof.
  unfold ModelInference.predict_one, mbind, except_bind.
  destruct (ModelInference.preprocess_input self data) as [e|features] eqn:Ef;
    [discriminate|].
  destruct (ModelInference.model self) as [clf|] eqn:Em; [|discriminate].
  cbn [ModelInference.attribute].
  destruct (Model.predict clf features) as [e|label]; [discriminate|].
  destruct (Model.predict_proba clf features) as [e|p] eqn:Ep; [discriminate|].
  intros [= <-]. exists clf, features, p.
  cbn [ModelInference.alert ModelInference.health_status].
  split; [exact Em|]. split; [exact Ef|]. split; [exact Ep|].
  split; [apply leb_le|]. split; [reflexivity|].
  intros Heq. split.
  - apply leb_le. unfold config.FAILURE_THRESHOLD. lra.
  - destruct (health_status_cases (snd p)) as (_ & _ & H & _). apply H. lra.
Qed.

(** C2. For every prediction produced by [predict], the alert flag is true
    exactly when the classifier's failure probability is at least
    [config.FAILURE_THRESHOLD] (0.6); the flag is computed from the
    probability and the threshold alone, next to the band, which is
    [_get_health_status] of the same probability; at probability 0.6 the
    alert is true and the band is that of ['maintenance_required']. *)
Theorem alert_iff_threshold (self : ModelInference.t)
    (input : one_or_many (gmap string pyval))
    (out : one_or_many ModelInference.result) :
  ModelInference.predict self input = inr out ->
  Forall2 (verdict_of self) (items input) (items out).
Proof.
  intros H. apply predict_items in H as [H _].
  apply except_map_Forall2 in H.
  eapply Forall2_impl; [exact H|]. intros d r. apply predict_one_verdict.
Qed.

Lemma alert_iff_threshold_witness :
  exists r,
    ModelInference.predict demo_inference (One test_data) = inr (One r) /\
    ModelInference.alert r = true /\
    ModelInference.health_status r = "MAINTENANCE REQUIRED"%string /\
    Forall2 (verdict_of demo_inference) [test_data] [r].
Proof.
  eexists. split; [vm_compute; reflexivity|].
  split; [reflexivity|]. split; [reflexivity|].
  apply (alert_iff_threshold demo_inference (One test_data) (One _)).
  vm_compute. reflexivity.
Defined.

(** The probability reported in a result is rounded to four decimals, while
    the alert and the band are computed from the unrounded one: a
    probability of 0.59996 is reported as 0.6 with no alert, in band RISK. *)
Example reported_probability_is_rounded :
  exists r,
    ModelInference.predict (inference_with (model_answering 0 (0.40004, 0.59996)))
      (One test_data) = inr (One r) /\
    ModelInference.failure_probability r == 0.6 /\
    ModelInference.alert r = false /\
    ModelInference.health_status r = "RISK"%string.
Proof.
  eexists. split; [vm_compute; reflexivity|].
  split; [reflexivity|]. split; reflexivity.
Qed.

Lemma predict_one_snapshot self data r :
  ModelInference.predict_one self data = inr r ->
  ModelInference.sensor_data r = data.
Proof.
  unfold ModelInference.predict_one, mbind, except_bind.
  destruct (ModelInference.preprocess_input self data); [discriminate|].
  destruct (ModelInference.attribute _ _); [discriminate|].
  destruct (Model.predict _ _); [discriminate|].
  destruct (Model.predict_proba _ _); [discriminate|].
  intros [= <-]. reflexivity.
Qed.

Lemma except_map_of_Forall2 {A B} (f : A -> except B) l ys :
  Forall2 (fun x y => f x = inr y) l ys -> except_map f l = inr ys.
Proof.
  induction 1 as [|x y l ys Hxy _ IH]; [reflexivity|].
  simpl. unfold mbind, except_bind. rewrite Hxy, IH. reflexivity.
Qed.

Lemma predict_of_results self input results :
  ModelInference.model_loaded self = true ->
  Forall2 (fun data r => ModelInference.predict_one self data = inr r)
          (items input) results ->
  (forall r, results = [r] -> ModelInference.predict self input = inr (One r)) /\
  ((1 < length results)%nat ->
   ModelInference.predict self input = inr (Many results)).
Proof.
  intros Hl H. apply except_map_of_Forall2 in H.
  unfold ModelInference.predict. rewrite Hl. cbn [negb].
  fold (items input). unfold mbind, except_bind. rewrite H.
  split.
  - intros r ->. reflexivity.
  - intros Hlen. apply Nat.ltb_lt in Hlen. rewrite Hlen. reflexivity.
Qed.

(** C9. [predict] returns a list only when it produced more than one
    prediction; for exactly one (a single reading, or a fleet of one
    machine) it returns the bare result. So what the fleet-wide call
    returns depends on the size of the fleet. Both shapes are produced:
    with the model loaded, when the prediction of every reading succeeds,
    [predict] returns the bare result if there is one and the list of the
    results, in order, if there are two or more; and so does the fleet-wide
    call on the readings it generates. *)
Theorem predict_result_shape (svc : MonitoringService.t)
    (input : one_or_many (gmap string pyval)) (w : World) :
  (forall out,
     ModelInference.predict (MonitoringService.model_inference svc) input = inr out ->
     shape out (length (items input))) /\
  (forall out,
     fst (fst (MonitoringService.get_real_time_predictions svc w)) = inr out ->
     shape out (length (DataSimulator.machines (MonitoringService.simulator svc)))) /\
  (ModelInference.model_loaded (MonitoringService.model_inference svc) = true ->
   forall results,
     Forall2 (fun data r =>
                ModelInference.predict_one (MonitoringService.model_inference svc)
                  data = inr r)
             (items input) results ->
     (forall r, results = [r] ->
        ModelInference.predict (MonitoringService.model_inference svc) input
        = inr (One r)) /\
     ((1 < length results)%nat ->
      ModelInference.predict (MonitoringService.model_inference svc) input
      = inr (Many results))) /\
  (ModelInference.model_loaded (MonitoringService.model_inference svc) = true ->
   forall results,
     Forall2 (fun data r =>
                ModelInference.predict_one (MonitoringService.model_inference svc)
                  data = inr r)
             (fst (fst (DataSimulator.generate_all
                          (DataSimulator.machines (MonitoringService.simulator svc))
                          w)))
             results ->
     (forall r, results = [r] ->
        fst (fst (MonitoringService.get_real_time_predictions svc w))
        = inr (One r)) /\
     ((1 < length results)%nat ->
      fst (fst (MonitoringService.get_real_time_predictions svc w))
      = inr (Many results))).
Proof.
  assert (Hp : forall self i out, ModelInference.predict self i = inr out ->
                 shape out (length (items i))).
  { intros self i out H. apply predict_items in H as [H Hs].
    apply except_map_Forall2, Forall2_length in H. rewrite H. exact Hs. }
  split; [apply Hp|]. split; [|split].
  - intros out. unfold MonitoringService.get_real_time_predictions,
      MonitoringService.predict_generated, DataSimulator.generate_data.
    cbn [truthy_id]. unfold mbind, sim_bind.
    pose proof (generate_all_length
      (DataSimulator.machines (MonitoringService.simulator svc)) w) as [Hl _].
    destruct (DataSimulator.generate_all _ w) as [[rs ms'] w']. simpl in *.
    intros H. apply Hp in H. simpl in H. rewrite Hl in H. exact H.
  - intros Hl results H. apply predict_of_results; assumption.
  - intros Hl results.
    unfold MonitoringService.get_real_time_predictions,
      MonitoringService.predict_generated, DataSimulator.generate_data.
    cbn [truthy_id]. unfold mbind, sim_bind.
    destruct (DataSimulator.generate_all _ w) as [[rs ms'] w'].
    cbn [fst snd mret sim_ret]. intros H.
    apply (predict_of_results _ (Many rs) results Hl H).
Qed.

Lemma predict_result_shape_witness :
  (exists r,
     ModelInference.predict (MonitoringService.model_inference single_service)
       (One test_data) = inr (One r) /\
     shape (One r) (length (items (One test_data)))) /\
  (exists r,
     fst (fst (MonitoringService.get_real_time_predictions single_service
                 demo_world)) = inr (One r) /\
     shape (One r)
       (length (DataSimulator.machines (MonitoringService.simulator single_service)))) /\
  (exists r1 r2,
     ModelInference.predict (MonitoringService.model_inference demo_service)
       (Many [test_data; reading_without_wear]) = inr (Many [r1; r2]) /\
     ModelInference.sensor_data r1 = test_data /\
     ModelInference.sensor_data r2 = reading_without_wear) /\
  (exists results,
     fst (fst (MonitoringService.get_real_time_predictions demo_service
                 demo_world)) = inr (Many results) /\
     length results = 5%nat).
Proof.
  split; [|split; [|split]].
  - eexists. split; [vm_compute; reflexivity|].
    apply (proj1 (predict_result_shape single_service (One test_data) demo_world)).
    vm_compute. reflexivity.
  - eexists. split; [vm_compute; reflexivity|].
    apply (proj1 (proj2 (predict_result_shape single_service (One test_data)
                           demo_world))).
    vm_compute. reflexivity.
  - destruct (except_map (ModelInference.predict_one demo_inference)
                [test_data; reading_without_wear]) as [e|results] eqn:E;
      [vm_compute in E; discriminate E|].
    pose proof (except_map_Forall2 _ _ _ E) as H2.
    destruct results as [|r1 [|r2 [|r3 results]]];
      try (vm_compute in E; discriminate E).
    exists r1, r2. split.
    + apply (proj2 (proj1 (proj2 (proj2 (predict_result_shape demo_service
               (Many [test_data; reading_without_wear]) demo_world)))
               eq_refl [r1; r2] H2)).
      simpl. lia.
    + inversion H2 as [|? ? ? ? H1 Hrest]; subst.
      inversion Hrest as [|? ? ? ? H1' _]; subst.
      apply predict_one_snapshot in H1, H1'. split; assumption.
  - set (readings := fst (fst (DataSimulator.generate_all
           (DataSimulator.machines (MonitoringService.simulator demo_service))
           demo_world))).
    destruct (except_map (ModelInference.predict_one
                            (MonitoringService.model_inference demo_service))
                readings) as [e|results] eqn:E;
      [vm_compute in E; discriminate E|].
    pose proof (except_map_Forall2 _ _ _ E) as H2.
    assert (Hlen : length results = 5%nat).
    { apply Forall2_length in H2. rewrite <- H2. vm_compute. reflexivity. }
    exists results. split; [|exact Hlen].
    apply (proj2 (proj2 (proj2 (proj2 (predict_result_shape demo_service
             (One test_data) demo_world))) eq_refl results H2)).
    rewrite Hlen. lia.
Defined.

Example default_fleet_gets_a_list :
  produced (fst (fst (MonitoringService.get_real_time_predictions demo_service
                        demo_world))) = Some 5%nat /\
  exists l, fst (fst (MonitoringService.get_real_time_predictions demo_service
                        demo_world)) = inr (Many l).
Proof. split; [vm_compute; reflexivity|]. eexists. vm_compute. reflexivity. Qed.

(** ** Preprocessing *)

Lemma getitem_lookup d k v : Py.getitem d k = inr v -> d !! k = Some v.
Proof. unfold Py.getitem. destruct (d !! k); [intros [= ->]; reflexivity|discriminate]. Qed.




















(** C7. The two spellings do not agree at zero: tool wear 0 under
    ['Tool wear [min]'] is read as [None], under ['Tool_wear_min'] as 0. *)
Theorem zero_wear_spellings_differ :
  (exists row,
     ModelInference.preprocess_input demo_inference bracketed_zero_wear = inr [row] /\
     row !! 4%nat = Some PNone) /\
  (exists row,
     ModelInference.preprocess_input demo_inference normalized_zero_wear = inr [row] /\
     row !! 4%nat = Some (PInt 0)) /\
  ModelInference.preprocess_input demo_inference bracketed_zero_wear
  <> ModelInference.preprocess_input demo_inference normalized_zero_wear.
Proof.
  split; [|split].
  - eexists. split; [vm_compute; reflexivity|reflexivity].
  - eexists. split; [vm_compute; reflexivity|reflexivity].
  - intros H. vm_compute in H. discriminate H.
Qed.

(** The failing input is one the simulator emits: right after maintenance
    the wear is below one minute, the reading reports tool wear 0 under the
    bracketed name, and preprocessing reads it as [None]. *)
Example simulator_emits_zero_wear :
  exists s1 s2 r row,
    fst (simulate "M005" (Some "H") "maintenance" [OpMaintain; OpGenerate]
           (scripted_world 6 0.5 0)) = [s1; s2] /\
    returned s2 = Some r /\
    r !! "Tool wear [min]" = Some (PInt 0) /\
    ModelInference.preprocess_input demo_inference r = inr [row] /\
    row !! 4%nat = Some PNone.
Proof.
  set (steps := fst _). vm_compute in steps.
  eexists _, _, _, _. split; [reflexivity|]. split; [reflexivity|].
  split; [reflexivity|]. split; [vm_compute; reflexivity|reflexivity].
Qed.

Lemma or_truthy_l a b : Py.truthy a = true -> Py.or a b = a.
Proof. unfold Py.or. intros ->. reflexivity. Qed.

Lemma spellings_agree_when_truthy (self : ModelInference.t)
    (type_ air process speed torque wear : pyval) :
  Py.truthy air = true -> Py.truthy process = true -> Py.truthy speed = true ->
  Py.truthy torque = true -> Py.truthy wear = true ->
  ModelInference.preprocess_input self
    (bracketed_reading type_ air process speed torque wear)
  = ModelInference.preprocess_input self
    (normalized_reading type_ air process speed torque wear).
Proof.
  intros Ha Hp Hs Ht Hw. unfold ModelInference.preprocess_input.
  set (b := bracketed_reading _ _ _ _ _ _).
  set (n := normalized_reading _ _ _ _ _ _).
  assert (E1 : ModelInference.air_temp_of b = air /\ ModelInference.air_temp_of n = air).
  { split; [apply (or_truthy_l air PNone Ha) | reflexivity]. }
  assert (E2 : ModelInference.process_temp_of b = process /\ ModelInference.process_temp_of n = process).
  { split; [apply (or_truthy_l process PNone Hp) | reflexivity]. }
  assert (E3 : ModelInference.speed_of b = speed /\ ModelInference.speed_of n = speed).
  { split; [apply (or_truthy_l speed PNone Hs) | reflexivity]. }
  assert (E4 : ModelInference.torque_of b = torque /\ ModelInference.torque_of n = torque).
  { split; [apply (or_truthy_l torque PNone Ht) | reflexivity]. }
  assert (E5 : ModelInference.tool_wear_of b = wear /\ ModelInference.tool_wear_of n = wear).
  { split; [apply (or_truthy_l wear PNone Hw) | reflexivity]. }
  destruct E1 as [-> ->], E2 as [-> ->], E3 as [-> ->], E4 as [-> ->], E5 as [-> ->].
  reflexivity.
Qed.

(** ** Timestamps of a batch *)

Lemma generate_clock m w :
  timestamp_of (fst (fst (MachineSimulator.generate_sensor_data m w)))
  = Some (clock w 0%nat) /\
  clock (snd (MachineSimulator.generate_sensor_data m w)) = behead (clock w).
Proof.
  unfold MachineSimulator.generate_sensor_data, random.uniform, mbind, sim_bind,
    mret, sim_ret, random.random, random.gauss, datetime_now_isoformat.
  cbn [unif normal clock fst snd].
  destruct (Num.ltb _ _); destruct (_ =? _)%Z; split; reflexivity.
Qed.

Lemma generate_all_timestamps ms : forall w,
  map timestamp_of (fst (fst (DataSimulator.generate_all ms w)))
  = map (fun i => Some (clock w i)) (seq 0 (length ms)).
Proof.
  induction ms as [|m ms IH]; intros w; [reflexivity|].
  simpl. unfold mbind, sim_bind.
  destruct (generate_clock m w) as [Ht Hc].
  destruct (MachineSimulator.generate_sensor_data m w) as [[r m'] w1].
  specialize (IH w1). destruct (DataSimulator.generate_all ms w1) as [[rs ms'] w2].
  simpl in *. rewrite Ht, IH, Hc. f_equal.
  rewrite <- seq_shift, map_map. reflexivity.
Qed.

Lemma predict_snapshots self input out :
  ModelInference.predict self input = inr out ->
  map ModelInference.sensor_data (items out) = items input.
Proof.
  intros H. apply predict_items in H as [H _].
  apply except_map_Forall2 in H.
  induction H as [|d r ds rs Hr _ IH]; [reflexivity|].
  simpl. rewrite IH, (predict_one_snapshot _ _ _ Hr). reflexivity.
Qed.

(** C8, amended. In one fleet-wide prediction call every machine's result
    carries, in its sensor snapshot, the timestamp read from the clock when
    that machine's reading was generated: the k-th machine's result carries
    the k-th clock reading of the call. (The timestamps are therefore
    identical only when the clock does not advance during the batch.) *)
Theorem fleet_timestamps_follow_clock (svc : MonitoringService.t) (w : World)
    (out : one_or_many ModelInference.result) :
  fst (fst (MonitoringService.get_real_time_predictions svc w)) = inr out ->
  result_timestamps (items out)
  = map (fun k => Some (clock w k))
        (seq 0 (length (DataSimulator.machines (MonitoringService.simulator svc)))).
Proof.
  unfold MonitoringService.get_real_time_predictions,
    MonitoringService.predict_generated, DataSimulator.generate_data.
  cbn [truthy_id]. unfold mbind, sim_bind.
  pose proof (generate_all_timestamps
    (DataSimulator.machines (MonitoringService.simulator svc)) w) as Ht.
  destruct (DataSimulator.generate_all _ w) as [[rs ms'] w']. simpl in *.
  intros H. apply predict_snapshots in H. simpl in H.
  unfold result_timestamps. rewrite <- Ht, <- H, map_map. reflexivity.
Qed.

Lemma fleet_timestamps_follow_clock_witness :
  exists l,
    fst (fst (MonitoringService.get_real_time_predictions demo_service demo_world))
    = inr (Many l) /\
    result_timestamps (items (Many l))
    = map (fun k => Some (clock demo_world k))
          (seq 0 (length (DataSimulator.machines
                            (MonitoringService.simulator demo_service)))).
Proof.
  eexists. split; [vm_compute; reflexivity|].
  apply (fleet_timestamps_follow_clock demo_service demo_world (Many _)).
  vm_compute. reflexivity.
Defined.

(** C8 as stated fails: with a clock that advances between readings, the
    five results of one fleet-wide call carry five different timestamps. *)
Lemma batch_timestamps_differ :
  exists out,
    fst (fst (MonitoringService.get_real_time_predictions demo_service demo_world))
    = inr out /\
    result_timestamps (items out)
    = [Some "0"; Some "1"; Some "2"; Some "3"; Some "4"]%string /\
    same_timestamps (items out) = false.
Proof.
  eexists. split; [vm_compute; reflexivity|]. split; vm_compute; reflexivity.
Qed.

(** * Further properties *)

(** ** A machine's life, step by step *)

Lemma returns_and {A} (c : Sim A) (P Q : A -> Prop) :
  returns c P -> (forall w, Q (fst (c w))) -> returns c (fun a => P a /\ Q a).
Proof.
  intros HP HQ w Hw. destruct (HP w Hw) as [H1 H2].
  split; [split; [exact H1|apply HQ]|exact H2].
Qed.

Lemma run_steps (P : step -> Prop) :
  (forall m w,
     P {| step_op := OpGenerate; before := m;
          returned := Some (fst (fst (MachineSimulator.generate_sensor_data m w)));
          after := snd (fst (MachineSimulator.generate_sensor_data m w)) |}) ->
  (forall m w,
     P {| step_op := OpMaintain; before := m; returned := None;
          after := fst (MachineSimulator.reset_tool_wear m w) |}) ->
  forall ops m w, Forall P (fst (run ops m w)).
Proof.
  intros Hg Hr. induction ops as [|o ops IH]; intros m w; [constructor|].
  destruct o; simpl; unfold mbind, sim_bind.
  - specialize (Hg m w).
    destruct (MachineSimulator.generate_sensor_data m w) as [[r m'] w1].
    specialize (IH m' w1). destruct (run ops m' w1) as [steps w2].
    constructor; assumption.
  - specialize (Hr m w).
    destruct (MachineSimulator.reset_tool_wear m w) as [m' w1].
    specialize (IH m' w1). destruct (run ops m' w1) as [steps w2].
    constructor; assumption.
Qed.

Lemma returns_run_with (I : MachineSimulator.t -> Prop) (P : step -> Prop) :
  (forall m, I m ->
     returns (MachineSimulator.generate_sensor_data m)
       (fun '(r, m') =>
          I m' /\ P {| step_op := OpGenerate; before := m; returned := Some r;
                       after := m' |})) ->
  (forall m, I m ->
     returns (MachineSimulator.reset_tool_wear m)
       (fun m' =>
          I m' /\ P {| step_op := OpMaintain; before := m; returned := None;
                       after := m' |})) ->
  forall ops m, I m -> returns (run ops m) (Forall P).
Proof.
  intros Hg Hr. induction ops as [|o ops IH]; intros m Hm.
  - apply returns_ret. constructor.
  - destruct o; simpl.
    + eapply returns_bind; [apply Hg; exact Hm|]. intros [r m'] [Hm' Hs].
      eapply returns_bind; [apply IH; exact Hm'|]. intros steps Hsteps.
      apply returns_ret. constructor; assumption.
    + eapply returns_bind; [apply Hr; exact Hm|]. intros m' [Hm' Hs].
      eapply returns_bind; [apply IH; exact Hm'|]. intros steps Hsteps.
      apply returns_ret. constructor; assumption.
Qed.

Lemma generate_frame m w :
  step_frame {| step_op := OpGenerate; before := m;
                returned := Some (fst (fst (MachineSimulator.generate_sensor_data m w)));
                after := snd (fst (MachineSimulator.generate_sensor_data m w)) |}.
Proof.
  unfold step_frame. cbn [step_op before after returned].
  unfold MachineSimulator.generate_sensor_data, random.uniform, mbind, sim_bind,
    mret, sim_ret, random.random, random.gauss, datetime_now_isoformat.
  cbn [unif normal clock fst snd].
  destruct (Num.ltb _ _); destruct (_ =? _)%Z; cbn [fst snd];
    (repeat split; try reflexivity; eexists; repeat split; reflexivity).
Qed.

Lemma reset_frame m w :
  step_frame {| step_op := OpMaintain; before := m; returned := None;
                after := fst (MachineSimulator.reset_tool_wear m w) |}.
Proof. unfold step_frame. repeat split; reflexivity. Qed.

(** X1. Across any sequence of calls on one machine, every call leaves the
    machine's id, type, operating mode and process-temperature baseline as
    they were. [generate_sensor_data] adds one to the cycle counter, keeps
    the degradation rate, and returns a reading whose ['machine_id'],
    ['Type'], ['operating_mode'], ['cycles'] and ['Tool wear [min]'] echo
    the machine after the call (the wear through [int]). [reset_tool_wear]
    returns no reading and leaves the counter and the three drifting
    baselines alone. So the cycle counter of the machine a run leaves
    behind is the number of readings that were asked for. *)
Theorem cycles_count_readings (machine_id : string)
    (machine_type : option string) (initial_condition : string)
    (ops : list op) (w : World) :
  let m0 := fst (MachineSimulator.__init__ machine_id machine_type
                   initial_condition w) in
  let steps := fst (simulate machine_id machine_type initial_condition ops w) in
  Forall step_frame steps /\
  MachineSimulator.cycles (final_machine m0 steps) = readings_asked ops.
Proof.
  intros m0 steps. subst m0 steps. unfold simulate, mbind, sim_bind.
  assert (H0 : MachineSimulator.cycles
                 (fst (MachineSimulator.__init__ machine_id machine_type
                         initial_condition w)) = 0%Z).
  { unfold MachineSimulator.__init__.
    destruct machine_type as [s|]; [destruct (String.eqb s "")|];
      repeat match goal with |- context [if ?b then _ else _] => destruct b end;
      reflexivity. }
  destruct (MachineSimulator.__init__ _ _ _ w) as [m w1]. cbn [fst] in *.
  split; [apply run_steps; [apply generate_frame|apply reset_frame]|].
  assert (Hgen : forall ops m w,
            MachineSimulator.cycles (final_machine m (fst (run ops m w)))
            = (MachineSimulator.cycles m + readings_asked ops)%Z).
  { clear. induction ops as [|o ops IH]; intros m w; [simpl; lia|].
    destruct o; simpl; unfold mbind, sim_bind, mret, sim_ret.
    - pose proof (generate_frame m w) as (_ & _ & _ & _ & Hc & _).
      cbn [step_op before after returned] in Hc.
      destruct (MachineSimulator.generate_sensor_data m w) as [[r m'] w1].
      specialize (IH m' w1). destruct (run ops m' w1) as [steps w2].
      cbn [fst snd final_machine after] in *. rewrite IH, Hc. lia.
    - pose proof (reset_frame m w) as (_ & _ & _ & _ & _ & Hc & _).
      cbn [step_op before after returned] in Hc.
      destruct (MachineSimulator.reset_tool_wear m w) as [m' w1].
      specialize (IH m' w1). destruct (run ops m' w1) as [steps w2].
      cbn [fst snd final_machine after] in *. rewrite IH, Hc. lia. }
  rewrite Hgen, H0. lia.
Qed.

Lemma returns_init_draws_all wear air proc speed torque rate :
  fst wear <= snd wear -> fst air <= snd air -> fst proc <= snd proc ->
  fst speed <= snd speed -> fst torque <= snd torque -> fst rate <= snd rate ->
  returns (MachineSimulator.init_draws wear air proc speed torque rate)
    (fun '(tw, ab, pb, sb, tb, dr) =>
       within tw (fst wear) (snd wear) /\ within ab (fst air) (snd air) /\
       within pb (fst proc) (snd proc) /\ within sb (fst speed) (snd speed) /\
       within tb (fst torque) (snd torque) /\ within dr (fst rate) (snd rate)).
Proof.
  intros. unfold MachineSimulator.init_draws, within.
  draw. intros tw (? & ? & _). draw. intros ab (? & ? & _).
  draw. intros pb (? & ? & _). draw. intros sb (? & ? & _).
  draw. intros tb (? & ? & _). draw. intros dr (? & ? & _).
  apply returns_ret. auto 12.
Qed.

(** What [__init__] guarantees about the object it builds. *)
Lemma returns_new_machine id ty cond :
  returns (MachineSimulator.__init__ id ty cond)
    (fun m =>
       MachineSimulator.machine_id m = id /\
       MachineSimulator.cycles m = 0%Z /\
       MachineSimulator.operating_mode m = "normal"%string /\
       (forall s, ty = Some s -> s <> ""%string -> MachineSimulator.machine_type m = s) /\
       within (MachineSimulator.air_temp_baseline m) 296 303.5 /\
       within (MachineSimulator.process_temp_baseline m) 306 313 /\
       within (MachineSimulator.speed_baseline m) 1220 2100 /\
       within (MachineSimulator.torque_baseline m) 22 70 /\
       within (MachineSimulator.degradation_rate m) 0.15 0.4 /\
       within (MachineSimulator.tool_wear m)
         (if String.eqb cond "healthy" then 5
          else if String.eqb cond "risk" then 165
          else if String.eqb cond "maintenance" then 180 else 5)
         (if String.eqb cond "healthy" then 45
          else if String.eqb cond "risk" then 185
          else if String.eqb cond "maintenance" then 220 else 40)).
Proof.
  unfold MachineSimulator.__init__.
  eapply returns_bind with
    (mid := fun mtype => forall s, ty = Some s -> s <> ""%string -> mtype = s).
  { destruct ty as [s|].
    - destruct (String.eqb s "") eqn:E.
      + apply String.eqb_eq in E. eapply returns_weaken; [apply returns_choice|].
        intros a _ s' [= <-] Hne. contradiction.
      + apply returns_ret. intros s' [= <-] _. reflexivity.
    - eapply returns_weaken; [apply returns_choice|]. intros a _ s' [=]. }
  intros mtype Hty.
  destruct (String.eqb cond "healthy");
    [|destruct (String.eqb cond "risk");
      [|destruct (String.eqb cond "maintenance")]];
    (eapply returns_bind; [apply returns_init_draws_all; simpl; lra|]);
    intros [[[[[tw ab] pb] sb] tb] dr]; unfold within; cbn [fst snd];
    intros (Htw & Hab & Hpb & Hsb & Htb & Hdr); apply returns_ret;
    cbn [MachineSimulator.machine_id MachineSimulator.cycles
         MachineSimulator.operating_mode MachineSimulator.machine_type
         MachineSimulator.air_temp_baseline MachineSimulator.process_temp_baseline
         MachineSimulator.speed_baseline MachineSimulator.torque_baseline
         MachineSimulator.degradation_rate MachineSimulator.tool_wear];
    (split; [reflexivity|]); (split; [reflexivity|]); (split; [reflexivity|]);
    (split; [exact Hty|]); repeat split; lra.
Qed.

(** X2. A freshly constructed machine carries the id it was given and a
    cycle counter of zero. Whatever the initial condition, its baselines
    lie in the union of the four branches' intervals: air temperature in
    [[296, 303.5]], process temperature in [[306, 313]], speed in
    [[1220, 2100]], torque in [[22, 70]], degradation rate in
    [[0.15, 0.4]]. Its wear lies in [[5, 45]] when healthy, [[165, 185]]
    when at risk, [[180, 220]] when maintenance is due, and [[5, 40]] for
    any other condition string (the default branch). *)
Theorem new_machine_state (machine_id : string) (machine_type : option string)
    (initial_condition : string) (w : World) :
  valid_world w ->
  let m := fst (MachineSimulator.__init__ machine_id machine_type
                  initial_condition w) in
  MachineSimulator.machine_id m = machine_id /\
  MachineSimulator.cycles m = 0%Z /\
  within (MachineSimulator.air_temp_baseline m) 296 303.5 /\
  within (MachineSimulator.process_temp_baseline m) 306 313 /\
  within (MachineSimulator.speed_baseline m) 1220 2100 /\
  within (MachineSimulator.torque_baseline m) 22 70 /\
  within (MachineSimulator.degradation_rate m) 0.15 0.4 /\
  (initial_condition = "healthy"%string ->
   within (MachineSimulator.tool_wear m) 5 45) /\
  (initial_condition = "risk"%string ->
   within (MachineSimulator.tool_wear m) 165 185) /\
  (initial_condition = "maintenance"%string ->
   within (MachineSimulator.tool_wear m) 180 220) /\
  (initial_condition <> "healthy"%string -> initial_condition <> "risk"%string ->
   initial_condition <> "maintenance"%string ->
   within (MachineSimulator.tool_wear m) 5 40).
Proof.
  intros Hw m.
  destruct (returns_new_machine machine_id machine_type initial_condition w Hw)
    as [(Hid & Hc & _ & _ & Ha & Hp & Hs & Ht & Hd & Htw) _].
  fold m in Hid, Hc, Ha, Hp, Hs, Ht, Hd, Htw.
  refine (conj Hid (conj Hc (conj Ha (conj Hp (conj Hs (conj Ht (conj Hd
            (conj _ (conj _ (conj _ _)))))))))).
  - intros ->. exact Htw.
  - intros ->. exact Htw.
  - intros ->. exact Htw.
  - intros H1 H2 H3.
    apply String.eqb_neq in H1, H2, H3. rewrite H1, H2, H3 in Htw. exact Htw.
Qed.

Lemma new_machine_state_witness :
  valid_world (steady_world 0.5 0) /\
  let m := fst (MachineSimulator.__init__ "M004" (Some "L"%string) "risk"
                  (steady_world 0.5 0)) in
  MachineSimulator.tool_wear m == 175 /\
  within (MachineSimulator.tool_wear m) 165 185.
Proof.
  assert (Hw : valid_world (steady_world 0.5 0)).
  { intros n. simpl. split; lra. }
  split; [exact Hw|]. split; [reflexivity|].
  apply (new_machine_state "M004" (Some "L"%string) "risk" _ Hw). reflexivity.
Defined.

Lemma returns_generate_rated m : rated m ->
  returns (MachineSimulator.generate_sensor_data m)
    (fun '(r, m') =>
       rated m' /\
       rate_ok {| step_op := OpGenerate; before := m; returned := Some r;
                  after := m' |}).
Proof.
  intros ((Hw0 & Hw1 & Hd) & Hr0 & Hr1).
  unfold MachineSimulator.generate_sensor_data.
  draw. intros u (Hu0 & Hu1 & _).
  draw. intros g1 _. draw. intros u2 _. draw. intros g2 _. draw. intros g3 _.
  eapply returns_bind with (mid := fun _ => True).
  { destruct (Num.ltb _ _); [draw; intros ? _|]; done_returning. }
  intros bt _. draw. intros g4 _.
  eapply returns_bind with (mid := fun _ => True).
  { destruct (_ =? _)%Z.
    - draw. intros da _. draw. intros ds _. draw. intros dt _. done_returning.
    - done_returning. }
  intros [[ab sb] tb] _. draw. intros ts _.
  apply returns_ret.
  set (tw := Num.min _ 250).
  assert (Htw : 0 <= tw /\ tw <= 250).
  { subst tw.
    destruct (min_spec (MachineSimulator.tool_wear m
                        + MachineSimulator.degradation_rate m * u) 250)
      as (H1 & H2 & [H3|H3]); rewrite H3; split; try lra; nra. }
  unfold rated, wf, rate_ok, within in *.
  cbn [step_op before after MachineSimulator.tool_wear
       MachineSimulator.degradation_rate].
  fold tw. destruct Htw as [? ?].
  repeat split; try assumption; try lra.
Qed.

Lemma returns_reset_rated m : rated m ->
  returns (MachineSimulator.reset_tool_wear m)
    (fun m' =>
       rated m' /\
       rate_ok {| step_op := OpMaintain; before := m; returned := None;
                  after := m' |}).
Proof.
  intros _. unfold MachineSimulator.reset_tool_wear.
  draw. intros tw (H0 & H1 & H2). draw. intros dr (H3 & H4 & _).
  apply returns_ret.
  unfold rated, wf, rate_ok, within.
  cbn [step_op before after MachineSimulator.tool_wear
       MachineSimulator.degradation_rate].
  split; [repeat split; lra|]. repeat split; lra.
Qed.

Lemma returns_simulate_rated id ty cond ops :
  returns (simulate id ty cond ops) (Forall rate_ok).
Proof.
  unfold simulate. eapply returns_bind; [apply returns_new_machine|].
  intros m (_ & _ & _ & _ & _ & _ & _ & _ & Hd & Htw).
  apply (returns_run_with rated).
  - apply returns_generate_rated.
  - apply returns_reset_rated.
  - unfold rated, wf, within in *.
    destruct (String.eqb cond "healthy"), (String.eqb cond "risk"),
      (String.eqb cond "maintenance"); repeat split; lra.
Qed.

Lemma generate_drift m w :
  drift_ok {| step_op := OpGenerate; before := m;
              returned := Some (fst (fst (MachineSimulator.generate_sensor_data m w)));
              after := snd (fst (MachineSimulator.generate_sensor_data m w)) |}.
Proof.
  unfold drift_ok. cbn [step_op before after].
  unfold MachineSimulator.generate_sensor_data, random.uniform, mbind, sim_bind,
    mret, sim_ret, random.random, random.gauss, datetime_now_isoformat.
  cbn [unif normal clock fst snd].
  destruct (Num.ltb _ _); destruct (_ =? _)%Z eqn:E; cbn [fst snd];
    cbn [MachineSimulator.cycles MachineSimulator.air_temp_baseline
         MachineSimulator.speed_baseline MachineSimulator.torque_baseline];
    intros _ Hne;
    first [apply Z.eqb_eq in E; contradiction | repeat split; reflexivity].
Qed.

Lemma reset_drift m w :
  drift_ok {| step_op := OpMaintain; before := m; returned := None;
              after := fst (MachineSimulator.reset_tool_wear m w) |}.
Proof. unfold drift_ok. cbn [step_op]. intros [=]. Qed.

Lemma readings_asked_nonneg ops : (0 <= readings_asked ops)%Z.
Proof. induction ops as [|[|] ops IH]; simpl; lia. Qed.

Lemma baselines_kept ops : forall m w,
  (0 <= MachineSimulator.cycles m)%Z ->
  (MachineSimulator.cycles m + readings_asked ops < 100)%Z ->
  same_baselines m (final_machine m (fst (run ops m w))).
Proof.
  induction ops as [|o ops IH]; intros m w H0 Hlt.
  { repeat split; reflexivity. }
  pose proof (readings_asked_nonneg ops) as Hn.
  destruct o; simpl in *; unfold mbind, sim_bind, mret, sim_ret.
  - pose proof (generate_frame m w) as (_ & _ & _ & _ & Hc & _).
    pose proof (generate_drift m w) as Hd.
    unfold drift_ok in Hd. cbn [step_op before after returned] in Hc, Hd.
    destruct (MachineSimulator.generate_sensor_data m w) as [[r m'] w1].
    cbn [fst snd] in *.
    specialize (IH m' w1). destruct (run ops m' w1) as [steps w2].
    cbn [fst snd final_machine after] in *.
    destruct IH as (Ia & Is & It); [lia|lia|].
    destruct Hd as (Da & Ds & Dt); [reflexivity| |].
    { rewrite Hc, Z.mod_small by lia. lia. }
    unfold same_baselines. rewrite Ia, Is, It. repeat split; assumption.
  - pose proof (reset_frame m w) as (_ & _ & _ & _ & _ & Hc & Da & Ds & Dt).
    cbn [step_op before after returned] in Hc, Da, Ds, Dt.
    destruct (MachineSimulator.reset_tool_wear m w) as [m' w1].
    cbn [fst snd] in *.
    specialize (IH m' w1). destruct (run ops m' w1) as [steps w2].
    cbn [fst snd final_machine after] in *.
    destruct IH as (Ia & Is & It); [lia|lia|].
    unfold same_baselines. rewrite Ia, Is, It. repeat split; assumption.
Qed.

(** X3. In every reading of every run, the air-temperature, speed and
    torque baselines stay exactly as they are unless the reading brings
    the cycle counter to a multiple of 100. So a machine that has given
    fewer than 100 readings since it was constructed, whatever maintenance
    came in between, still has the baselines it was constructed with. *)
Theorem baselines_move_every_hundredth (machine_id : string)
    (machine_type : option string) (initial_condition : string)
    (ops : list op) (w : World) :
  let m0 := fst (MachineSimulator.__init__ machine_id machine_type
                   initial_condition w) in
  let steps := fst (simulate machine_id machine_type initial_condition ops w) in
  Forall drift_ok steps /\
  ((readings_asked ops < 100)%Z -> same_baselines m0 (final_machine m0 steps)).
Proof.
  intros m0 steps. subst m0 steps. unfold simulate, mbind, sim_bind.
  assert (H0 : MachineSimulator.cycles
                 (fst (MachineSimulator.__init__ machine_id machine_type
                         initial_condition w)) = 0%Z).
  { unfold MachineSimulator.__init__.
    destruct machine_type as [s|]; [destruct (String.eqb s "")|];
      repeat match goal with |- context [if ?b then _ else _] => destruct b end;
      reflexivity. }
  destruct (MachineSimulator.__init__ _ _ _ w) as [m w1]. cbn [fst] in *.
  split; [apply run_steps; [apply generate_drift|apply reset_drift]|].
  intros Hlt. apply baselines_kept; lia.
Qed.

(** X4. In every run the degradation rate stays within [[0.15, 0.5]]: it
    is drawn there at construction, whatever the initial condition, a
    reading never changes it, and maintenance draws a new one in
    [[0.2, 0.5]]. *)
Theorem degradation_rate_stays_bounded (machine_id : string)
    (machine_type : option string) (initial_condition : string)
    (ops : list op) (w : World) :
  valid_world w ->
  Forall rate_ok
    (fst (simulate machine_id machine_type initial_condition ops w)).
Proof.
  intros Hw.
  destruct (returns_simulate_rated machine_id machine_type initial_condition
              ops w Hw) as [H _].
  exact H.
Qed.

Lemma degradation_rate_stays_bounded_witness :
  valid_world (steady_world 0.5 2) /\
  Forall rate_ok
    (fst (simulate "M005" None "maintenance"
            [OpGenerate; OpMaintain; OpGenerate] (steady_world 0.5 2))).
Proof.
  assert (Hw : valid_world (steady_world 0.5 2)).
  { intros n. simpl. split; lra. }
  split; [exact Hw|].
  apply (degradation_rate_stays_bounded "M005" None "maintenance"
           [OpGenerate; OpMaintain; OpGenerate] (steady_world 0.5 2) Hw).
Defined.

(** ** Constructing a fleet *)

Lemma returns_sim_map {A B} (f : A -> Sim B) (P : A -> B -> Prop) l :
  (forall x, returns (f x) (P x)) -> returns (sim_map f l) (Forall2 P l).
Proof.
  intros Hf. induction l as [|x l IH]; simpl.
  - apply returns_ret. constructor.
  - eapply returns_bind; [apply Hf|]. intros y Hy.
    eapply returns_bind; [apply IH|]. intros ys Hys.
    apply returns_ret. constructor; assumption.
Qed.

Lemma choice_known :
  returns (random.choice config.SENSOR_RANGES.Type_)
          (fun s => In s config.SENSOR_RANGES.Type_).
Proof.
  unfold random.choice. eapply returns_bind; [apply returns_random|].
  intros r [H0 H1]. apply returns_ret.
  set (x := r * inject_Z (Z.of_nat (length config.SENSOR_RANGES.Type_))).
  assert (Hx : 0 <= x /\ x < 3).
  { assert (E : x == r * 3) by reflexivity. rewrite E. lra. }
  assert (Hi : (0 <= Num.int x < 3)%Z).
  { rewrite int_floor by apply Hx. split.
    - rewrite <- (Qfloor_Z 0). apply Qfloor_resp_le. apply Hx.
    - rewrite Zlt_Qlt. eapply Qle_lt_trans; [apply Qfloor_le|]. apply Hx. }
  destruct (Z.to_nat (Num.int x)) as [|[|[|k]]] eqn:E; simpl; auto. lia.
Qed.

Lemma nth_conditions n i :
  nth i (DataSimulator.conditions n) "healthy"%string
  = match i with
    | 3%nat => "risk"%string
    | 4%nat => "maintenance"%string
    | _ => "healthy"%string
    end.
Proof.
  unfold DataSimulator.conditions.
  destruct i as [|[|[|[|[|i]]]]]; try reflexivity.
  cbn [app nth]. generalize (Z.to_nat (n - 5)). clear n.
  intros k. revert i. induction k as [|k IH]; intros [|i]; simpl; auto.
Qed.

Lemma known_type_nonempty s : In s config.SENSOR_RANGES.Type_ -> s <> ""%string.
Proof. simpl. intros [<-|[<-|[<-|[]]]]; discriminate. Qed.

Lemma returns_init_machine n i :
  returns (DataSimulator.init_machine (DataSimulator.conditions n) i)
    (fun m =>
       MachineSimulator.machine_id m = DataSimulator.machine_name i /\
       MachineSimulator.cycles m = 0%Z /\
       machine_ok m /\
       within (MachineSimulator.tool_wear m)
              (fst (starting_wear i)) (snd (starting_wear i))).
Proof.
  unfold DataSimulator.init_machine.
  eapply returns_bind; [apply choice_known|]. intros ty Hty.
  eapply returns_weaken; [apply returns_new_machine|].
  intros m (Hid & Hc & _ & Htype & _ & _ & _ & _ & Hd & Htw).
  rewrite nth_conditions in Htw.
  assert (Hwear : within (MachineSimulator.tool_wear m)
                         (fst (starting_wear i)) (snd (starting_wear i))).
  { destruct i as [|[|[|[|[|i]]]]]; exact Htw. }
  split; [exact Hid|]. split; [exact Hc|]. split; [|exact Hwear].
  split.
  - unfold rated, wf, within in *. 
    assert (5 <= fst (starting_wear i) /\ snd (starting_wear i) <= 220).
    { destruct i as [|[|[|[|[|i]]]]]; simpl; lra. }
    repeat split; lra.
  - unfold known_type.
    rewrite (Htype ty eq_refl (known_type_nonempty ty Hty)). exact Hty.
Qed.

Lemma machine_name_parses i :
  parse_machine_name (DataSimulator.machine_name i) = Some (i + 1)%nat.
Proof.
  unfold DataSimulator.machine_name, parse_machine_name, Str.zfill, Str.of_nat.
  cbn [String.append].
  assert (Hz : forall k s d, NilEmpty.uint_of_string s = Some d ->
            Nat.of_uint <$> NilEmpty.uint_of_string
              (String.concat "" (repeat "0"%string k) ++ s)%string
            = Some (Nat.of_uint d)).
  { induction k as [|k IH]; intros s d Hs.
    - change (String.concat "" (repeat "0"%string 0) ++ s)%string with s.
      rewrite Hs. reflexivity.
    - assert (E : (String.concat "" (repeat "0"%string (S k)) ++ s)%string
                  = String "0" (String.concat "" (repeat "0"%string k) ++ s)).
      { destruct k; reflexivity. }
      rewrite E. specialize (IH s d Hs).
      cbn [NilEmpty.uint_of_string].
      destruct (NilEmpty.uint_of_string
                  (String.concat "" (repeat "0"%string k) ++ s)) as [d'|];
        [|discriminate].
      cbn in IH |- *. injection IH as IH. f_equal. exact IH. }
  assert (Hn : Nat.to_uint (i + 1) <> Decimal.Nil).
  { intros E. apply (f_equal Nat.of_uint) in E.
    rewrite DecimalNat.Unsigned.of_to in E.
    change (Nat.of_uint Decimal.Nil) with 0%nat in E. lia. }
  assert (Hs : NilZero.string_of_uint (Nat.to_uint (i + 1))
               = NilEmpty.string_of_uint (Nat.to_uint (i + 1))).
  { destruct (Nat.to_uint (i + 1)); [contradiction|..]; reflexivity. }
  change (Nat.of_uint <$> NilEmpty.uint_of_string
            (String.concat "" (repeat "0"%string
               (3 - String.length (NilZero.string_of_uint (Nat.to_uint (i + 1)))))
             ++ NilZero.string_of_uint (Nat.to_uint (i + 1)))%string
          = Some (i + 1)%nat).
  rewrite Hs. erewrite Hz; [|apply NilEmpty.usu].
  rewrite DecimalNat.Unsigned.of_to. reflexivity.
Qed.

Lemma machine_name_inj i j :
  DataSimulator.machine_name i = DataSimulator.machine_name j -> i = j.
Proof.
  intros E. apply (f_equal parse_machine_name) in E.
  rewrite !machine_name_parses in E. injection E. lia.
Qed.

Lemma sim_map_ids n l : forall w,
  map MachineSimulator.machine_id
      (fst (sim_map (DataSimulator.init_machine (DataSimulator.conditions n)) l w))
  = map DataSimulator.machine_name l.
Proof.
  induction l as [|i l IH]; intros w; [reflexivity|].
  simpl. unfold mbind at 1, sim_bind at 1.
  destruct (DataSimulator.init_machine _ i w) as [m w1] eqn:Em.
  unfold mbind at 1, sim_bind at 1.
  specialize (IH w1). destruct (sim_map _ l w1) as [ms w2]. simpl in *.
  f_equal; [|exact IH].
  unfold DataSimulator.init_machine, mbind, sim_bind in Em.
  destruct (random.choice _ w) as [ty w0].
  pose proof (init_machine_id (DataSimulator.machine_name i) (Some ty)
                (nth i (DataSimulator.conditions n) "healthy"%string) w0) as Hid.
  rewrite Em in Hid. exact Hid.
Qed.

Lemma find_machine_spec ms id : forall i j m,
  DataSimulator.find_machine ms id i = Some (j, m) ->
  exists k, j = (i + k)%nat /\ ms !! k = Some m /\
            MachineSimulator.machine_id m = id /\
            absent id (take k ms) = true.
Proof.
  induction ms as [|m0 ms IH]; intros i j m H; [discriminate|].
  simpl in H. destruct (String.eqb (MachineSimulator.machine_id m0) id) eqn:E.
  - injection H as <- <-. exists 0%nat. apply String.eqb_eq in E.
    split; [lia|]. split; [reflexivity|]. split; [exact E|reflexivity].
  - apply IH in H as (k & -> & Hk & Hid & Habs). exists (S k).
    split; [lia|]. split; [exact Hk|]. split; [exact Hid|].
    simpl. rewrite E, Habs. reflexivity.
Qed.

Lemma find_machine_first ms id k m :
  ms !! k = Some m -> MachineSimulator.machine_id m = id ->
  absent id (take k ms) = true ->
  forall i, DataSimulator.find_machine ms id i = Some ((i + k)%nat, m).
Proof.
  revert k. induction ms as [|m0 ms IH]; intros k Hk Hid Habs i; [destruct k; discriminate|].
  destruct k as [|k]; simpl in *.
  - injection Hk as ->. apply String.eqb_eq in Hid. rewrite Hid.
    do 2 f_equal. lia.
  - apply andb_prop in Habs as [Hm Habs]. apply negb_true_iff in Hm. rewrite Hm.
    rewrite (IH k Hk Hid Habs (S i)). do 2 f_equal. lia.
Qed.

Lemma absent_names l id :
  absent id l = true <-> ~ In id (map MachineSimulator.machine_id l).
Proof.
  induction l as [|m l IH]; simpl; [tauto|].
  rewrite andb_true_iff, negb_true_iff, String.eqb_neq, IH. tauto.
Qed.

Lemma constructed_fleet_ok num_machines w :
  valid_world w ->
  Forall machine_ok (DataSimulator.machines (fst (DataSimulator.__init__ num_machines w))) /\
  valid_world (snd (DataSimulator.__init__ num_machines w)).
Proof.
  intros Hw. unfold DataSimulator.__init__, mbind, sim_bind.
  set (k := match num_machines with Some k => _ | None => _ end).
  destruct (returns_sim_map
              (DataSimulator.init_machine (DataSimulator.conditions k)) _
              (seq 0 (Z.to_nat k)) (returns_init_machine k) w Hw) as [H Hw'].
  destruct (sim_map _ _ w) as [ms w']. cbn [fst snd DataSimulator.machines
    mret sim_ret] in *.
  split; [|exact Hw'].
  clear - H. induction H as [|i m l ms (_ & _ & Hok & _) _ IH];
    constructor; assumption.
Qed.

(** X5. [DataSimulator(num_machines)] has [config.NUM_MACHINES] = 5 machines
    when [num_machines] is [None] or 0, and [num_machines] of them
    otherwise (none when that is negative). The machine at position [i]
    is named ['M'] followed by [i + 1] padded to three digits, has made no
    cycle, has a type among ['L'], ['M'], ['H'], a degradation rate in
    [[0.15, 0.5]], and starts with the wear of its condition: the fourth
    machine at risk ([[165, 185]]), the fifth due for maintenance
    ([[180, 220]]), every other one healthy ([[5, 45]]), also beyond the
    fifth. *)
Theorem constructed_fleet (num_machines : option Z) (w : World) :
  valid_world w ->
  let fleet := fst (DataSimulator.__init__ num_machines w) in
  let n := DataSimulator.num_machines fleet in
  (num_machines = None \/ num_machines = Some 0%Z -> n = 5%Z) /\
  (forall k, num_machines = Some k -> k <> 0%Z -> n = k) /\
  length (DataSimulator.machines fleet) = Z.to_nat n /\
  forall i m,
    DataSimulator.machines fleet !! i = Some m ->
    MachineSimulator.machine_id m = DataSimulator.machine_name i /\
    MachineSimulator.cycles m = 0%Z /\
    machine_ok m /\
    within (MachineSimulator.tool_wear m)
           (fst (starting_wear i)) (snd (starting_wear i)).
Proof.
  intros Hw fleet n. subst n fleet.
  unfold DataSimulator.__init__, mbind, sim_bind.
  set (k := match num_machines with Some k => _ | None => _ end).
  destruct (returns_sim_map
              (DataSimulator.init_machine (DataSimulator.conditions k)) _
              (seq 0 (Z.to_nat k)) (returns_init_machine k) w Hw) as [H _].
  destruct (sim_map _ _ w) as [ms w']. cbn [fst snd DataSimulator.num_machines
    DataSimulator.machines mret sim_ret] in *.
  split; [|split; [|split]].
  - subst k. intros [->| ->]; reflexivity.
  - subst k. intros k' -> Hk. apply Z.eqb_neq in Hk. rewrite Hk. reflexivity.
  - apply Forall2_length in H. rewrite length_seq in H. symmetry. exact H.
  - intros i m Hm.
    destruct (Forall2_lookup_r _ _ _ _ _ H Hm) as (j & Hj & HP).
    apply lookup_seq in Hj as [-> _]. exact HP.
Qed.

Lemma constructed_fleet_witness :
  valid_world (steady_world 0.5 0) /\
  let fleet := fst (DataSimulator.__init__ None (steady_world 0.5 0)) in
  length (DataSimulator.machines fleet) = 5%nat /\
  forall i m,
    DataSimulator.machines fleet !! i = Some m ->
    MachineSimulator.machine_id m = DataSimulator.machine_name i /\
    within (MachineSimulator.tool_wear m)
           (fst (starting_wear i)) (snd (starting_wear i)).
Proof.
  assert (Hw : valid_world (steady_world 0.5 0)).
  { intros n. simpl. split; lra. }
  split; [exact Hw|].
  destruct (constructed_fleet None (steady_world 0.5 0) Hw)
    as (H5 & _ & Hlen & Hm).
  split.
  - rewrite Hlen, H5; [reflexivity|left; reflexivity].
  - intros i m Him. destruct (Hm i m Him) as (Hid & _ & _ & Hwear).
    split; assumption.
Defined.

(** X6. The ids of a constructed fleet are pairwise distinct; the id of the
    machine at position [i] reads back as the number [i + 1]; and the
    lookup [next(m for m in self.machines if m.machine_id == machine_id)]
    with that id finds exactly that machine. *)
Theorem machine_ids_address_machines (num_machines : option Z) (w : World) :
  let fleet := fst (DataSimulator.__init__ num_machines w) in
  NoDup (map MachineSimulator.machine_id (DataSimulator.machines fleet)) /\
  forall i m,
    DataSimulator.machines fleet !! i = Some m ->
    parse_machine_name (MachineSimulator.machine_id m) = Some (i + 1)%nat /\
    DataSimulator.find_machine (DataSimulator.machines fleet)
      (MachineSimulator.machine_id m) 0 = Some (i, m).
Proof.
  intros fleet. subst fleet.
  unfold DataSimulator.__init__, mbind, sim_bind.
  set (k := match num_machines with Some k => _ | None => _ end).
  pose proof (sim_map_ids k (seq 0 (Z.to_nat k)) w) as Hids.
  destruct (sim_map _ _ w) as [ms w']. cbn [fst snd DataSimulator.machines
    mret sim_ret] in *.
  assert (Hnd : NoDup (map MachineSimulator.machine_id ms)).
  { rewrite Hids. apply NoDup_fmap_2; [|apply NoDup_seq].
    intros a b. apply machine_name_inj. }
  split; [exact Hnd|]. intros i m Hm.
  assert (Hid : MachineSimulator.machine_id m = DataSimulator.machine_name i).
  { assert (Hl : map MachineSimulator.machine_id ms !! i
                 = Some (MachineSimulator.machine_id m)).
    { change (map MachineSimulator.machine_id ms)
        with (MachineSimulator.machine_id <$> ms).
      rewrite list_lookup_fmap, Hm. reflexivity. }
    rewrite Hids in Hl.
    change (map DataSimulator.machine_name (seq 0 (Z.to_nat k)))
      with (DataSimulator.machine_name <$> seq 0 (Z.to_nat k)) in Hl.
    rewrite list_lookup_fmap in Hl.
    destruct (seq 0 (Z.to_nat k) !! i) as [j|] eqn:Ej; [|discriminate].
    apply lookup_seq in Ej as [-> _]. injection Hl as <-. reflexivity. }
  split; [rewrite Hid; apply machine_name_parses|].
  apply (find_machine_first ms _ i m Hm eq_refl).
  apply absent_names. intros Hin.
  rewrite <- (take_drop_middle ms i m Hm) in Hnd.
  change (map MachineSimulator.machine_id (take i ms ++ m :: drop (S i) ms))
    with (MachineSimulator.machine_id <$> (take i ms ++ m :: drop (S i) ms)) in Hnd.
  rewrite fmap_app, fmap_cons in Hnd.
  apply NoDup_app in Hnd as (_ & Hdisj & _).
  apply (Hdisj (MachineSimulator.machine_id m)).
  - apply list_elem_of_In. exact Hin.
  - left.
Qed.

(** ** Calls on a fleet *)

Lemma generate_all_with (W : World -> Prop) (I : MachineSimulator.t -> Prop)
    (P : MachineSimulator.t -> gmap string pyval -> MachineSimulator.t -> Prop) :
  (forall m w, W w -> I m ->
     W (snd (MachineSimulator.generate_sensor_data m w)) /\
     I (snd (fst (MachineSimulator.generate_sensor_data m w))) /\
     P m (fst (fst (MachineSimulator.generate_sensor_data m w)))
         (snd (fst (MachineSimulator.generate_sensor_data m w)))) ->
  forall ms w, W w -> Forall I ms ->
    W (snd (DataSimulator.generate_all ms w)) /\
    Forall I (snd (fst (DataSimulator.generate_all ms w))) /\
    Forall3 P ms (fst (fst (DataSimulator.generate_all ms w)))
                 (snd (fst (DataSimulator.generate_all ms w))).
Proof.
  intros Hg. induction ms as [|m ms IH]; intros w Hw HI.
  - simpl. split; [exact Hw|]. split; constructor.
  - apply Forall_cons in HI as [Hm HI].
    simpl. unfold mbind, sim_bind.
    destruct (Hg m w Hw Hm) as (Hw1 & Hm' & HP).
    destruct (MachineSimulator.generate_sensor_data m w) as [[r m'] w1].
    destruct (IH w1 Hw1 HI) as (Hw2 & HI' & HP').
    destruct (DataSimulator.generate_all ms w1) as [[rs ms'] w2].
    cbn [fst snd mret sim_ret] in *.
    split; [exact Hw2|]. split; constructor; assumption.
Qed.

Lemma generate_keeps_ok m w :
  valid_world w -> machine_ok m ->
  valid_world (snd (MachineSimulator.generate_sensor_data m w)) /\
  machine_ok (snd (fst (MachineSimulator.generate_sensor_data m w))) /\
  (reading_in_range (fst (fst (MachineSimulator.generate_sensor_data m w))) = true /\
   ticked m (fst (fst (MachineSimulator.generate_sensor_data m w)))
            (snd (fst (MachineSimulator.generate_sensor_data m w)))).
Proof.
  intros Hw [Hr Hk].
  destruct (returns_generate_rated m Hr w Hw) as [H1 Hw'].
  destruct (returns_generate m (proj1 Hr) w Hw) as [H2 _].
  pose proof (generate_frame m w) as Hf.
  destruct (MachineSimulator.generate_sensor_data m w) as [[r m'] w1].
  cbn [fst snd] in *. destruct H1 as [Hr' _]. destruct H2 as [Hin _].
  split; [exact Hw'|]. split; [|split; [exact Hin|exact Hf]].
  split; [exact Hr'|]. unfold known_type in *.
  destruct Hf as (_ & Hty & _). cbn [before after] in Hty. rewrite Hty. exact Hk.
Qed.

Lemma reset_keeps_ok m w :
  valid_world w -> machine_ok m ->
  valid_world (snd (MachineSimulator.reset_tool_wear m w)) /\
  machine_ok (fst (MachineSimulator.reset_tool_wear m w)) /\
  MachineSimulator.tool_wear (fst (MachineSimulator.reset_tool_wear m w)) < 20.
Proof.
  intros Hw [Hr Hk].
  destruct (returns_reset_rated m Hr w Hw) as [[Hr' _] Hw'].
  destruct (returns_reset m w Hw) as [[_ Hlt] _].
  split; [exact Hw'|]. split; [|exact Hlt]. split; [exact Hr'|exact Hk].
Qed.

Lemma ids_after_insert ms k m m' :
  ms !! k = Some m ->
  MachineSimulator.machine_id m' = MachineSimulator.machine_id m ->
  map MachineSimulator.machine_id (<[k := m']> ms)
  = map MachineSimulator.machine_id ms.
Proof.
  intros Hk Hid.
  change (MachineSimulator.machine_id <$> <[k := m']> ms
          = MachineSimulator.machine_id <$> ms).
  rewrite list_fmap_insert, Hid. apply list_insert_id.
  rewrite list_lookup_fmap, Hk. reflexivity.
Qed.

Lemma ticked_ids ms rs ms' :
  Forall3 ticked ms rs ms' ->
  map MachineSimulator.machine_id ms' = map MachineSimulator.machine_id ms.
Proof.
  induction 1 as [|m r m' ms rs ms' Ht _ IH]; [reflexivity|].
  simpl. rewrite IH. destruct Ht as (Hid & _). cbn [before after] in Hid.
  rewrite Hid. reflexivity.
Qed.

(** What [generate_data] keeps true of a fleet. *)
Lemma generate_data_ok self id w :
  valid_world w -> Forall machine_ok (DataSimulator.machines self) ->
  valid_world (snd (DataSimulator.generate_data self id w)) /\
  Forall machine_ok
    (DataSimulator.machines (snd (fst (DataSimulator.generate_data self id w)))) /\
  (forall o, fst (fst (DataSimulator.generate_data self id w)) = inr o ->
             Forall (fun r => reading_in_range r = true) (items o)) /\
  map MachineSimulator.machine_id
      (DataSimulator.machines (snd (fst (DataSimulator.generate_data self id w))))
  = map MachineSimulator.machine_id (DataSimulator.machines self).
Proof.
  intros Hw Hok. unfold DataSimulator.generate_data.
  destruct (truthy_id id).
  - destruct (DataSimulator.find_machine _ _ 0) as [[i m]|] eqn:Ef.
    + apply find_machine_spec in Ef as (k & -> & Hk & Hid & _).
      unfold mbind, sim_bind.
      assert (Hm : machine_ok m).
      { rewrite Forall_forall in Hok. apply Hok.
        apply list_elem_of_lookup. eauto. }
      destruct (generate_keeps_ok m w Hw Hm) as (Hw1 & Hm' & Hin & Hf).
      destruct (MachineSimulator.generate_sensor_data m w) as [[r m'] w1].
      cbn [fst snd mret sim_ret DataSimulator.machines] in *.
      split; [exact Hw1|]. split; [apply Forall_insert; assumption|].
      split.
      * intros o [= <-]. constructor; [exact Hin|constructor].
      * apply (ids_after_insert _ _ m); [exact Hk|].
        destruct Hf as (Hid' & _). exact Hid'.
    + cbn [fst snd mret sim_ret]. split; [exact Hw|]. split; [exact Hok|].
      split; [intros o [=]|reflexivity].
  - unfold mbind, sim_bind.
    destruct (generate_all_with valid_world machine_ok
                (fun m r m' => reading_in_range r = true /\ ticked m r m')
                generate_keeps_ok (DataSimulator.machines self) w Hw Hok)
      as (Hw1 & Hok1 & HP).
    destruct (DataSimulator.generate_all _ w) as [[rs ms'] w1].
    cbn [fst snd mret sim_ret DataSimulator.machines] in *.
    split; [exact Hw1|]. split; [exact Hok1|]. split.
    + intros o [= <-]. cbn [items].
      clear - HP. induction HP as [|m r m' ms rs ms' [Hr _] _ IH];
        constructor; assumption.
    + apply (ticked_ids _ rs). eapply Forall3_impl; [exact HP|].
      intros m r m' [_ Ht]. exact Ht.
Qed.

(** What [perform_maintenance] keeps true of a fleet. *)
Lemma perform_maintenance_ok self id w :
  valid_world w -> Forall machine_ok (DataSimulator.machines self) ->
  valid_world (snd (DataSimulator.perform_maintenance self id w)) /\
  Forall machine_ok
    (DataSimulator.machines
       (snd (fst (DataSimulator.perform_maintenance self id w)))) /\
  map MachineSimulator.machine_id
      (DataSimulator.machines
         (snd (fst (DataSimulator.perform_maintenance self id w))))
  = map MachineSimulator.machine_id (DataSimulator.machines self).
Proof.
  intros Hw Hok. unfold DataSimulator.perform_maintenance.
  destruct (DataSimulator.find_machine _ _ 0) as [[i m]|] eqn:Ef.
  - apply find_machine_spec in Ef as (k & -> & Hk & Hid & _).
    unfold mbind, sim_bind.
    assert (Hm : machine_ok m).
    { rewrite Forall_forall in Hok. apply Hok.
      apply list_elem_of_lookup. eauto. }
    destruct (reset_keeps_ok m w Hw Hm) as (Hw1 & Hm' & _).
    pose proof (reset_frame m w) as (Hid' & _). cbn [before after] in Hid'.
    destruct (MachineSimulator.reset_tool_wear m w) as [m' w1].
    cbn [fst snd mret sim_ret DataSimulator.machines] in *.
    split; [exact Hw1|]. split; [apply Forall_insert; assumption|].
    apply (ids_after_insert _ _ m); assumption.
  - cbn [fst snd mret sim_ret]. split; [exact Hw|]. split; [exact Hok|reflexivity].
Qed.

Lemma run_fleet_ok ops : forall self w,
  valid_world w -> Forall machine_ok (DataSimulator.machines self) ->
  valid_world (snd (run_fleet ops self w)) /\
  Forall machine_ok (DataSimulator.machines (snd (fst (run_fleet ops self w)))) /\
  Forall (fun r => reading_in_range r = true) (fst (fst (run_fleet ops self w))) /\
  map MachineSimulator.machine_id
      (DataSimulator.machines (snd (fst (run_fleet ops self w))))
  = map MachineSimulator.machine_id (DataSimulator.machines self).
Proof.
  induction ops as [|o ops IH]; intros self w Hw Hok.
  - simpl. split; [exact Hw|]. split; [exact Hok|]. split; [constructor|reflexivity].
  - destruct o as [id|id]; cbn [run_fleet]; unfold mbind, sim_bind.
    + destruct (generate_data_ok self id w Hw Hok) as (Hw1 & Hok1 & Hr1 & Hids1).
      destruct (DataSimulator.generate_data self id w) as [[out self'] w1].
      cbn [fst snd] in *.
      destruct (IH self' w1 Hw1 Hok1) as (Hw2 & Hok2 & Hr2 & Hids2).
      destruct (run_fleet ops self' w1) as [[rs final] w2].
      cbn [fst snd mret sim_ret] in *.
      split; [exact Hw2|]. split; [exact Hok2|]. split; [|congruence].
      destruct out as [e|o]; [exact Hr2|].
      apply Forall_app. split; [apply Hr1; reflexivity|exact Hr2].
    + destruct (perform_maintenance_ok self id w Hw Hok) as (Hw1 & Hok1 & Hids1).
      destruct (DataSimulator.perform_maintenance self id w) as [[b self'] w1].
      cbn [fst snd] in *.
      destruct (IH self' w1 Hw1 Hok1) as (Hw2 & Hok2 & Hr2 & Hids2).
      split; [exact Hw2|]. split; [exact Hok2|]. split; [exact Hr2|congruence].
Qed.

(** X7. Construct a fleet of any size, then make any sequence of
    [generate_data] calls (with or without an id, known or not) and
    [perform_maintenance] calls. Every reading returned along the way has
    its five sensor values within [config.SENSOR_RANGES]; every machine
    of the fleet ends with a wear in [[0, 250]], a degradation rate in
    [[0.15, 0.5]] and a known type; and the fleet has the same
    ids in the same order as when it was constructed. *)
Theorem fleet_stays_in_range (num_machines : option Z) (ops : list fleet_op)
    (w : World) :
  valid_world w ->
  let session := fleet_session num_machines ops w in
  let fleet0 := fst (DataSimulator.__init__ num_machines w) in
  Forall (fun r => reading_in_range r = true) (fst (fst session)) /\
  Forall machine_ok (DataSimulator.machines (snd (fst session))) /\
  map MachineSimulator.machine_id (DataSimulator.machines (snd (fst session)))
  = map MachineSimulator.machine_id (DataSimulator.machines fleet0).
Proof.
  intros Hw session fleet0. subst session fleet0.
  unfold fleet_session, mbind, sim_bind.
  destruct (constructed_fleet_ok num_machines w Hw) as [Hok Hw1].
  destruct (DataSimulator.__init__ num_machines w) as [self w1].
  cbn [fst snd] in *.
  destruct (run_fleet_ok ops self w1 Hw1 Hok) as (_ & Hok2 & Hr & Hids).
  split; [exact Hr|]. split; [exact Hok2|exact Hids].
Qed.

Lemma fleet_stays_in_range_witness :
  valid_world (steady_world 0.5 2) /\
  let session :=
    fleet_session (Some 2%Z)
      [FleetGenerate None; FleetMaintain "M002"; FleetGenerate (Some "M002"%string);
       FleetGenerate (Some "M009"%string)]
      (steady_world 0.5 2) in
  length (fst (fst session)) = 3%nat /\
  Forall (fun r => reading_in_range r = true) (fst (fst session)) /\
  Forall machine_ok (DataSimulator.machines (snd (fst session))) /\
  map MachineSimulator.machine_id (DataSimulator.machines (snd (fst session)))
  = ["M001"; "M002"]%string.
Proof.
  assert (Hw : valid_world (steady_world 0.5 2)).
  { intros n. simpl. split; lra. }
  split; [exact Hw|].
  pose proof (fleet_stays_in_range (Some 2%Z)
      [FleetGenerate None; FleetMaintain "M002"; FleetGenerate (Some "M002"%string);
       FleetGenerate (Some "M009"%string)]
      (steady_world 0.5 2) Hw) as H.
  cbv zeta in H |- *. destruct H as (Hr & Hok & Hids).
  split; [vm_compute; reflexivity|].
  split; [exact Hr|]. split; [exact Hok|].
  rewrite Hids. vm_compute. reflexivity.
Defined.

Lemma find_machine_of_present ms id :
  absent id ms = false ->
  exists k m, DataSimulator.find_machine ms id 0 = Some (k, m) /\
              ms !! k = Some m /\ MachineSimulator.machine_id m = id /\
              absent id (take k ms) = true.
Proof.
  intros Hp. destruct (find_machine_present ms id Hp 0%nat) as (j & m & Hf).
  destruct (find_machine_spec ms id 0 j m Hf) as (k & -> & Hk & Hid & Habs).
  exists k, m. auto.
Qed.

(** X8. [generate_data(machine_id)] with a non-empty id present in the fleet
    returns one dictionary, not a list: the reading of the first machine
    carrying that id, whose ['machine_id'] is the id asked for. That
    machine alone is replaced by its successor; all others and the
    fleet size are untouched, and only the random draws of that one
    reading are consumed. *)
Theorem generate_data_advances_one (self : DataSimulator.t)
    (machine_id : string) (w : World) :
  machine_id <> ""%string ->
  absent machine_id (DataSimulator.machines self) = false ->
  exists k m,
    DataSimulator.machines self !! k = Some m /\
    MachineSimulator.machine_id m = machine_id /\
    absent machine_id (take k (DataSimulator.machines self)) = true /\
    let step := MachineSimulator.generate_sensor_data m w in
    DataSimulator.generate_data self (Some machine_id) w
    = (inr (One (fst (fst step))),
       {| DataSimulator.num_machines := DataSimulator.num_machines self;
          DataSimulator.machines :=
            <[k := snd (fst step)]> (DataSimulator.machines self) |},
       snd step) /\
    fst (fst step) !! "machine_id" = Some (PStr machine_id).
Proof.
  intros Hne Hp.
  destruct (find_machine_of_present _ _ Hp) as (k & m & Hf & Hk & Hid & Habs).
  exists k, m. split; [exact Hk|]. split; [exact Hid|]. split; [exact Habs|].
  intros step. subst step. unfold DataSimulator.generate_data.
  rewrite (truthy_id_nonempty _ Hne).
  change (default ""%string (Some machine_id)) with machine_id. cbv zeta.
  rewrite Hf.
  unfold mbind, sim_bind.
  pose proof (generate_frame m w) as (_ & _ & _ & _ & _ & _ & r & Hr & Hrid & _).
  cbn [step_op before after returned] in *. injection Hr as <-.
  destruct (MachineSimulator.generate_sensor_data m w) as [[r m'] w1].
  cbn [fst snd] in *. split; [reflexivity|]. rewrite <- Hid. exact Hrid.
Qed.

Lemma generate_data_advances_one_witness :
  exists k m,
    DataSimulator.machines single_fleet !! k = Some m /\
    MachineSimulator.machine_id m = "M001"%string /\
    absent "M001" (take k (DataSimulator.machines single_fleet)) = true /\
    DataSimulator.generate_data single_fleet (Some "M001"%string) demo_world
    = (inr (One (fst (fst (MachineSimulator.generate_sensor_data m demo_world)))),
       {| DataSimulator.num_machines := DataSimulator.num_machines single_fleet;
          DataSimulator.machines :=
            <[k := snd (fst (MachineSimulator.generate_sensor_data m demo_world))]>
              (DataSimulator.machines single_fleet) |},
       snd (MachineSimulator.generate_sensor_data m demo_world)) /\
    fst (fst (MachineSimulator.generate_sensor_data m demo_world)) !! "machine_id"
    = Some (PStr "M001").
Proof.
  apply (generate_data_advances_one single_fleet "M001" demo_world).
  - discriminate.
  - vm_compute. reflexivity.
Defined.

(** X9. [perform_maintenance(machine_id)] with an id present in the fleet
    returns [True] and resets the first machine carrying that id, and
    only it: its wear is drawn in [[0, 20)] and its degradation rate in
    [[0.2, 0.5]], while its id, type, mode, cycle counter and baselines
    stay as they were. *)
Theorem maintenance_resets_one (self : DataSimulator.t) (machine_id : string)
    (w : World) :
  valid_world w ->
  absent machine_id (DataSimulator.machines self) = false ->
  exists k m m',
    DataSimulator.machines self !! k = Some m /\
    MachineSimulator.machine_id m = machine_id /\
    absent machine_id (take k (DataSimulator.machines self)) = true /\
    DataSimulator.perform_maintenance self machine_id w
    = (true,
       {| DataSimulator.num_machines := DataSimulator.num_machines self;
          DataSimulator.machines := <[k := m']> (DataSimulator.machines self) |},
       snd (MachineSimulator.reset_tool_wear m w)) /\
    step_frame {| step_op := OpMaintain; before := m; returned := None;
                  after := m' |} /\
    within (MachineSimulator.tool_wear m') 0 20 /\
    MachineSimulator.tool_wear m' < 20 /\
    within (MachineSimulator.degradation_rate m') 0.2 0.5.
Proof.
  intros Hw Hp.
  destruct (find_machine_of_present _ _ Hp) as (k & m & Hf & Hk & Hid & Habs).
  exists k, m, (fst (MachineSimulator.reset_tool_wear m w)).
  split; [exact Hk|]. split; [exact Hid|]. split; [exact Habs|].
  split.
  { unfold DataSimulator.perform_maintenance. rewrite Hf.
    unfold mbind, sim_bind.
    destruct (MachineSimulator.reset_tool_wear m w) as [m' w1]. reflexivity. }
  split; [apply reset_frame|].
  assert (H : returns (MachineSimulator.reset_tool_wear m)
                (fun m' => within (MachineSimulator.tool_wear m') 0 20 /\
                           MachineSimulator.tool_wear m' < 20 /\
                           within (MachineSimulator.degradation_rate m') 0.2 0.5)).
  { unfold MachineSimulator.reset_tool_wear, within.
    draw. intros tw (H0 & H1 & H2). draw. intros dr (H3 & H4 & _).
    apply returns_ret. cbn [MachineSimulator.tool_wear
      MachineSimulator.degradation_rate]. repeat split; lra. }
  destruct (H w Hw) as [Hpost _]. exact Hpost.
Qed.

Lemma maintenance_resets_one_witness :
  valid_world demo_world /\
  exists k m m',
    DataSimulator.machines single_fleet !! k = Some m /\
    MachineSimulator.machine_id m = "M001"%string /\
    absent "M001" (take k (DataSimulator.machines single_fleet)) = true /\
    DataSimulator.perform_maintenance single_fleet "M001" demo_world
    = (true,
       {| DataSimulator.num_machines := DataSimulator.num_machines single_fleet;
          DataSimulator.machines :=
            <[k := m']> (DataSimulator.machines single_fleet) |},
       snd (MachineSimulator.reset_tool_wear m demo_world)) /\
    step_frame {| step_op := OpMaintain; before := m; returned := None;
                  after := m' |} /\
    within (MachineSimulator.tool_wear m') 0 20 /\
    MachineSimulator.tool_wear m' < 20 /\
    within (MachineSimulator.degradation_rate m') 0.2 0.5.
Proof.
  assert (Hw : valid_world demo_world).
  { intros n. simpl. split; lra. }
  split; [exact Hw|].
  apply (maintenance_resets_one single_fleet "M001" demo_world Hw).
  vm_compute. reflexivity.
Defined.

Lemma generate_all_ticks ms w :
  Forall3 ticked ms (fst (fst (DataSimulator.generate_all ms w)))
                    (snd (fst (DataSimulator.generate_all ms w))).
Proof.
  apply (generate_all_with (fun _ => True) (fun _ => True) ticked).
  - intros m w' _ _. split; [exact I|]. split; [exact I|]. apply generate_frame.
  - exact I.
  - clear. induction ms; constructor; auto.
Qed.

Lemma fleet_tick_lemma (self : DataSimulator.t) (w : World) :
  exists readings machines',
    DataSimulator.generate_data self None w
    = (inr (Many readings),
       {| DataSimulator.num_machines := DataSimulator.num_machines self;
          DataSimulator.machines := machines' |},
       snd (DataSimulator.generate_all (DataSimulator.machines self) w)) /\
    Forall3 ticked (DataSimulator.machines self) readings machines'.
Proof.
  pose proof (generate_all_ticks (DataSimulator.machines self) w) as Ht.
  unfold DataSimulator.generate_data. cbn [truthy_id]. unfold mbind, sim_bind.
  destruct (DataSimulator.generate_all _ w) as [[rs ms'] w1].
  cbn [fst snd] in *. exists rs, ms'. split; [reflexivity|exact Ht].
Qed.

(** X10. [generate_data()] with no id returns a list with one reading per
    machine, in fleet order, and advances every machine by exactly one
    cycle: each reading echoes the id, type, mode, cycle counter and
    integer wear of its machine after the call. *)
Theorem fleet_tick (self : DataSimulator.t) (w : World) :
  exists readings machines',
    DataSimulator.generate_data self None w
    = (inr (Many readings),
       {| DataSimulator.num_machines := DataSimulator.num_machines self;
          DataSimulator.machines := machines' |},
       snd (DataSimulator.generate_all (DataSimulator.machines self) w)) /\
    Forall3 ticked (DataSimulator.machines self) readings machines'.
Proof. apply fleet_tick_lemma. Qed.

Lemma machine_info_matches m r m' :
  ticked m r m' -> info_matches (FleetStatus.machine_info m') r.
Proof.
  intros (Hid & Hty & Hmode & _ & Hc & _ & r' & [= <-] & H1 & H2 & H3 & H4 & H5).
  cbn [before after] in *. unfold info_matches.
  rewrite H1, H2, H3, H4, H5, <- Hid, <- Hty, <- Hmode.
  repeat split; reflexivity.
Qed.

(** X11. Right after a fleet-wide [generate_data()], the status report
    [get_machines_info()] has one entry per machine and agrees, entry by
    entry, with the readings just returned on machine id, type, integer
    tool wear, cycle counter and operating mode. *)
Theorem status_matches_last_readings (self : DataSimulator.t) (w : World) :
  let out := DataSimulator.generate_data self None w in
  exists readings,
    fst (fst out) = inr (Many readings) /\
    Forall2 info_matches (FleetStatus.get_machines_info (snd (fst out))) readings.
Proof.
  intros out. subst out.
  destruct (fleet_tick_lemma self w) as (rs & ms' & E & Ht).
  rewrite E. cbn [fst snd]. exists rs. split; [reflexivity|].
  unfold FleetStatus.get_machines_info. cbn [DataSimulator.machines].
  clear E. induction Ht as [|m r m' ms rs ms' Hm _ IH]; [constructor|].
  simpl. constructor; [|exact IH]. apply (machine_info_matches m). exact Hm.
Qed.

(** ** Preprocessing readings that are within range *)

Lemma field_in_range_num r k lo hi :
  field_in_range r k (lo, hi) = true ->
  exists v, r !! k = Some v /\ num_within v lo hi.
Proof.
  unfold field_in_range. destruct (r !! k) as [v|]; [|discriminate].
  intros H. exists v. split; [reflexivity|].
  destruct v as [|z|q|s]; simpl in H; try discriminate;
    apply andb_prop in H as [H1 H2]; apply leb_le in H1, H2;
    eexists; (split; [reflexivity|split; assumption]).
Qed.

Lemma num_truthy v lo hi : num_within v lo hi -> 0 < lo -> Py.truthy v = true.
Proof.
  intros (q & Hq & Hlo & Hhi) Hpos.
  destruct v as [|z|x|s]; simpl in Hq; try discriminate; injection Hq as <-.
  - simpl. apply negb_true_iff, Z.eqb_neq. intros ->.
    change (inject_Z 0) with 0 in Hlo. lra.
  - simpl. apply negb_true_iff. destruct (Qeq_bool x 0) eqn:E; [|reflexivity].
    apply Qeq_bool_iff in E. lra.
Qed.

Lemma or_get_present d k1 k2 v lo hi :
  d !! k1 = Some v -> num_within v lo hi -> 0 < lo ->
  Py.or (Py.get d k1) (Py.get d k2) = v.
Proof.
  intros Hk Hv Hpos. unfold Py.get. rewrite Hk. cbn [default].
  apply or_truthy_l. eapply num_truthy; eassumption.
Qed.

Lemma sub_numbers a b x y :
  num_of a = Some x -> num_of b = Some y ->
  exists v q, Py.sub a b = inr v /\ num_of v = Some q /\ q == x - y.
Proof.
  destruct a as [|za|qa|sa], b as [|zb|qb|sb]; simpl; try discriminate;
    intros [= <-] [= <-]; eexists _, _;
    (split; [reflexivity|split; [reflexivity|]]);
    first [reflexivity
          | unfold Z.sub; rewrite inject_Z_plus, inject_Z_opp; reflexivity].
Qed.

Lemma mul_numbers a b x y :
  num_of a = Some x -> num_of b = Some y ->
  exists v q, Py.mul a b = inr v /\ num_of v = Some q /\ q == x * y.
Proof.
  destruct a as [|za|qa|sa], b as [|zb|qb|sb]; simpl; try discriminate;
    intros [= <-] [= <-]; eexists _, _;
    (split; [reflexivity|split; [reflexivity|]]);
    first [reflexivity | apply inject_Z_mult].
Qed.

Lemma div1000_number a x :
  num_of a = Some x ->
  exists q, Py.div1000 a = inr (PFloat q) /\ q == x / 1000.
Proof.
  destruct a as [|za|qa|sa]; simpl; try discriminate;
    intros [= <-]; eexists; split; reflexivity.
Qed.

Lemma features_have_columns a b c d e f g h column :
  In column demo_columns ->
  is_Some (ModelInference.features_dict a b c d e f g h !! column).
Proof.
  simpl. intros [<-|[<-|[<-|[<-|[<-|[<-|[<-|[<-|[]]]]]]]]]; eexists; reflexivity.
Qed.

Lemma except_map_total {A B} (f : A -> except B) l :
  Forall (fun x => exists y, f x = inr y) l ->
  exists ys, except_map f l = inr ys.
Proof.
  induction 1 as [|x l [y Hy] _ [ys IH]]; [eexists; reflexivity|].
  exists (y :: ys). simpl. unfold mbind, except_bind. rewrite Hy, IH. reflexivity.
Qed.

Lemma select_known_columns features cols :
  Forall (fun c => is_Some (features !! c)) cols ->
  exists row,
    ModelInference.select_columns features (Some cols) = inr [row] /\
    Forall2 (fun c v => features !! c = Some v) cols row.
Proof.
  intros H.
  destruct (except_map_total (Py.getitem features) cols) as [row Hrow].
  { eapply Forall_impl; [exact H|]. intros c [v Hv]. exists v.
    unfold Py.getitem. rewrite Hv. reflexivity. }
  exists row. unfold ModelInference.select_columns, mbind, except_bind.
  rewrite Hrow. split; [reflexivity|].
  apply except_map_Forall2 in Hrow. eapply Forall2_impl; [exact Hrow|].
  intros c v. apply getitem_lookup.
Qed.

(** What preprocessing does with a reading whose sensors are in range. *)
Lemma preprocess_in_range self encoder cols reading type_ code :
  ModelInference.label_encoder self = Some encoder ->
  ModelInference.feature_columns self = Some cols ->
  Forall (fun c => In c demo_columns) cols ->
  reading !! "Type" = Some type_ ->
  LabelEncoder.transform encoder type_ = inr code ->
  reading_in_range reading = true ->
  exists row temp_diff power,
    ModelInference.preprocess_input self reading = inr [row] /\
    Forall2 (fun column value =>
               features_of code temp_diff power reading !! column = Some value)
            cols row /\
    num_within temp_diff 1 18 /\ num_within power 18 175.
Proof.
  intros Henc Hcols Hknown Hty Hcode Hin.
  unfold reading_in_range in Hin.
  repeat (apply andb_prop in Hin as [Hin ?]).
  destruct (field_in_range_num _ _ _ _ Hin) as (air & Hair & Hairn).
  destruct (field_in_range_num _ _ _ _ H2) as (proc & Hproc & Hprocn).
  destruct (field_in_range_num _ _ _ _ H1) as (speed & Hspeed & Hspeedn).
  destruct (field_in_range_num _ _ _ _ H0) as (torque & Htorque & Htorquen).
  unfold ModelInference.preprocess_input, features_of.
  rewrite Henc, Hcols. cbn [ModelInference.attribute].
  unfold mbind, except_bind, Py.getitem. rewrite Hty, Hcode.
  unfold ModelInference.air_temp_of, ModelInference.process_temp_of,
    ModelInference.speed_of, ModelInference.torque_of.
  rewrite (or_get_present _ _ _ _ _ _ Hair Hairn) by lra.
  rewrite (or_get_present _ _ _ _ _ _ Hproc Hprocn) by lra.
  rewrite (or_get_present _ _ _ _ _ _ Hspeed Hspeedn) by lra.
  rewrite (or_get_present _ _ _ _ _ _ Htorque Htorquen) by lra.
  destruct Hairn as (qa & Hqa & Ha1 & Ha2), Hprocn as (qp & Hqp & Hp1 & Hp2),
    Hspeedn as (qs & Hqs & Hs1 & Hs2), Htorquen as (qt & Hqt & Ht1 & Ht2).
  destruct (sub_numbers proc air qp qa Hqp Hqa) as (td & qtd & -> & Htd & Etd).
  destruct (mul_numbers torque speed qt qs Hqt Hqs) as (prod & qprod & -> & Hprod & Eprod).
  destruct (div1000_number prod qprod Hprod) as (qpw & -> & Epw).
  destruct (select_known_columns
              (ModelInference.features_dict air proc speed torque
                 (ModelInference.tool_wear_of reading) code td (PFloat qpw)) cols)
    as (row & -> & Hrow).
  { eapply Forall_impl; [exact Hknown|]. intros c Hc.
    apply features_have_columns. exact Hc. }
  exists row, td, (PFloat qpw). split; [reflexivity|]. split; [exact Hrow|].
  cbn [fst snd] in *. split.
  - exists qtd. split; [exact Htd|]. unfold within. rewrite Etd. lra.
  - exists qpw. split; [reflexivity|]. unfold within. rewrite Epw, Eprod.
    split.
    + apply Qle_shift_div_l; [lra|]. nra.
    + apply Qle_shift_div_r; [lra|]. nra.
Qed.

(** X12. A reading whose five sensor values lie within
    [config.SENSOR_RANGES], and whose type the encoder knows, is always
    preprocessed without error when the model's feature columns are among
    the eight engineered names, whatever the tool wear, zero included:
    the result is one row holding the requested features in the
    requested order, with [Temp_diff] in [[1, 18]] and [Power] in
    [[18, 175]]. *)
Theorem in_range_readings_preprocess (self : ModelInference.t)
    (encoder : LabelEncoder.t) (cols : list string)
    (reading : gmap string pyval) (type_ code : pyval) :
  ModelInference.label_encoder self = Some encoder ->
  ModelInference.feature_columns self = Some cols ->
  Forall (fun c => In c demo_columns) cols ->
  reading !! "Type" = Some type_ ->
  LabelEncoder.transform encoder type_ = inr code ->
  reading_in_range reading = true ->
  exists row temp_diff power,
    ModelInference.preprocess_input self reading = inr [row] /\
    Forall2 (fun column value =>
               features_of code temp_diff power reading !! column = Some value)
            cols row /\
    num_within temp_diff 1 18 /\ num_within power 18 175.
Proof. apply preprocess_in_range. Qed.

Lemma in_range_readings_preprocess_witness :
  exists row temp_diff power,
    ModelInference.preprocess_input demo_inference test_data = inr [row] /\
    Forall2 (fun column value =>
               features_of (PInt 2) temp_diff power test_data !! column
               = Some value)
            demo_columns row /\
    num_within temp_diff 1 18 /\ num_within power 18 175.
Proof.
  apply (in_range_readings_preprocess demo_inference demo_encoder demo_columns
           test_data (PStr "M") (PInt 2)); try reflexivity.
  apply Forall_forall. intros c Hc. apply list_elem_of_In. exact Hc.
Defined.

Lemma predict_one_total self encoder cols clf reading ty :
  ModelInference.model self = Some clf ->
  ModelInference.label_encoder self = Some encoder ->
  ModelInference.feature_columns self = Some cols ->
  Forall (fun c => In c demo_columns) cols ->
  knows_types encoder -> answers clf ->
  reading !! "Type" = Some (PStr ty) -> In ty config.SENSOR_RANGES.Type_ ->
  reading_in_range reading = true ->
  exists r, ModelInference.predict_one self reading = inr r /\
            ModelInference.sensor_data r = reading.
Proof.
  intros Hm He Hc Hcols Hk Ha Hty Hin Hr.
  destruct (Hk ty Hin) as [code Hcode].
  destruct (preprocess_in_range self encoder cols reading (PStr ty) code
              He Hc Hcols Hty Hcode Hr) as (row & td & pw & Hpre & _).
  destruct (Ha [row]) as (label & p & Hl & Hp).
  unfold ModelInference.predict_one, mbind, except_bind.
  rewrite Hpre, Hm. cbn [ModelInference.attribute]. rewrite Hl, Hp.
  eexists. split; reflexivity.
Qed.

(** X13. With a loaded model that answers on every feature matrix, an
    encoder that knows the three machine types and feature columns among
    the eight engineered names, [get_real_time_predictions] on a
    non-empty fleet whose machines have a wear in [[0, 250]], a rate in
    [[0.15, 0.5]] and a known type never raises: it yields one
    result per machine, each carrying a sensor snapshot within
    [config.SENSOR_RANGES]. *)
Theorem fleet_predictions_succeed (svc : MonitoringService.t)
    (encoder : LabelEncoder.t) (cols : list string) (clf : Model.t) (w : World) :
  let inference := MonitoringService.model_inference svc in
  let fleet := DataSimulator.machines (MonitoringService.simulator svc) in
  valid_world w -> Forall machine_ok fleet -> fleet <> [] ->
  ModelInference.model_loaded inference = true ->
  ModelInference.model inference = Some clf ->
  ModelInference.label_encoder inference = Some encoder ->
  ModelInference.feature_columns inference = Some cols ->
  Forall (fun c => In c demo_columns) cols ->
  knows_types encoder -> answers clf ->
  exists out,
    fst (fst (MonitoringService.get_real_time_predictions svc w)) = inr out /\
    length (items out) = length fleet /\
    Forall (fun r => reading_in_range (ModelInference.sensor_data r) = true)
           (items out).
Proof.
  intros inference fleet Hw Hok Hne Hl Hm He Hc Hcols Hk Ha.
  subst inference fleet.
  unfold MonitoringService.get_real_time_predictions,
    MonitoringService.predict_generated, DataSimulator.generate_data.
  cbn [truthy_id]. unfold mbind, sim_bind.
  destruct (generate_all_with valid_world machine_ok
              (fun m r m' => reading_in_range r = true /\ ticked m r m')
              generate_keeps_ok _ w Hw Hok) as (_ & _ & HP).
  destruct (DataSimulator.generate_all _ w) as [[rs ms'] w1].
  cbn [fst snd mret sim_ret] in *.
  set (mi := MonitoringService.model_inference svc) in *.
  assert (Hall : Forall2 (fun d r => ModelInference.predict_one mi d = inr r /\
                                     ModelInference.sensor_data r = d /\
                                     reading_in_range d = true) rs
                   (map (fun d => match ModelInference.predict_one mi d with
                                  | inr r => r
                                  | inl _ =>
                                      {| ModelInference.machine_id := PNone;
                                         ModelInference.prediction := 0;
                                         ModelInference.failure_probability := 0;
                                         ModelInference.normal_probability := 0;
                                         ModelInference.health_status := "";
                                         ModelInference.sensor_data := d;
                                         ModelInference.alert := false |}
                                  end) rs)).
  { assert (Hok' := Hok).
    clear Hne. induction HP as [|m r m' ms rs ms' [Hr Ht] _ IH]; [constructor|].
    apply Forall_cons in Hok as [[_ Hkt] Hok].
    simpl. constructor; [|apply IH; assumption].
    destruct Ht as (_ & _ & _ & _ & _ & _ & r' & [= <-] & _ & Hty & _).
    cbn [before] in Hty.
    destruct (predict_one_total mi encoder cols clf r _ Hm He Hc Hcols Hk Ha
                Hty Hkt Hr) as (res & -> & Hs).
    auto. }
  set (results := map _ rs) in Hall.
  assert (Hmap : except_map (ModelInference.predict_one mi) rs = inr results).
  { clear - Hall. induction Hall as [|d r ds rs' (Hr & _) _ IH]; [reflexivity|].
    simpl. unfold mbind, except_bind. rewrite Hr, IH. reflexivity. }
  assert (Hlen : length rs = length (DataSimulator.machines
                                       (MonitoringService.simulator svc))).
  { symmetry. eapply Forall3_length_lm. exact HP. }
  assert (Hsens : Forall (fun r => reading_in_range (ModelInference.sensor_data r)
                                   = true) results).
  { clear - Hall. induction Hall as [|d r ds rs' (_ & Hs & Hr) _ IH];
      constructor; [rewrite Hs; exact Hr|exact IH]. }
  assert (Hrl : length results = length rs) by (subst results; apply length_map).
  unfold ModelInference.predict. rewrite Hl. cbn [negb].
  unfold mbind, except_bind. rewrite Hmap.
  destruct (1 <? length results)%nat eqn:E.
  - exists (Many results). cbn [items]. split; [reflexivity|].
    split; [congruence|exact Hsens].
  - destruct results as [|r [|r2 rest]] eqn:Eres.
    + exfalso. apply Hne. simpl in Hrl.
      destruct (DataSimulator.machines _); [reflexivity|].
      rewrite <- Hrl in Hlen. discriminate.
    + exists (One r). cbn [items]. split; [reflexivity|].
      split; [congruence|exact Hsens].
    + simpl in E. discriminate.
Qed.

Lemma demo_answers a b : answers (model_answering a b).
Proof. intros f. eexists _, _. split; reflexivity. Qed.

Lemma demo_knows_types : knows_types demo_encoder.
Proof.
  intros ty Hin. simpl in Hin.
  destruct Hin as [<-|[<-|[<-|[]]]]; eexists; reflexivity.
Qed.

Lemma fleet_predictions_succeed_witness :
  valid_world demo_world /\
  exists out,
    fst (fst (MonitoringService.get_real_time_predictions single_service
                demo_world)) = inr out /\
    length (items out)
    = length (DataSimulator.machines (MonitoringService.simulator single_service)) /\
    Forall (fun r => reading_in_range (ModelInference.sensor_data r) = true)
           (items out).
Proof.
  assert (Hw : valid_world demo_world).
  { intros n. simpl. split; lra. }
  split; [exact Hw|].
  apply (fleet_predictions_succeed single_service demo_encoder demo_columns
           demo_model demo_world Hw).
  - apply (constructed_fleet_ok (Some 1%Z) demo_world Hw).
  - vm_compute. discriminate.
  - reflexivity.
  - reflexivity.
  - reflexivity.
  - reflexivity.
  - apply Forall_forall. intros c Hc. apply list_elem_of_In. exact Hc.
  - apply demo_knows_types.
  - apply demo_answers.
Defined.

(** ** Edge behaviour of [predict] *)

Lemma except_map_first_error {A B} (f : A -> except B) good x rest e :
  Forall (fun a => exists b, f a = inr b) good ->
  f x = inl e ->
  except_map f (good ++ x :: rest) = inl e.
Proof.
  intros Hgood Hx. induction Hgood as [|a good [b Hb] _ IH]; simpl.
  - unfold mbind, except_bind. rewrite Hx. reflexivity.
  - unfold mbind, except_bind. rewrite Hb.
    unfold mbind, except_bind in IH. rewrite IH. reflexivity.
Qed.

(** X14. [predict] fails in three ways. With no model loaded it raises the
    [RuntimeError] on any input. With a model loaded, an empty list
    raises [IndexError] from [predictions[0]]; and a list fails with the
    error of its first failing element, whatever comes after it. *)
Theorem predict_failures (self : ModelInference.t) :
  (ModelInference.model_loaded self = false ->
   forall input,
     ModelInference.predict self input
     = inl (RuntimeError "Model not loaded. Call load_model() first.")) /\
  (ModelInference.model_loaded self = true ->
   ModelInference.predict self (Many [])
   = inl (IndexError "list index out of range") /\
   forall good reading rest e,
     Forall (fun d => exists r, ModelInference.predict_one self d = inr r) good ->
     ModelInference.predict_one self reading = inl e ->
     ModelInference.predict self (Many (good ++ reading :: rest)) = inl e).
Proof.
  split; intros Hl; unfold ModelInference.predict; rewrite Hl; cbn [negb].
  - intros input. reflexivity.
  - split; [reflexivity|]. intros good reading rest e Hgood He.
    unfold mbind, except_bind.
    rewrite (except_map_first_error _ good reading rest e Hgood He). reflexivity.
Qed.

Lemma predict_failures_witness :
  ModelInference.predict demo_inference (Many [])
  = inl (IndexError "list index out of range") /\
  ModelInference.predict demo_inference
    (Many ([test_data] ++ reading_without_air :: [test_data]))
  = inl (TypeError "unsupported operand type(s) for -: 'float' and 'NoneType'").
Proof.
  destruct (predict_failures demo_inference) as [_ H].
  destruct (H eq_refl) as [Hempty Hfirst]. split; [exact Hempty|].
  apply Hfirst.
  - constructor; [|constructor]. eexists. vm_compute. reflexivity.
  - vm_compute. reflexivity.
Defined.

Lemma status_is_a_label p : In (_get_health_status p) band_labels_list.
Proof.
  unfold _get_health_status, config.HEALTH_STATUS. cbn [health_status_in].
  repeat match goal with |- context [if ?b then _ else _] => destruct b end;
    simpl; auto.
Qed.

Lemma alert_band_cases p :
  (0 <= p ->
   (Num.leb config.FAILURE_THRESHOLD p = true <->
    _get_health_status p = "MAINTENANCE REQUIRED"%string)) /\
  (p < 0 ->
   Num.leb config.FAILURE_THRESHOLD p = false /\
   _get_health_status p = "MAINTENANCE REQUIRED"%string).
Proof.
  destruct (health_status_cases p) as (H1 & H2 & H3 & H4).
  unfold config.FAILURE_THRESHOLD. split.
  - intros H0. rewrite leb_le. split.
    + intros H. apply H3. exact H.
    + intros E. destruct (Qlt_le_dec p 0.6) as [Hlt|Hge]; [|exact Hge].
      exfalso. destruct (Qlt_le_dec p 0.3) as [Hlt3|Hge3].
      * rewrite (H1 H0 Hlt3) in E. discriminate.
      * rewrite (H2 Hge3 Hlt) in E. discriminate.
  - intros Hneg. split; [apply leb_gt; lra|].
    apply H4. unfold matches_no_band, config.HEALTH_STATUS. cbn [forallb].
    assert (E : Num.leb 0 p = false) by (apply leb_gt; exact Hneg).
    assert (E3 : Num.leb 0.3 p = false) by (apply leb_gt; lra).
    assert (E6 : Num.leb 0.6 p = false) by (apply leb_gt; lra).
    rewrite E, E3, E6. reflexivity.
Qed.

(** X15. In every result of [predict], the health status is one of the three
    labels HEALTHY, RISK and MAINTENANCE REQUIRED. When the classifier's
    failure probability is not negative, the alert flag is set exactly
    when the status is MAINTENANCE REQUIRED; a negative probability gets
    that status from the fall-through [return] but no alert. *)
Theorem alert_agrees_with_band (self : ModelInference.t)
    (data : gmap string pyval) (r : ModelInference.result)
    (clf : Model.t) (features : list (list pyval)) (p : Q * Q) :
  ModelInference.predict_one self data = inr r ->
  ModelInference.model self = Some clf ->
  ModelInference.preprocess_input self data = inr features ->
  Model.predict_proba clf features = inr p ->
  In (ModelInference.health_status r) band_labels_list /\
  (0 <= snd p ->
   (ModelInference.alert r = true <->
    ModelInference.health_status r = "MAINTENANCE REQUIRED"%string)) /\
  (snd p < 0 ->
   ModelInference.alert r = false /\
   ModelInference.health_status r = "MAINTENANCE REQUIRED"%string).
Proof.
  intros Hr Hm Hf Hp.
  unfold ModelInference.predict_one, mbind, except_bind in Hr.
  rewrite Hf, Hm in Hr. cbn [ModelInference.attribute] in Hr.
  destruct (Model.predict clf features) as [e|label]; [discriminate|].
  rewrite Hp in Hr. injection Hr as <-.
  cbn [ModelInference.alert ModelInference.health_status].
  split; [apply status_is_a_label|]. apply alert_band_cases.
Qed.

Lemma alert_agrees_with_band_witness :
  exists r,
    ModelInference.predict_one
      (inference_with (model_answering 0 (1.2, -0.2))) test_data = inr r /\
    ModelInference.alert r = false /\
    ModelInference.health_status r = "MAINTENANCE REQUIRED"%string.
Proof.
  eexists. split; [vm_compute; reflexivity|].
  eapply (alert_agrees_with_band
            (inference_with (model_answering 0 (1.2, -0.2))) test_data _
            (model_answering 0 (1.2, -0.2)) _ (1.2, -0.2)).
  - vm_compute. reflexivity.
  - reflexivity.
  - vm_compute. reflexivity.
  - reflexivity.
  - reflexivity.
Defined.

(** ** Model selection *)

Lemma idxmax_from_spec rest : forall best,
  let chosen := Training.idxmax_from best rest in
  In chosen (best :: rest) /\
  Forall (fun entry => snd entry <= snd chosen) (best :: rest) /\
  exists before after,
    best :: rest = before ++ chosen :: after /\
    Forall (fun entry => snd entry < snd chosen) before.
Proof.
  induction rest as [|[name score] rest IH]; intros best chosen; subst chosen.
  - simpl. split; [left; reflexivity|]. split.
    + constructor; [lra|constructor].
    + exists [], []. split; [reflexivity|constructor].
  - cbn [Training.idxmax_from]. destruct (Num.ltb (snd best) score) eqn:E.
    + apply ltb_lt in E.
      destruct (IH (name, score)) as (Hin & Hmax & before & after & Hsplit & Hlt).
      remember (Training.idxmax_from (name, score) rest) as chosen eqn:Ec.
      clear Ec IH.
      split; [right; exact Hin|]. split.
      * constructor; [|exact Hmax].
        apply Forall_cons in Hmax as [Hm _]. cbn [snd] in Hm. lra.
      * exists (best :: before), after. split; [rewrite Hsplit; reflexivity|].
        constructor; [|exact Hlt].
        apply Forall_cons in Hmax as [Hm _]. cbn [snd] in Hm. lra.
    + apply ltb_ge in E.
      destruct (IH best) as (Hin & Hmax & before & after & Hsplit & Hlt).
      remember (Training.idxmax_from best rest) as chosen eqn:Ec.
      clear Ec IH.
      apply Forall_cons in Hmax as [Hb Hmax].
      split; [destruct Hin as [<-|Hin]; [left; reflexivity|right; right; exact Hin]|].
      split.
      * constructor; [exact Hb|]. constructor; [cbn [snd]; lra|exact Hmax].
      * destruct before as [|b0 before].
        -- injection Hsplit as Hb0 Hrest. exists [], ((name, score) :: after).
           split; [rewrite <- Hb0, Hrest; reflexivity|constructor].
        -- injection Hsplit as <- Hrest. apply Forall_cons in Hlt as [Hl0 Hlt].
           exists (best :: (name, score) :: before), after.
           split; [rewrite Hrest; reflexivity|].
           constructor; [exact Hl0|]. constructor; [cbn [snd]; lra|exact Hlt].
Qed.

Lemma select_best_model_cons fl n0 m0 rest :
  Training.select_best_model fl ((n0, m0) :: rest)
  = inr (fst (Training.idxmax_from
                (n0, Training.composite_score fl m0)
                (map (fun e => (fst e, Training.composite_score fl (snd e))) rest)),
         map (fun '(name, m) => (name, m, Training.composite_score fl m))
             ((n0, m0) :: rest)).
Proof.
  unfold Training.select_best_model. cbn [map]. do 3 f_equal.
  rewrite map_map. f_equal. apply map_ext. intros [n m]. reflexivity.
Qed.

Lemma composite_score_monotone fl m1 m2 :
  Training.monotone fl ->
  Training.f1_score m1 <= Training.f1_score m2 ->
  Training.roc_auc m1 <= Training.roc_auc m2 ->
  Training.composite_score fl m1 <= Training.composite_score fl m2.
Proof.
  intros Hfl Hf Hr. unfold Training.composite_score.
  apply Hfl.
  assert (H1 : fl (Training.f1_score m1 * 0.5) <= fl (Training.f1_score m2 * 0.5))
    by (apply Hfl; lra).
  assert (H2 : fl (Training.roc_auc m1 * 0.5) <= fl (Training.roc_auc m2 * 0.5))
    by (apply Hfl; lra).
  lra.
Qed.

Lemma worse_on_one_metric fl m1 m2 :
  Training.monotone fl ->
  Training.composite_score fl m1 < Training.composite_score fl m2 ->
  Training.f1_score m1 < Training.f1_score m2 \/
  Training.roc_auc m1 < Training.roc_auc m2.
Proof.
  intros Hfl Hlt.
  destruct (Qlt_le_dec (Training.f1_score m1) (Training.f1_score m2)) as [H|Hf];
    [left; exact H|].
  destruct (Qlt_le_dec (Training.roc_auc m1) (Training.roc_auc m2)) as [H|Hr];
    [right; exact H|].
  pose proof (composite_score_monotone fl m2 m1 Hfl Hf Hr). lra.
Qed.

Lemma three_decimals_monotone : Training.monotone Training.three_decimals.
Proof.
  intros x y Hxy. unfold Training.three_decimals.
  assert (H : (Qfloor (x * 1000) <= Qfloor (y * 1000))%Z)
    by (apply Qfloor_resp_le; lra).
  rewrite Zle_Qle in H.
  unfold Qdiv. apply Qmult_le_compat_r; [exact H|].
  apply Qlt_le_weak, Qinv_lt_0_compat. reflexivity.
Qed.

(** X16. [select_best_model] on an empty dictionary raises
    [KeyError('f1_score')]. Otherwise it returns the name of an entry
    whose composite score [0.5 * f1_score + 0.5 * roc_auc], as computed
    with rounding, is at least every other entry's and strictly above
    every earlier entry's: among equal rounded scores the first inserted
    wins. Whatever the rounding, as long as it never reverses an order,
    every earlier entry is strictly worse than the chosen one on
    [f1_score] or on [roc_auc]. *)
Theorem best_model_is_first_maximum (fl : Q -> Q)
    (models_metrics : list (string * Training.metrics)) :
  (models_metrics = [] ->
   Training.select_best_model fl models_metrics = inl (KeyError "f1_score")) /\
  (models_metrics <> [] ->
   exists best m before after comparison,
     Training.select_best_model fl models_metrics = inr (best, comparison) /\
     models_metrics = before ++ (best, m) :: after /\
     Forall (fun entry =>
               Training.composite_score fl (snd entry)
               < Training.composite_score fl m)
            before /\
     Forall (fun entry =>
               Training.composite_score fl (snd entry)
               <= Training.composite_score fl m)
            after /\
     (Training.monotone fl ->
      Forall (fun entry =>
                Training.f1_score (snd entry) < Training.f1_score m \/
                Training.roc_auc (snd entry) < Training.roc_auc m)
             before)).
Proof.
  split; [intros ->; reflexivity|]. intros Hne.
  destruct models_metrics as [|[n0 m0] rest]; [contradiction|].
  rewrite select_best_model_cons.
  set (h := fun e : string * Training.metrics =>
              (fst e, Training.composite_score fl (snd e))).
  destruct (idxmax_from_spec (map h rest) (n0, Training.composite_score fl m0))
    as (_ & Hmax & before & after & Hsplit & Hlt).
  remember (Training.idxmax_from (n0, Training.composite_score fl m0) (map h rest))
    as chosen eqn:Ec. clear Ec.
  change ((n0, Training.composite_score fl m0) :: map h rest)
    with (map h ((n0, m0) :: rest)) in Hsplit, Hmax.
  remember ((n0, m0) :: rest) as all eqn:Eall.
  apply map_eq_app in Hsplit as (b' & rest' & Hall & Hb & Hrest).
  destruct rest' as [|[best m] a']; [discriminate|]. cbn [map] in Hrest.
  injection Hrest as Hc Ha. subst chosen before after.
  exists best, m, b', a'. eexists. split; [reflexivity|].
  split; [exact Hall|].
  cbn [h snd fst] in *.
  rewrite Forall_map in Hlt.
  split; [exact Hlt|]. split.
  - rewrite Hall, map_app, Forall_app in Hmax. destruct Hmax as [_ Hmax].
    cbn [map] in Hmax. apply Forall_cons in Hmax as [_ Hmax].
    rewrite Forall_map in Hmax. exact Hmax.
  - intros Hfl. eapply Forall_impl; [exact Hlt|].
    intros entry He. cbn [snd] in He.
    apply (worse_on_one_metric fl _ _ Hfl He).
Qed.

Lemma best_model_is_first_maximum_witness :
  exists best m before after comparison,
    Training.select_best_model Training.three_decimals
      [("Random Forest"%string, Training.rf_example);
       ("XGBoost"%string, Training.xgb_example)]
    = inr (best, comparison) /\
    [("Random Forest"%string, Training.rf_example);
     ("XGBoost"%string, Training.xgb_example)]
    = before ++ (best, m) :: after /\
    Forall (fun entry =>
              Training.composite_score Training.three_decimals (snd entry)
              < Training.composite_score Training.three_decimals m)
           before /\
    Forall (fun entry =>
              Training.composite_score Training.three_decimals (snd entry)
              <= Training.composite_score Training.three_decimals m)
           after /\
    Forall (fun entry =>
              Training.f1_score (snd entry) < Training.f1_score m \/
              Training.roc_auc (snd entry) < Training.roc_auc m)
           before.
Proof.
  destruct (proj2 (best_model_is_first_maximum Training.three_decimals
                     [("Random Forest"%string, Training.rf_example);
                      ("XGBoost"%string, Training.xgb_example)]))
    as (best & m & before & after & comparison & H1 & H2 & H3 & H4 & H5);
    [discriminate|].
  exists best, m, before, after, comparison.
  split; [exact H1|]. split; [exact H2|]. split; [exact H3|].
  split; [exact H4|]. apply H5. exact three_decimals_monotone.
Defined.

(** X17. [run_pipeline] saves the model under [random_forest] when the
    composite score of XGBoost, as computed with rounding, is at most that
    of the random forest, a tie included, and under [xgboost] when it is
    strictly greater. Whatever the rounding, as long as it never reverses
    an order: when XGBoost is no better on [f1_score] and no better on
    [roc_auc] the name is [random_forest], and the name is [xgboost] only
    if XGBoost is strictly better on one of the two. *)
Theorem saved_name_of_pipeline (fl : Q -> Q)
    (rf_metrics xgb_metrics : Training.metrics) :
  (Training.composite_score fl xgb_metrics
   <= Training.composite_score fl rf_metrics ->
   Training.saved_model_name fl rf_metrics xgb_metrics
   = inr "random_forest"%string) /\
  (Training.composite_score fl rf_metrics
   < Training.composite_score fl xgb_metrics ->
   Training.saved_model_name fl rf_metrics xgb_metrics = inr "xgboost"%string) /\
  (Training.monotone fl ->
   (Training.f1_score xgb_metrics <= Training.f1_score rf_metrics ->
    Training.roc_auc xgb_metrics <= Training.roc_auc rf_metrics ->
    Training.saved_model_name fl rf_metrics xgb_metrics
    = inr "random_forest"%string) /\
   (Training.saved_model_name fl rf_metrics xgb_metrics = inr "xgboost"%string ->
    Training.f1_score rf_metrics < Training.f1_score xgb_metrics \/
    Training.roc_auc rf_metrics < Training.roc_auc xgb_metrics)).
Proof.
  assert (Hle : Training.composite_score fl xgb_metrics
                <= Training.composite_score fl rf_metrics ->
                Training.saved_model_name fl rf_metrics xgb_metrics
                = inr "random_forest"%string).
  { unfold Training.saved_model_name, Training.select_best_model.
    cbn [map Training.idxmax_from snd fst].
    intros H. apply ltb_ge in H. rewrite H. reflexivity. }
  split; [exact Hle|]. split.
  - unfold Training.saved_model_name, Training.select_best_model.
    cbn [map Training.idxmax_from snd fst].
    intros H. apply ltb_lt in H. rewrite H. reflexivity.
  - intros Hfl. split.
    + intros Hf Hr. apply Hle. apply composite_score_monotone; assumption.
    + intros Hx.
      destruct (Qlt_le_dec (Training.composite_score fl rf_metrics)
                           (Training.composite_score fl xgb_metrics)) as [H|H].
      * apply (worse_on_one_metric fl _ _ Hfl H).
      * rewrite (Hle H) in Hx. discriminate Hx.
Qed.

Lemma saved_name_of_pipeline_witness :
  Training.f1_score Training.rf_example * 0.5
  + Training.roc_auc Training.rf_example * 0.5
  < Training.f1_score Training.xgb_example * 0.5
    + Training.roc_auc Training.xgb_example * 0.5 /\
  Training.composite_score Training.three_decimals Training.xgb_example
  <= Training.composite_score Training.three_decimals Training.rf_example /\
  Training.saved_model_name Training.three_decimals
    Training.rf_example Training.xgb_example
  = inr "random_forest"%string.
Proof.
  assert (H : Training.composite_score Training.three_decimals Training.xgb_example
              <= Training.composite_score Training.three_decimals
                   Training.rf_example).
  { vm_compute. discriminate. }
  split; [vm_compute; reflexivity|]. split; [exact H|].
  apply (proj1 (saved_name_of_pipeline Training.three_decimals
                  Training.rf_example Training.xgb_example) H).
Defined.

(** ** Saving and loading the model *)

Lemma last_char_app a b :
  b <> ""%string -> Path.last_char (a ++ b) = Path.last_char b.
Proof.
  intros Hb. induction a as [|c a IH]; [reflexivity|].
  change (Path.last_char (String c (a ++ b)) = Path.last_char b).
  assert (Hnz : (a ++ b)%string <> ""%string).
  { destruct a; simpl; [exact Hb|discriminate]. }
  destruct (a ++ b)%string eqn:E; [contradiction|]. exact IH.
Qed.

Lemma last_char_join a b :
  b <> ""%string -> Path.last_char (Path.join a b) = Path.last_char b.
Proof.
  intros Hb. unfold Path.join.
  destruct b as [|c b]; [contradiction|].
  assert (H1 : Path.last_char (a ++ String c b) = Path.last_char (String c b))
    by (apply last_char_app; discriminate).
  assert (H2 : Path.last_char (a ++ "/" ++ String c b)
               = Path.last_char (String c b)).
  { rewrite last_char_app by discriminate.
    apply (last_char_app "/" (String c b)). discriminate. }
  destruct (Ascii.eqb c "/") eqn:Ec.
  - apply Ascii.eqb_eq in Ec. subst c. reflexivity.
  - assert (Hm : match String c b with
                 | String "/" _ => String c b
                 | _ => if (String.eqb a "" || Path.ends_with_slash a)%bool
                        then (a ++ String c b)%string
                        else (a ++ "/" ++ String c b)%string
                 end
                 = if (String.eqb a "" || Path.ends_with_slash a)%bool
                   then (a ++ String c b)%string
                   else (a ++ "/" ++ String c b)%string).
    { destruct c as [[] [] [] [] [] [] [] []]; try reflexivity.
      discriminate Ec. }
    rewrite Hm. destruct (_ || _)%bool; assumption.
Qed.

Lemma pkl_is_not_json dir name :
  Path.join dir (name ++ ".pkl") <> Path.join dir "model_metadata.json".
Proof.
  intros E. apply (f_equal Path.last_char) in E.
  rewrite !last_char_join in E.
  - rewrite last_char_app in E by discriminate. discriminate.
  - discriminate.
  - destruct name; discriminate.
Qed.

Lemma string_app_inv_head p a b : (p ++ a)%string = (p ++ b)%string -> a = b.
Proof. induction p as [|c p IH]; simpl; [auto|]. intros [= H]. auto. Qed.

Lemma string_app_length a b :
  String.length (a ++ b) = (String.length a + String.length b)%nat.
Proof. induction a as [|c a IH]; simpl; [reflexivity|]. rewrite IH. reflexivity. Qed.

Lemma string_app_inv_tail c : forall a b,
  (a ++ c)%string = (b ++ c)%string -> a = b.
Proof.
  induction a as [|x a IH]; intros [|y b] H.
  - reflexivity.
  - apply (f_equal String.length) in H.
    rewrite !string_app_length in H. simpl in H. lia.
  - apply (f_equal String.length) in H.
    rewrite !string_app_length in H. simpl in H. lia.
  - change (String x (a ++ c) = String y (b ++ c)) in H.
    injection H as -> H. f_equal. apply IH. exact H.
Qed.

Lemma join_plain dir a :
  Path.plain a = true ->
  Path.join dir a
  = if (String.eqb dir "" || Path.ends_with_slash dir)%bool
    then (dir ++ a)%string else (dir ++ "/" ++ a)%string.
Proof.
  intros H. unfold Path.join. destruct a as [|c a]; [reflexivity|].
  simpl in H. apply andb_prop in H as [H _]. apply andb_prop in H as [H _].
  destruct c as [[] [] [] [] [] [] [] []]; try reflexivity. discriminate H.
Qed.

Lemma join_plain_inj dir a b :
  Path.plain a = true -> Path.plain b = true ->
  Path.join dir a = Path.join dir b -> a = b.
Proof.
  intros Ha Hb. rewrite (join_plain dir a Ha), (join_plain dir b Hb).
  destruct (_ || _)%bool; intros H.
  - apply string_app_inv_head in H. exact H.
  - apply string_app_inv_head in H. apply (string_app_inv_head "/") in H. exact H.
Qed.

Lemma file_name_plain s : Path.file_name s = true -> Path.plain s = true.
Proof. unfold Path.file_name. intros H. apply andb_prop in H as [_ H]. exact H. Qed.

Lemma model_file_is_not_encoder_file dir name :
  Path.file_name (name ++ ".pkl") = true ->
  name <> "label_encoder"%string ->
  Path.join dir (name ++ ".pkl") <> Path.join dir "label_encoder.pkl".
Proof.
  intros Hf Hne E. apply Hne.
  apply join_plain_inj in E; [|apply file_name_plain; exact Hf|reflexivity].
  apply (string_app_inv_tail ".pkl" name "label_encoder"). exact E.
Qed.

(** X18. Take a model name that makes a file name of its own in the model
    directory. After [save_model], [load_model()] with no name on that
    directory succeeds. If the model is not named [label_encoder], the
    object is left loaded with the model, the encoder and the feature
    columns that were saved, and with metadata naming the model, its
    columns, its metrics and the time of saving. If it is named
    [label_encoder], the encoder was written over the model's file, and
    the load still succeeds but leaves the encoder where the model should
    be. *)
Theorem load_after_save (model_dir : string) (fs : gmap string ModelFiles.file)
    (clf : Model.t) (model_name : string) (encoder : LabelEncoder.t)
    (cols : list string) (metrics : Training.metrics)
    (self : ModelFiles.loader) (w : World) :
  Path.file_name (model_name ++ ".pkl") = true ->
  exists fs',
    fst (ModelFiles.save_model model_dir fs clf model_name encoder cols
           metrics w) = Some fs' /\
    let loaded := ModelFiles.load_model model_dir fs' self None in
    fst loaded = true /\
    (model_name <> "label_encoder"%string ->
     ModelFiles.inference (snd loaded)
     = {| ModelInference.model := Some clf;
          ModelInference.label_encoder := Some encoder;
          ModelInference.feature_columns := Some cols;
          ModelInference.model_loaded := true |}) /\
    (model_name = "label_encoder"%string ->
     ModelFiles.model (snd loaded) = Some (ModelFiles.ObjEncoder encoder)) /\
    exists md,
      ModelFiles.loaded_metadata (snd loaded) = Some md /\
      ModelFiles.model_name md = model_name /\
      ModelFiles.feature_columns md = cols /\
      ModelFiles.metrics md = metrics /\
      ModelFiles.training_date md = strftime_seconds (clock w 0%nat).
Proof.
  intros Hf.
  unfold ModelFiles.save_model. rewrite Hf. cbn [negb].
  unfold mbind, sim_bind, datetime_now_isoformat, mret, sim_ret. cbn [fst snd].
  eexists. split; [reflexivity|]. cbv zeta.
  unfold ModelFiles.load_model.
  rewrite lookup_insert_eq. cbn [default ModelFiles.model_name].
  unfold ModelFiles.joblib_load.
  rewrite lookup_insert_ne by (apply not_eq_sym, pkl_is_not_json).
  rewrite (lookup_insert_ne _ (Path.join model_dir "model_metadata.json")
             (Path.join model_dir "label_encoder.pkl"))
    by (apply not_eq_sym; apply (pkl_is_not_json model_dir "label_encoder")).
  rewrite (lookup_insert_eq _ (Path.join model_dir "label_encoder.pkl")).
  destruct (String.eqb_spec model_name "label_encoder") as [->|Hne].
  - rewrite lookup_insert_eq. cbn [fst snd].
    split; [reflexivity|]. split; [intros H; contradiction|].
    split; [intros _; reflexivity|].
    eexists. split; [reflexivity|]. repeat split; reflexivity.
  - rewrite lookup_insert_ne
      by (apply not_eq_sym, model_file_is_not_encoder_file; assumption).
    rewrite lookup_insert_eq. cbn [fst snd].
    split; [reflexivity|]. split; [intros _; reflexivity|].
    split; [intros H; contradiction|].
    eexists. split; [reflexivity|]. repeat split; reflexivity.
Qed.

Lemma load_after_save_witness :
  Path.file_name "xgboost.pkl" = true /\
  exists fs',
    fst (ModelFiles.save_model "models" ∅ demo_model "xgboost" demo_encoder
           demo_columns Training.xgb_example demo_world) = Some fs' /\
    fst (ModelFiles.load_model "models" fs' ModelFiles.__init__ None) = true /\
    ModelFiles.inference
      (snd (ModelFiles.load_model "models" fs' ModelFiles.__init__ None))
    = demo_inference.
Proof.
  split; [reflexivity|].
  destruct (load_after_save "models" ∅ demo_model "xgboost" demo_encoder
              demo_columns Training.xgb_example ModelFiles.__init__ demo_world
              eq_refl) as (fs' & Hs & H1 & H2 & _).
  exists fs'. split; [exact Hs|]. split; [exact H1|].
  apply H2. discriminate.
Defined.

(** X19. [load_model] returns exactly the [model_loaded] flag it leaves
    behind. Without a metadata file it fails and stores nothing. After
    any failed load, [predict] raises the [RuntimeError] on every input
    and [get_model_info] returns the error dictionary, even if the object
    had a model loaded before. *)
Theorem failed_load_blocks_predict (model_dir : string)
    (fs : gmap string ModelFiles.file) (self : ModelFiles.loader)
    (model_name : option string) :
  let loaded := ModelFiles.load_model model_dir fs self model_name in
  (fst loaded = ModelFiles.model_loaded (snd loaded)) /\
  (fs !! Path.join model_dir "model_metadata.json" = None ->
   loaded = ModelFiles.failed self) /\
  (fst loaded = false ->
   (forall input,
      ModelInference.predict (ModelFiles.inference (snd loaded)) input
      = inl (RuntimeError "Model not loaded. Call load_model() first.")) /\
   ModelFiles.get_model_info (snd loaded) = inr (inl "Model not loaded"%string)).
Proof.
  intros loaded. subst loaded. unfold ModelFiles.load_model.
  destruct (fs !! Path.join model_dir "model_metadata.json") as [[o|md|]|] eqn:Em;
    try (split; [reflexivity|]; split; [try discriminate; reflexivity|];
         intros _; split; [intros input|]; reflexivity).
  destruct (ModelFiles.joblib_load fs _) as [m|];
    [destruct (ModelFiles.joblib_load fs _) as [e|]|];
    (split; [reflexivity|]; split; [discriminate|]);
    try (intros _; split; [intros input|]; reflexivity).
  discriminate.
Qed.

(** ** The prediction endpoints *)

Lemma predict_many_shape self l out :
  ModelInference.predict self (Many l) = inr out ->
  except_map (ModelInference.predict_one self) l = inr (items out) /\
  shape out (length l).
Proof.
  intros H. destruct (predict_items self (Many l) out H) as [Hm Hs].
  split; [exact Hm|].
  apply except_map_Forall2, Forall2_length in Hm. cbn [items] in Hm.
  rewrite Hm. exact Hs.
Qed.

(** X20. With a loaded model, the handler of [/predict/batch] answers a
    batch of no machine with HTTP 500 [list index out of range], and a
    batch of exactly one machine with HTTP 500 as well, whatever the
    machine: [predict] returns a bare dictionary for a list of one, and
    the loop that stamps results then iterates over its keys. *)
Theorem small_batches_fail (mi : ModelInference.t) (w : World) :
  ModelInference.model_loaded mi = true ->
  (fst (App.predict_batch (Some mi) [] w)
   = inl (App.HTTP 500 "Batch prediction error: list index out of range")) /\
  (forall s, exists detail,
     fst (App.predict_batch (Some mi) [s] w) = inl (App.HTTP 500 detail)).
Proof.
  intros Hl. unfold App.predict_batch. rewrite Hl. cbn [negb map].
  split.
  - unfold ModelInference.predict. rewrite Hl. reflexivity.
  - intros s.
    destruct (ModelInference.predict mi (Many [App.model_dump s]))
      as [e|[r|l]] eqn:E.
    + eexists. reflexivity.
    + eexists. reflexivity.
    + apply predict_many_shape in E as [_ [Hs _]]. simpl in Hs. lia.
Qed.

Lemma small_batches_fail_witness :
  fst (App.predict_batch (Some demo_inference) [] demo_world)
  = inl (App.HTTP 500 "Batch prediction error: list index out of range") /\
  exists detail,
    fst (App.predict_batch (Some demo_inference) [demo_request "M001"]
           demo_world)
    = inl (App.HTTP 500 detail).
Proof.
  destruct (small_batches_fail demo_inference demo_world eq_refl) as [H0 H1].
  split; [exact H0|]. apply H1.
Defined.

(** X21. Whenever the handler of [/predict/batch] succeeds, the batch held at
    least two machines; [total_machines] is the number sent; the
    predictions are those of [predict] on each machine, in order; and
    every prediction carries the response's own timestamp, the head of
    the clock. *)
Theorem batch_shares_one_timestamp (mi : ModelInference.t)
    (machines : list App.SensorData) (w : World) (response : App.batch_response) :
  fst (App.predict_batch (Some mi) machines w) = inr response ->
  (2 <= length machines)%nat /\
  App.total_machines response = length machines /\
  App.batch_timestamp response = clock w 0%nat /\
  Forall2 (fun s p =>
             ModelInference.predict_one mi (App.model_dump s)
             = inr (App.result p) /\
             App.timestamp p = App.batch_timestamp response)
          machines (App.predictions response).
Proof.
  unfold App.predict_batch.
  destruct (ModelInference.model_loaded mi); [|discriminate]. cbn [negb].
  destruct (ModelInference.predict mi (Many (map App.model_dump machines)))
    as [e|[r|results]] eqn:E; try discriminate.
  unfold mbind, sim_bind, datetime_now_isoformat, mret, sim_ret. cbn [fst].
  intros [= <-]. cbn [App.total_machines App.batch_timestamp App.predictions].
  apply predict_many_shape in E as [Hm [H2 Hlen]]. cbn [items] in Hm.
  rewrite length_map in H2, Hlen.
  split; [lia|]. split; [exact Hlen|]. split; [reflexivity|].
  apply except_map_Forall2 in Hm.
  apply Forall2_fmap_l in Hm. apply Forall2_fmap_r.
  eapply Forall2_impl; [exact Hm|]. intros s r Hr. cbn [App.result App.timestamp].
  split; [exact Hr|reflexivity].
Qed.

Lemma batch_shares_one_timestamp_witness :
  exists response,
    fst (App.predict_batch (Some demo_inference) demo_batch demo_world)
    = inr response /\
    ((2 <= length demo_batch)%nat /\
     App.total_machines response = length demo_batch /\
     App.batch_timestamp response = clock demo_world 0%nat /\
     Forall2 (fun s p =>
                ModelInference.predict_one demo_inference (App.model_dump s)
                = inr (App.result p) /\
                App.timestamp p = App.batch_timestamp response)
             demo_batch (App.predictions response)).
Proof.
  eexists. split; [vm_compute; reflexivity|].
  apply (batch_shares_one_timestamp demo_inference demo_batch demo_world).
  vm_compute. reflexivity.
Defined.

Lemma api_type_lookup s : App.model_dump s !! "Type" = Some (PStr (App.Type_ s)).
Proof. reflexivity. Qed.

Lemma api_sensors s :
  App.validated s ->
  ModelInference.air_temp_of (App.model_dump s) = PFloat (App.air_temperature s) /\
  ModelInference.process_temp_of (App.model_dump s)
  = PFloat (App.process_temperature s) /\
  ModelInference.speed_of (App.model_dump s) = PInt (App.rotational_speed s) /\
  ModelInference.torque_of (App.model_dump s)
  = (if Qeq_bool (App.torque s) 0 then PNone else PFloat (App.torque s)).
Proof.
  intros (_ & [Ha Ha'] & [Hp _] & [Hs _] & _).
  unfold ModelInference.air_temp_of, ModelInference.process_temp_of,
    ModelInference.speed_of, ModelInference.torque_of.
  split; [|split; [|split]].
  - apply (or_get_present _ _ _ (PFloat (App.air_temperature s)) 290 310);
      [reflexivity| |lra].
    exists (App.air_temperature s). split; [reflexivity|].
    split; [exact Ha|exact Ha'].
  - apply or_truthy_l. simpl. apply negb_true_iff.
    destruct (Qeq_bool _ 0) eqn:E; [|reflexivity]. apply Qeq_bool_iff in E. lra.
  - apply or_truthy_l. simpl. apply negb_true_iff, Z.eqb_neq. lia.
  - assert (E1 : Py.get (App.model_dump s) "Torque [Nm]" = PFloat (App.torque s))
      by reflexivity.
    assert (E2 : Py.get (App.model_dump s) "Torque_Nm" = PNone) by reflexivity.
    rewrite E1, E2. unfold Py.or. cbn [Py.truthy].
    destruct (Qeq_bool (App.torque s) 0); reflexivity.
Qed.

Lemma api_type_known encoder s :
  knows_types encoder -> App.validated s ->
  exists code,
    LabelEncoder.transform encoder (PStr (App.Type_ s)) = inr code.
Proof. intros Hk (Hty & _). apply Hk. exact Hty. Qed.

(** X23. A request body that passes the [SensorData] validation with a
    torque of 0, which [ge=0] admits, is answered by [/predict] with
    HTTP 500: the [or] in [preprocess_input] turns the zero into [None]
    and the product with the speed raises [TypeError]. The clock is not
    read. *)
Theorem zero_torque_request_fails (mi : ModelInference.t)
    (encoder : LabelEncoder.t) (s : App.SensorData) (w : World) :
  ModelInference.model_loaded mi = true ->
  ModelInference.label_encoder mi = Some encoder ->
  knows_types encoder ->
  App.validated s ->
  App.torque s == 0 ->
  App.predict_single (Some mi) s w
  = (inl (App.HTTP 500
            "Prediction error: unsupported operand type(s) for *: 'NoneType' and 'int'"),
     w).
Proof.
  intros Hl He Hk Hv Ht.
  destruct (api_type_known encoder s Hk Hv) as [code Hcode].
  destruct (api_sensors s Hv) as (Ea & Ep & Es & Etq).
  apply Qeq_bool_iff in Ht. rewrite Ht in Etq.
  assert (Hpre : ModelInference.preprocess_input mi (App.model_dump s)
                 = inl (TypeError
                     "unsupported operand type(s) for *: 'NoneType' and 'int'")).
  { unfold ModelInference.preprocess_input. rewrite He.
    cbn [ModelInference.attribute]. unfold mbind, except_bind, Py.getitem.
    rewrite api_type_lookup, Hcode, Ea, Ep, Es, Etq. reflexivity. }
  unfold App.predict_single. rewrite Hl. cbn [negb].
  unfold ModelInference.predict. rewrite Hl. cbn [negb except_map].
  unfold mbind at 2, except_bind at 2.
  unfold ModelInference.predict_one at 1. unfold mbind at 2, except_bind at 2.
  rewrite Hpre. reflexivity.
Qed.

Lemma zero_torque_request_fails_witness :
  App.validated
    {| App.machine_id := "M001"; App.Type_ := "L";
       App.air_temperature := 300; App.process_temperature := 310;
       App.rotational_speed := 1500; App.torque := 0; App.tool_wear := 10 |} /\
  App.predict_single (Some demo_inference)
    {| App.machine_id := "M001"; App.Type_ := "L";
       App.air_temperature := 300; App.process_temperature := 310;
       App.rotational_speed := 1500; App.torque := 0; App.tool_wear := 10 |}
    demo_world
  = (inl (App.HTTP 500
            "Prediction error: unsupported operand type(s) for *: 'NoneType' and 'int'"),
     demo_world).
Proof.
  assert (Hv : App.validated
    {| App.machine_id := "M001"; App.Type_ := "L";
       App.air_temperature := 300; App.process_temperature := 310;
       App.rotational_speed := 1500; App.torque := 0; App.tool_wear := 10 |}).
  { unfold App.validated, within. simpl. repeat split; try lra; try lia. auto. }
  split; [exact Hv|].
  apply (zero_torque_request_fails demo_inference demo_encoder _ demo_world
           eq_refl eq_refl demo_knows_types Hv).
  reflexivity.
Defined.

(** X24. A request body that passes the [SensorData] validation with a
    non-zero torque is answered by the handler of [/predict] without
    error, given a loaded model that answers on every feature matrix, an
    encoder that knows the three types and feature columns among the
    eight engineered names: the response is the prediction of [predict]
    on the dumped body, echoing the machine id and the sensor values
    sent, stamped with the head of the clock. *)
Theorem valid_request_is_answered (mi : ModelInference.t)
    (encoder : LabelEncoder.t) (cols : list string) (clf : Model.t)
    (s : App.SensorData) (w : World) :
  ModelInference.model_loaded mi = true ->
  ModelInference.model mi = Some clf ->
  ModelInference.label_encoder mi = Some encoder ->
  ModelInference.feature_columns mi = Some cols ->
  Forall (fun c => In c demo_columns) cols ->
  knows_types encoder -> answers clf ->
  App.validated s ->
  ~ App.torque s == 0 ->
  exists r,
    fst (App.predict_single (Some mi) s w)
    = inr {| App.result := r; App.timestamp := clock w 0%nat |} /\
    ModelInference.predict_one mi (App.model_dump s) = inr r /\
    ModelInference.machine_id r = PStr (App.machine_id s) /\
    ModelInference.sensor_data r = App.model_dump s.
Proof.
  intros Hl Hm He Hc Hcols Hk Ha Hv Ht.
  destruct (api_type_known encoder s Hk Hv) as [code Hcode].
  destruct (api_sensors s Hv) as (Ea & Ep & Es & Etq).
  assert (Hb : Qeq_bool (App.torque s) 0 = false).
  { destruct (Qeq_bool (App.torque s) 0) eqn:E; [|reflexivity].
    apply Qeq_bool_iff in E. contradiction. }
  rewrite Hb in Etq.
  assert (Hpre : exists row,
            ModelInference.preprocess_input mi (App.model_dump s) = inr [row]).
  { unfold ModelInference.preprocess_input. rewrite He, Hc.
    cbn [ModelInference.attribute]. unfold mbind, except_bind, Py.getitem.
    rewrite api_type_lookup, Hcode, Ea, Ep, Es, Etq.
    cbn [Py.sub Py.mul Py.div1000].
    destruct (select_known_columns
      (ModelInference.features_dict (PFloat (App.air_temperature s))
         (PFloat (App.process_temperature s)) (PInt (App.rotational_speed s))
         (PFloat (App.torque s))
         (ModelInference.tool_wear_of (App.model_dump s)) code
         (PFloat (App.process_temperature s - App.air_temperature s))
         (PFloat (App.torque s * inject_Z (App.rotational_speed s) / 1000)))
      cols) as (row & Hrow & _).
    { eapply Forall_impl; [exact Hcols|]. intros c Hin.
      apply features_have_columns. exact Hin. }
    exists row. exact Hrow. }
  destruct Hpre as [row Hpre].
  destruct (Ha [row]) as (label & p & Hlabel & Hp).
  assert (Hone : exists r,
            ModelInference.predict_one mi (App.model_dump s) = inr r /\
            ModelInference.machine_id r = PStr (App.machine_id s) /\
            ModelInference.sensor_data r = App.model_dump s).
  { unfold ModelInference.predict_one, mbind, except_bind.
    rewrite Hpre, Hm. cbn [ModelInference.attribute]. rewrite Hlabel, Hp.
    eexists. split; [reflexivity|]. split; reflexivity. }
  destruct Hone as (r & Hr & Hid & Hsd). exists r.
  split; [|split; [exact Hr|split; assumption]].
  unfold App.predict_single. rewrite Hl. cbn [negb].
  unfold ModelInference.predict. rewrite Hl. cbn [negb except_map].
  unfold mbind at 2, except_bind at 2. rewrite Hr. reflexivity.
Qed.

Lemma valid_request_is_answered_witness :
  App.validated (demo_request "M001") /\
  exists r,
    fst (App.predict_single (Some demo_inference) (demo_request "M001") demo_world)
    = inr {| App.result := r; App.timestamp := clock demo_world 0%nat |} /\
    ModelInference.predict_one demo_inference
      (App.model_dump (demo_request "M001")) = inr r /\
    ModelInference.machine_id r = PStr (App.machine_id (demo_request "M001")) /\
    ModelInference.sensor_data r = App.model_dump (demo_request "M001").
Proof.
  assert (Hv : App.validated (demo_request "M001")).
  { unfold App.validated, within. simpl. repeat split; try lra; try lia. auto. }
  split; [exact Hv|].
  apply (valid_request_is_answered demo_inference demo_encoder demo_columns
           demo_model (demo_request "M001") demo_world eq_refl eq_refl eq_refl
           eq_refl).
  - apply Forall_forall. intros c Hc. apply list_elem_of_In. exact Hc.
  - apply demo_knows_types.
  - apply demo_answers.
  - exact Hv.
  - intros E. discriminate E.
Defined.
